(** * Vyom platform: the outfit composer and the layers around it

    A shallow embedding of the JavaScript services of the repository:

    - [OutfitService]: [generateOutfitRecommendation] and the
      [POST /generate] route of the outfit service;
    - [Gateway]: [proxyRequest] of the routing gateway;
    - [Monolith]: the [POST /outfits/generate] route of the single-process
      gateway, which keeps the wardrobe in a module-level array;
    - in the second part, [GatewayHealth] ([GET /health] of the routing
      gateway), [Auth] (the middleware [authenticateToken]),
      [MonolithWardrobe] and [MonolithAuth] (the wardrobe and the
      authentication routes of the single-process gateway), [AuthService]
      (login and [GET /me] of the authentication service) and
      [ProfileService] (the quiz and the recommendations of the profile
      service).

    Effects are explicit.  [Math.random()], [Date.now()] and the outbound
    [axios] call read a [World]; the number of reads made so far is the
    state that is threaded through the code.  A JavaScript exception is the
    [Throw] result.

    Numbers: JavaScript numbers are IEEE doubles.  They are modelled here
    by exact rationals ([Q]); [Math.random()] is a rational of [[0, 1)].
    Rounding of the double operations is not modelled, except where the
    single-process gateway computes the id of a new user
    ([MonolithAuth.plus_one]). *)

From Stdlib Require Import List String Ascii Bool Arith ZArith QArith Qround Lia Lqa.
From Stdlib Require Import DecimalString.
Import ListNotations.

Local Open Scope string_scope.
Local Open Scope list_scope.

(** ** JavaScript values that reach the code as preference fields *)

Module JS.

(** A field of the request body, which the interface declares as an
    optional string: absent ([undefined]), [null], or a string. *)
Inductive value : Type :=
| Undefined
| Null
| Str (s : string).

(** [ToBoolean]. *)
Definition truthy (v : value) : bool :=
  match v with
  | Undefined => false
  | Null => false
  | Str s => negb (s =? "")
  end.

(** A destructuring default [{ x = d }]: taken when the field is
    [undefined] and only then. *)
Definition default_to (d : string) (v : value) : value :=
  match v with
  | Undefined => Str d
  | _ => v
  end.

(** [v === 'lit']. *)
Definition strict_eq_str (v : value) (lit : string) : bool :=
  match v with
  | Str s => s =? lit
  | _ => false
  end.

(** [ToString], as a template literal applies it. *)
Definition to_string (v : value) : string :=
  match v with
  | Undefined => "undefined"
  | Null => "null"
  | Str s => s
  end.

(** [arr.includes(v)] on an array of strings. *)
Definition includes (arr : list string) (v : value) : bool :=
  match v with
  | Str s => existsb (String.eqb s) arr
  | _ => false
  end.

(** [arr?.includes(v)], read as a condition: an absent array gives
    [undefined], which is falsy. *)
Definition opt_includes (arr : option (list string)) (v : value) : bool :=
  match arr with
  | Some a => includes a v
  | None => false
  end.

(** [lits.includes(s)] for an array literal of strings and a string. *)
Definition one_of (lits : list string) (s : string) : bool :=
  existsb (String.eqb s) lits.

(** [names.join(sep)]. *)
Fixpoint join (sep : string) (l : list string) : string :=
  match l with
  | [] => ""
  | [x] => x
  | x :: rest => (x ++ sep ++ join sep rest)%string
  end.

(** Decimal rendering of an integer, as a template literal prints it. *)
Definition show_Z (z : Z) : string := NilZero.string_of_int (Z.to_int z).
Definition show_nat (n : nat) : string := NilZero.string_of_uint (Nat.to_uint n).

(** [a < b] and [a > b] on numbers. *)
Definition lt (a b : Q) : bool := (Qnum a * QDen b <? Qnum b * QDen a)%Z.
Definition gt (a b : Q) : bool := lt b a.

(** [Math.floor]. *)
Definition floor (x : Q) : Z := Qfloor x.

(** A number as a comparison sees it: [NaN], a rational, or an infinity. *)
Inductive number : Type :=
| NaN
| Finite (q : Q)
| Infinity (positive : bool).

(** A field the interface declares as an optional number, as a JSON body
    can fill it with a scalar: absent ([undefined]), [null], a boolean, a
    number, or a string.  An array or an object in such a field is not
    modelled. *)
Inductive scalar : Type :=
| Absent
| IsNull
| Bool (b : bool)
| Num (q : Q)
| Text (s : string).

(** [ToNumber] of a scalar; [StringToNumber] is [ToNumber] on strings. *)
Definition to_number (StringToNumber : string -> number) (v : scalar) : number :=
  match v with
  | Absent => NaN
  | IsNull => Finite 0
  | Bool b => Finite (if b then 1 else 0)
  | Num q => Finite q
  | Text s => StringToNumber s
  end.

(** [a < b] on numbers: false when either is [NaN]. *)
Definition lt_number (a b : number) : bool :=
  match a, b with
  | NaN, _ => false
  | _, NaN => false
  | Finite x, Finite y => lt x y
  | Finite _, Infinity positive => positive
  | Infinity positive, Finite _ => negb positive
  | Infinity pa, Infinity pb => negb pa && pb
  end.

End JS.

(** ** Data model *)

(** One document of the wardrobe collection.  [seasons] and [occasions] are
    [None] when the document has no such field. *)
Record ClothingItem : Type := mkItem {
  item_id : string;
  userId : string;
  name : string;
  category : string;
  colors : list string;
  seasons : option (list string);
  occasions : option (list string)
}.

Record Weather : Type := mkWeather {
  temperature : JS.scalar;
  condition : option string
}.

(** The [preferences] object of a request.  The composer reads [occasion],
    [season] and [style]; anything else the caller puts there, such as a
    weather summary, is carried along unread. *)
Record Preferences : Type := mkPrefs {
  occasion : JS.value;
  season : JS.value;
  style : JS.value;
  weather : option Weather
}.

(** [{}] *)
Definition no_preferences : Preferences :=
  mkPrefs JS.Undefined JS.Undefined JS.Undefined None.

(** What stands where preferences are expected, in a JSON body or in a
    call: nothing ([undefined]), [null], or an object.  A boolean, a
    number, a string or an array there, which the destructuring reads as an
    object without the three fields, is not modelled. *)
Inductive PreferencesValue : Type :=
| PrefsUndefined
| PrefsNull
| PrefsObject (p : Preferences).

(** One generated outfit of the outfit service. *)
Record Outfit : Type := mkOutfit {
  outfit_id : string;
  outfit_occasion : JS.value;
  outfit_season : JS.value;
  outfit_style : JS.value;
  items : list ClothingItem;
  confidence : Q;
  description : string
}.

(** ** Effects *)

(** An HTTP response as [axios] hands it over: its status and its parsed
    body, of type [D]. *)
Record HttpResponse (D : Type) : Type := mkHttp {
  http_status : nat;
  http_data : D
}.
Arguments mkHttp {D} _ _.
Arguments http_status {D} _.
Arguments http_data {D} _.

(** How an [axios] call ends: the promise resolves with a 2xx response, or
    it rejects with an error that has a [code] (or none) and, when the
    server answered with another status, a [response]. *)
Inductive AxiosResult (D : Type) : Type :=
| Resolved (response : HttpResponse D)
| Rejected (code : option string) (response : option (HttpResponse D)).
Arguments Resolved {D} _.
Arguments Rejected {D} _ _.

(** What the code reads from outside: the successive results of
    [Math.random()], of [Date.now()] and of the [axios] calls. *)
Record World (D : Type) : Type := mkWorld {
  random : nat -> Q;
  clock : nat -> Z;
  axios : nat -> AxiosResult D
}.
Arguments mkWorld {D} _ _ _.
Arguments random {D} _ _.
Arguments clock {D} _ _.
Arguments axios {D} _ _.

(** How many reads of each kind have been made. *)
Record Reads : Type := mkReads {
  n_random : nat;
  n_clock : nat;
  n_axios : nat
}.

Definition no_reads : Reads := mkReads 0 0 0.

(** What a [catch] clause can receive. *)
Inductive Exn (D : Type) : Type :=
| TypeError (msg : string)
| AxiosError (code : option string) (response : option (HttpResponse D)).
Arguments TypeError {D} _.
Arguments AxiosError {D} _ _.

Inductive result (D A : Type) : Type :=
| Ok (a : A)
| Throw (e : Exn D).
Arguments Ok {D A} a.
Arguments Throw {D A} e.

Definition M (D A : Type) : Type := World D -> Reads -> result D A * Reads.

Section Monad.
Context {D : Type}.

Definition ret {A} (a : A) : M D A := fun _ s => (Ok a, s).

Definition bind {A B} (m : M D A) (k : A -> M D B) : M D B :=
  fun w s =>
    match m w s with
    | (Ok a, s') => k a w s'
    | (Throw e, s') => (Throw e, s')
    end.

Definition throw {A} (e : Exn D) : M D A := fun _ s => (Throw e, s).

(** [try { m } catch (error) { h error }] *)
Definition try_catch {A} (m : M D A) (h : Exn D -> M D A) : M D A :=
  fun w s =>
    match m w s with
    | (Ok a, s') => (Ok a, s')
    | (Throw e, s') => h e w s'
    end.

(** [Math.random()] *)
Definition Math_random : M D Q :=
  fun w s =>
    (Ok (random w (n_random s)),
     mkReads (S (n_random s)) (n_clock s) (n_axios s)).

(** [Date.now()] *)
Definition Date_now : M D Z :=
  fun w s =>
    (Ok (clock w (n_clock s)),
     mkReads (n_random s) (S (n_clock s)) (n_axios s)).

(** [await axios(...)]: a rejected promise throws at the [await]. *)
Definition await_axios : M D (HttpResponse D) :=
  fun w s =>
    let s' := mkReads (n_random s) (n_clock s) (S (n_axios s)) in
    match axios w (n_axios s) with
    | Resolved r => (Ok r, s')
    | Rejected code r => (Throw (AxiosError code r), s')
    end.

End Monad.

Declare Scope js_scope.
Delimit Scope js_scope with js.
Notation "x <- m ;; k" := (bind m (fun x => k))
  (at level 61, m at next level, right associativity) : js_scope.
Local Open Scope js_scope.

(** [error.code] *)
Definition error_code {D} (e : Exn D) : option string :=
  match e with
  | TypeError _ => None
  | AxiosError code _ => code
  end.

(** [error.response] *)
Definition error_response {D} (e : Exn D) : option (HttpResponse D) :=
  match e with
  | TypeError _ => None
  | AxiosError _ r => r
  end.

(** [error.code === 'lit'] *)
Definition code_is {D} (e : Exn D) (lit : string) : bool :=
  match error_code e with
  | Some c => c =? lit
  | None => false
  end.

(** [arr[i]]: [undefined] ([None]) outside the array. *)
Definition index {A} (arr : list A) (i : Z) : option A :=
  if (i <? 0)%Z then None else nth_error arr (Z.to_nat i).

(** [arr[Math.floor(Math.random() * arr.length)]] *)
Definition random_element {D A} (arr : list A) : M D (option A) :=
  r <- Math_random ;;
  ret (index arr (JS.floor (r * inject_Z (Z.of_nat (List.length arr))))).

(** What a handler sends back: [res.status(status).json(body)]. *)
Record Response (B : Type) : Type := mkResponse {
  status : nat;
  body : B
}.
Arguments mkResponse {B} _ _.
Arguments status {B} _.
Arguments body {B} _.

(** ** The outfit service *)

Module OutfitService.

Definition top_categories : list string := ["top"; "shirt"; "blouse"; "t-shirt"].
Definition bottom_categories : list string := ["bottom"; "pants"; "jeans"; "skirt"; "shorts"].
Definition outerwear_categories : list string := ["outerwear"; "jacket"; "coat"; "blazer"].
Definition footwear_categories : list string := ["footwear"; "shoes"; "boots"; "sneakers"].
Definition accessory_categories : list string := ["accessory"; "belt"; "bag"; "jewelry"].

Definition is_top (it : ClothingItem) : bool := JS.one_of top_categories (category it).
Definition is_bottom (it : ClothingItem) : bool := JS.one_of bottom_categories (category it).
Definition is_outerwear (it : ClothingItem) : bool := JS.one_of outerwear_categories (category it).
Definition is_footwear (it : ClothingItem) : bool := JS.one_of footwear_categories (category it).
Definition is_accessory (it : ClothingItem) : bool := JS.one_of accessory_categories (category it).

(** The three fields after the destructuring defaults. *)
Definition effective_occasion (p : Preferences) : JS.value := JS.default_to "casual" (occasion p).
Definition effective_season (p : Preferences) : JS.value := JS.default_to "all-year" (season p).
Definition effective_style (p : Preferences) : JS.value := JS.default_to "comfortable" (style p).

(** The predicate of the first [filter]. *)
Definition matchesOccasion (occ : JS.value) (it : ClothingItem) : bool :=
  negb (JS.truthy occ) || JS.opt_includes (occasions it) occ.

Definition matchesSeason (sea : JS.value) (it : ClothingItem) : bool :=
  negb (JS.truthy sea) || JS.strict_eq_str sea "all-year" || JS.opt_includes (seasons it) sea.

Definition eligible (p : Preferences) (it : ClothingItem) : bool :=
  matchesOccasion (effective_occasion p) it && matchesSeason (effective_season p) it.

Definition availableItems (clothingItems : list ClothingItem) (p : Preferences)
  : list ClothingItem :=
  filter (eligible p) clothingItems.

Record Categories : Type := mkCategories {
  cat_top : list ClothingItem;
  cat_bottom : list ClothingItem;
  cat_outerwear : list ClothingItem;
  cat_footwear : list ClothingItem;
  cat_accessories : list ClothingItem
}.

Definition categorize (available : list ClothingItem) : Categories :=
  mkCategories (filter is_top available) (filter is_bottom available)
               (filter is_outerwear available) (filter is_footwear available)
               (filter is_accessory available).

Section Composer.
Context {D : Type}.

(** [if (arr.length > 0) items.push(random element of arr)].  The pushed
    value is [None] when the index falls outside the array. *)
Definition push_pick (arr : list ClothingItem) (picked : list (option ClothingItem))
  : M D (list (option ClothingItem)) :=
  match arr with
  | [] => ret picked
  | _ :: _ => x <- random_element arr ;; ret (picked ++ [x])
  end.

(** [if (arr.length > 0 && Math.random() > t) items.push(...)]: the
    draw is made only when the array is not empty. *)
Definition push_pick_above (t : Q) (arr : list ClothingItem)
    (picked : list (option ClothingItem)) : M D (list (option ClothingItem)) :=
  match arr with
  | [] => ret picked
  | _ :: _ =>
      r <- Math_random ;;
      if JS.gt r t then x <- random_element arr ;; ret (picked ++ [x])
      else ret picked
  end.

(** [outfit.items.map(item => item.name)]: reading [name] of [undefined]
    throws. *)
Fixpoint item_names (picked : list (option ClothingItem)) : result D (list string) :=
  match picked with
  | [] => Ok []
  | None :: _ => Throw (TypeError "Cannot read properties of undefined (reading 'name')")
  | Some it :: rest =>
      match item_names rest with
      | Ok ns => Ok (name it :: ns)
      | Throw e => Throw e
      end
  end.

(** The elements of an array none of which is [undefined]. *)
Fixpoint defined (picked : list (option ClothingItem)) : list ClothingItem :=
  match picked with
  | [] => []
  | Some it :: rest => it :: defined rest
  | None :: rest => defined rest
  end.

(** One turn of the [for] loop, with loop variable [i]; the result is the
    array [outfits] after the turn. *)
Definition iteration (cats : Categories) (occ sea sty : JS.value) (i : nat)
    (outfits : list Outfit) : M D (list Outfit) :=
  t <- Date_now ;;
  c <- Math_random ;;
  let id := ("outfit_" ++ JS.show_Z t ++ "_" ++ JS.show_nat i)%string in
  let conf := (85 # 100) + c * (1 # 10) in
  p1 <- push_pick (cat_top cats) [] ;;
  p2 <- push_pick (cat_bottom cats) p1 ;;
  p3 <- push_pick_above (1 # 2) (cat_outerwear cats) p2 ;;
  p4 <- push_pick (cat_footwear cats) p3 ;;
  p5 <- push_pick_above (3 # 10) (cat_accessories cats) p4 ;;
  match item_names p5 with
  | Throw e => throw e
  | Ok names =>
      let itemNames := JS.join ", " names in
      let desc := ("Perfect " ++ JS.to_string occ ++ " outfit for "
                   ++ JS.to_string sea ++ ": " ++ itemNames)%string in
      let outfit := mkOutfit id occ sea sty (defined p5) conf desc in
      if (2 <=? List.length p5)%nat then ret (outfits ++ [outfit]) else ret outfits
  end.

(** [for (let i = from; i < from + turns; i++)] *)
Fixpoint loop (cats : Categories) (occ sea sty : JS.value) (turns from : nat)
    (outfits : list Outfit) : M D (list Outfit) :=
  match turns with
  | O => ret outfits
  | S turns' =>
      outfits' <- iteration cats occ sea sty from outfits ;;
      loop cats occ sea sty turns' (S from) outfits'
  end.

Definition generateOutfitRecommendation (clothingItems : list ClothingItem)
    (preferences : Preferences) : M D (list Outfit) :=
  let occ := effective_occasion preferences in
  let sea := effective_season preferences in
  let sty := effective_style preferences in
  let cats := categorize (availableItems clothingItems preferences) in
  outfits <- loop cats occ sea sty 3 0 [] ;;
  ret (filter (fun o => (0 <? List.length (items o))%nat) outfits).

(** The call [generateOutfitRecommendation(clothingItems, preferences)]
    for whatever is passed as [preferences].  The parameter default [= {}]
    stands in for [undefined] and for nothing else: [null] reaches the
    destructuring of the first line, which throws before anything is
    read. *)
Definition call_generateOutfitRecommendation (clothingItems : list ClothingItem)
    (preferences : PreferencesValue) : M D (list Outfit) :=
  match preferences with
  | PrefsUndefined => generateOutfitRecommendation clothingItems no_preferences
  | PrefsNull =>
      throw (TypeError
               "Cannot destructure property 'occasion' of 'preferences' as it is null.")
  | PrefsObject p => generateOutfitRecommendation clothingItems p
  end.

End Composer.

(** *** [POST /generate] *)

(** The body the wardrobe service answers [GET /items] with. *)
Record WardrobeData : Type := mkWardrobeData {
  success : bool;
  wardrobe_items : option (list ClothingItem)
}.

(** [req.body] *)
Record GenerateRequest : Type := mkGenerateRequest {
  req_preferences : PreferencesValue
}.

(** The JSON bodies the route sends. *)
Inductive GenerateBody : Type :=
| (** [{ error }] *)
  ErrorBody (error : string)
| (** [{ success: true, outfits: [], message }] *)
  EmptyWardrobeBody (message : string)
| (** [{ success: true, count, outfits, preferences, wardrobeItemsCount }] *)
  OutfitsBody (count : nat) (outfits : list Outfit) (preferences : PreferencesValue)
              (wardrobeItemsCount : nat)
| (** [{ error, fallback: true }] *)
  FallbackBody (error : string).

(** The [catch] clause of the route. *)
Definition generate_catch (error : Exn WardrobeData)
  : M WardrobeData (Response GenerateBody) :=
  if code_is error "ECONNREFUSED" || code_is error "ENOTFOUND" then
    ret (mkResponse 503 (FallbackBody "Wardrobe service temporarily unavailable"))
  else
    ret (mkResponse 500 (ErrorBody "Failed to generate outfit recommendations")).

(** [const { preferences = {} } = req.body]: the default is taken for
    [undefined] and only then. *)
Definition destructure_preferences (req : GenerateRequest) : PreferencesValue :=
  match req_preferences req with
  | PrefsUndefined => PrefsObject no_preferences
  | given => given
  end.

(** The handler, once [authenticateToken] has let the request through. *)
Definition generate_route (req : GenerateRequest)
  : M WardrobeData (Response GenerateBody) :=
  try_catch
    (let preferences := destructure_preferences req in
     wardrobeResponse <- await_axios ;;
     if negb (success (http_data wardrobeResponse)) then
       ret (mkResponse 400 (ErrorBody "Failed to fetch wardrobe items"))
     else
       match wardrobe_items (http_data wardrobeResponse) with
       | None =>
           throw (TypeError "Cannot read properties of undefined (reading 'length')")
       | Some clothingItems =>
           if (List.length clothingItems =? 0)%nat then
             ret (mkResponse 200 (EmptyWardrobeBody
                    "No clothing items found. Add some items to your wardrobe first!"))
           else
             outfits <- call_generateOutfitRecommendation clothingItems preferences ;;
             ret (mkResponse 200
                    (OutfitsBody (List.length outfits) outfits preferences
                                 (List.length clothingItems)))
       end)
    generate_catch.

End OutfitService.

(** ** The routing gateway *)

Module Gateway.

Section Proxy.
Context {D : Type}.

(** The JSON bodies [proxyRequest] sends. *)
Inductive ProxyBody : Type :=
| (** the downstream body, passed on as it is *)
  Forwarded (data : D)
| (** [{ error: 'Service temporarily unavailable', service, message }] *)
  ServiceUnavailable (service : string)
| (** [{ error: 'Gateway error', message }] *)
  GatewayError.

Definition proxyRequest (serviceUrl path : string) : M D (Response ProxyBody) :=
  try_catch
    (response <- await_axios ;;
     ret (mkResponse (http_status response) (Forwarded (http_data response))))
    (fun error =>
       match error_response error with
       | Some r => ret (mkResponse (http_status r) (Forwarded (http_data r)))
       | None =>
           if code_is error "ECONNREFUSED" then
             ret (mkResponse 503 (ServiceUnavailable serviceUrl))
           else
             ret (mkResponse 500 GatewayError)
       end).

End Proxy.

End Gateway.

(** ** The single-process gateway *)

Module Monolith.

(** [req.body] of [POST /outfits/generate].  [req_weather] is [None] when
    the body has no [weather] or holds [null] there: either way
    [weather || {...}] takes the default and [weather?.temperature] is
    [undefined]. *)
Record OutfitRequest : Type := mkOutfitRequest {
  req_occasion : JS.value;
  req_weather : option Weather;
  req_date : JS.value
}.

Record Outfit : Type := mkOutfit {
  id : string;
  occasion : JS.value;
  scheduledFor : JS.value;
  weather : Weather;
  items : list (option ClothingItem);
  confidence : Q
}.

Inductive OutfitBody : Type :=
| (** [{ error }] *)
  ErrorBody (error : string)
| (** [{ success: true, message, outfit, tips }] *)
  OutfitBodyOk (outfit : Outfit).

(** [a || 'lit'] *)
Definition or_else (a : JS.value) (lit : string) : JS.value :=
  if JS.truthy a then a else JS.Str lit.

(** [s.split('T')[0]] *)
Fixpoint before_T (s : string) : string :=
  match s with
  | EmptyString => EmptyString
  | String c rest => if Ascii.eqb c "T" then EmptyString else String c (before_T rest)
  end.

Section Route.
Context {D : Type}.

(** The renderings of a number in base 36 and of an instant as an ISO
    string, and the conversion of a string to a number, are not modelled;
    they are taken as given. *)
Variable toString36 : Q -> string.
Variable toISOString : Z -> string.
Variable StringToNumber : string -> JS.number.

(** [weather?.temperature < 70].  The comparison converts the temperature
    to a number first: a missing weather or temperature gives [NaN], for
    which it is false; [null] and [false] give 0, for which it is true. *)
Definition below_70 (w : option Weather) : bool :=
  match w with
  | Some w' =>
      JS.lt_number (JS.to_number StringToNumber (temperature w')) (JS.Finite (70 # 1))
  | None => false
  end.

(** The handler, once [authenticateToken] has let the request of the user
    [uuid] through; [clothingItems] is the module-level array at that
    moment. *)
Definition outfits_generate (clothingItems : list ClothingItem) (uuid : string)
    (req : OutfitRequest) : M D (Response OutfitBody) :=
  try_catch
    (let userItems := filter (fun item => userId item =? uuid) clothingItems in
     if (List.length userItems =? 0)%nat then
       ret (mkResponse 400 (ErrorBody "No clothing items found. Add some items first!"))
     else
       let tops := filter (fun item => category item =? "top") userItems in
       let outerwear := filter (fun item => category item =? "outerwear") userItems in
       r <- Math_random ;;
       scheduled <- (if JS.truthy (req_date req) then ret (req_date req)
                     else t <- Date_now ;; ret (JS.Str (before_T (toISOString t)))) ;;
       let outfit0 :=
         mkOutfit (substring 2 9 (toString36 r))
                  (or_else (req_occasion req) "casual")
                  scheduled
                  (match req_weather req with
                   | Some w => w
                   | None => mkWeather (JS.Num (72 # 1)) (Some "sunny")
                   end)
                  [] (85 # 100) in
       items1 <- (match tops with
                  | [] => ret []
                  | _ :: _ => x <- random_element tops ;; ret [x]
                  end) ;;
       items2 <- (if (0 <? List.length outerwear)%nat && below_70 (req_weather req)
                  then x <- random_element outerwear ;; ret (items1 ++ [x])
                  else ret items1) ;;
       ret (mkResponse 200
              (OutfitBodyOk (mkOutfit (id outfit0) (occasion outfit0) (scheduledFor outfit0)
                                      (weather outfit0) items2 (confidence outfit0)))))
    (fun _ => ret (mkResponse 500 (ErrorBody "Failed to generate outfit"))).

End Route.

End Monolith.

(** * Vocabulary of the statements *)

Section Vocabulary.
Import OutfitService.
Context {D : Type}.
Implicit Types (w : World D) (s : Reads) (arr : list ClothingItem)
  (picked : list (option ClothingItem)) (cats : Categories).

(** [Math.random()] keeps its contract: every draw lies in [[0, 1)]. *)
Definition valid_random w : Prop :=
  forall n, 0 <= random w n /\ random w n < 1.

(** Nothing but [Math.random()] was read between [s] and [s']. *)
Definition only_random s s' : Prop :=
  n_clock s' = n_clock s /\ n_axios s' = n_axios s.

(** What one slot contributes to [outfit.items]: nothing, [undefined]
    (only when a draw breaks the contract of [Math.random]), or one element
    of the slot's array.  With [must], nothing is contributed only when the
    array is empty. *)
Definition slot_pick (valid : Prop) (must : bool) arr picked : Prop :=
  (picked = [] /\ (must = true -> arr = []))
  \/ (picked = [None] /\ ~ valid)
  \/ (exists it, picked = [Some it] /\ In it arr).

(** The outfit one turn builds from what the five slots contributed. *)
Definition outfit_of (occ sea sty : JS.value) (t : Z) (c : Q) (i : nat)
    (names : list string) (picked : list (option ClothingItem)) : Outfit :=
  mkOutfit ("outfit_" ++ JS.show_Z t ++ "_" ++ JS.show_nat i)%string occ sea sty
           (defined picked) ((85 # 100) + c * (1 # 10))
           ("Perfect " ++ JS.to_string occ ++ " outfit for "
            ++ JS.to_string sea ++ ": " ++ JS.join ", " names)%string.

(** What one slot contributes to a finished outfit. *)
Definition one_from (must : bool) arr (l : list ClothingItem) : Prop :=
  (l = [] /\ (must = true -> arr = [])) \/ (exists it, l = [it] /\ In it arr).

(** The items of a finished outfit: one contribution per slot, in the
    order top, bottom, outerwear, footwear, accessory. *)
Definition composed cats (its : list ClothingItem) : Prop :=
  exists t b o f a,
    its = t ++ b ++ o ++ f ++ a
    /\ one_from true (cat_top cats) t
    /\ one_from true (cat_bottom cats) b
    /\ one_from false (cat_outerwear cats) o
    /\ one_from true (cat_footwear cats) f
    /\ one_from false (cat_accessories cats) a.

(** What holds of every outfit the loop pushes. *)
Record pushed cats (occ sea sty : JS.value) w (o : Outfit) : Prop := mkPushed {
  pushed_items : composed cats (items o);
  pushed_length : (2 <= List.length (items o))%nat;
  pushed_confidence : exists n, confidence o = (85 # 100) + random w n * (1 # 10);
  pushed_occasion : outfit_occasion o = occ;
  pushed_season : outfit_season o = sea;
  pushed_style : outfit_style o = sty;
  pushed_description :
    description o =
      ("Perfect " ++ JS.to_string occ ++ " outfit for " ++ JS.to_string sea ++ ": "
       ++ JS.join ", " (map name (items o)))%string
}.

(** The slots are such that every outfit composed from them has two items
    or more. *)
Definition never_short cats : Prop :=
  forall its, composed cats its -> (2 <= List.length its)%nat.

(** The eligibility test as C4 words it: an unset preference field lets
    every item through.  Unset is read as not supplied, [null] or empty,
    which is what [!occasion] tests. *)
Definition eligible_as_claimed (p : Preferences) (it : ClothingItem) : bool :=
  (negb (JS.truthy (occasion p)) || JS.opt_includes (occasions it) (occasion p))
  && (negb (JS.truthy (season p)) || JS.strict_eq_str (season p) "all-year"
      || JS.opt_includes (seasons it) (season p)).

(** The tags, when the item has any, hold the string [v]. *)
Definition tagged (tags : option (list string)) (v : JS.value) : Prop :=
  exists l tag, tags = Some l /\ v = JS.Str tag /\ In tag l.

(** The two worlds give the same draws. *)
Definition same_draws w1 w2 : Prop := forall n, random w1 n = random w2 n.

(** The two worlds give the same clock readings. *)
Definition same_clock w1 w2 : Prop := forall n, clock w1 n = clock w2 n.

(** Two results agree: both return, with values related by [R], or both
    throw the same exception. *)
Definition agree {A} (R : A -> A -> Prop) (r1 r2 : result D A) : Prop :=
  match r1, r2 with
  | Ok a1, Ok a2 => R a1 a2
  | Throw e1, Throw e2 => e1 = e2
  | _, _ => False
  end.

(** Run in two worlds with the same draws (and with the same clock when
    [C] holds) from the same count of reads, [m1] and [m2] agree and have
    made the same reads. *)
Definition related {A} (C : Prop) (R : A -> A -> Prop) (m1 m2 : M D A) : Prop :=
  forall w1 w2 s,
    same_draws w1 w2 -> (C -> same_clock w1 w2) ->
    snd (m1 w1 s) = snd (m2 w2 s) /\ agree R (fst (m1 w1 s)) (fst (m2 w2 s)).

(** Two outfits with the same fields, the [id] left aside unless [C]
    holds. *)
Definition same_outfit (C : Prop) (o1 o2 : Outfit) : Prop :=
  (C -> outfit_id o1 = outfit_id o2)
  /\ outfit_occasion o1 = outfit_occasion o2
  /\ outfit_season o1 = outfit_season o2
  /\ outfit_style o1 = outfit_style o2
  /\ items o1 = items o2
  /\ confidence o1 = confidence o2
  /\ description o1 = description o2.

End Vocabulary.

(** * Example data *)

Module Examples.

Definition white_tee : ClothingItem :=
  mkItem "item-1" "user-1" "White Tee" "top" ["white"] None (Some ["casual"]).

Definition blue_jeans : ClothingItem :=
  mkItem "item-2" "user-1" "Blue Jeans" "bottom" ["blue"] None (Some ["casual"]).

Definition sneakers : ClothingItem :=
  mkItem "item-3" "user-1" "Sneakers" "sneakers" ["white"] None (Some ["casual"]).

Definition rain_jacket : ClothingItem :=
  mkItem "item-4" "user-1" "Rain Jacket" "outerwear" ["green"] None (Some ["casual"]).

Definition evening_gown : ClothingItem :=
  mkItem "item-5" "user-1" "Evening Gown" "top" ["black"] (Some ["winter"]) (Some ["formal"]).

(** A world whose draws are all [1/4], whose clock advances by one
    millisecond per read, and in which every [axios] call is refused. *)
Definition quarter_world (D : Type) : World D :=
  mkWorld (fun _ => 1 # 4) (fun n => 1700000000000 + Z.of_nat n)%Z
          (fun _ => Rejected (Some "ECONNREFUSED") None).

(** The same world one second later. *)
Definition later_world (D : Type) : World D :=
  mkWorld (fun _ => 1 # 4) (fun n => 1700000001000 + Z.of_nat n)%Z
          (fun _ => Rejected (Some "ECONNREFUSED") None).

End Examples.

Module RouteExamples.

(** The wardrobe service answers with an empty wardrobe. *)
Definition empty_wardrobe_world : World OutfitService.WardrobeData :=
  mkWorld (fun _ => 1 # 4) (fun n => 1700000000000 + Z.of_nat n)%Z
          (fun _ => Resolved (mkHttp 200 (OutfitService.mkWardrobeData true (Some [])))).

(** The connection to the wardrobe service times out. *)
Definition timeout_world (D : Type) : World D :=
  mkWorld (fun _ => 1 # 4) (fun n => 1700000000000 + Z.of_nat n)%Z
          (fun _ => Rejected (Some "ETIMEDOUT") None).

(** The name of the downstream host does not resolve. *)
Definition not_found_world (D : Type) : World D :=
  mkWorld (fun _ => 1 # 4) (fun n => 1700000000000 + Z.of_nat n)%Z
          (fun _ => Rejected (Some "ENOTFOUND") None).

Definition no_body : OutfitService.GenerateRequest :=
  OutfitService.mkGenerateRequest PrefsUndefined.

(** A request to the single-process gateway on a cold day. *)
Definition cold_request : Monolith.OutfitRequest :=
  Monolith.mkOutfitRequest JS.Undefined (Some (mkWeather (JS.Num (40 # 1)) (Some "snow")))
                           (JS.Str "2024-01-15").

(** A preference that carries a cold weather summary. *)
Definition cold_preferences : Preferences :=
  mkPrefs JS.Undefined JS.Undefined JS.Undefined
          (Some (mkWeather (JS.Num (40 # 1)) (Some "snow"))).

Definition some_base36 (r : Q) : string := "0.9zh5kq2mbx".
Definition some_iso (t : Z) : string := "2023-11-14T22:13:20.000Z".

(** A stand-in for the conversion of a string to a number that knows the
    empty string, which converts to 0. *)
Definition some_number (str : string) : JS.number :=
  if (str =? "")%string then JS.Finite 0 else JS.NaN.

End RouteExamples.

(** * Facts about the effects *)

Section WorldFacts.
Context {D : Type}.
Implicit Types (w : World D) (s : Reads).

Lemma only_random_refl s : only_random s s.
Proof. split; reflexivity. Qed.

Lemma only_random_trans s1 s2 s3 :
  only_random s1 s2 -> only_random s2 s3 -> only_random s1 s3.
Proof. unfold only_random; intros [] []; split; congruence. Qed.

Lemma floor_in_range (r : Q) (n : nat) :
  0 <= r -> r < 1 -> (0 < n)%nat ->
  (0 <= JS.floor (r * inject_Z (Z.of_nat n)) < Z.of_nat n)%Z.
Proof.
  intros H0 H1 Hn. unfold JS.floor.
  assert (Hpos : 0 < inject_Z (Z.of_nat n)).
  { change 0 with (inject_Z 0). rewrite <- Zlt_Qlt. lia. }
  split.
  - change 0%Z with (Qfloor (inject_Z 0)). apply Qfloor_resp_le.
    change (inject_Z 0) with 0. nra.
  - rewrite Zlt_Qlt.
    apply Qle_lt_trans with (r * inject_Z (Z.of_nat n)).
    + apply Qfloor_le.
    + nra.
Qed.

Lemma index_in_range {A} (arr : list A) (r : Q) :
  0 <= r -> r < 1 -> arr <> [] ->
  exists x, index arr (JS.floor (r * inject_Z (Z.of_nat (List.length arr)))) = Some x
            /\ In x arr.
Proof.
  intros H0 H1 Hne.
  assert (Hlen : (0 < List.length arr)%nat).
  { destruct arr; [congruence | simpl; lia]. }
  destruct (floor_in_range r _ H0 H1 Hlen) as [Hlo Hhi].
  unfold index.
  destruct (Z.ltb_spec (JS.floor (r * inject_Z (Z.of_nat (List.length arr)))) 0); [lia|].
  destruct (nth_error arr (Z.to_nat (JS.floor (r * inject_Z (Z.of_nat (List.length arr))))))
    as [x|] eqn:E.
  - exists x; split; [reflexivity | eapply nth_error_In; eauto].
  - apply nth_error_None in E. lia.
Qed.

Lemma index_In {A} (arr : list A) (i : Z) (x : A) :
  index arr i = Some x -> In x arr.
Proof.
  unfold index. destruct (i <? 0)%Z; [discriminate|]. apply nth_error_In.
Qed.

End WorldFacts.

(** * Facts about the composer *)

Section ComposerFacts.
Import OutfitService.
Context {D : Type}.
Implicit Types (w : World D) (s : Reads) (arr : list ClothingItem)
  (picked : list (option ClothingItem)).

Lemma random_element_pick w s arr :
  arr <> [] ->
  exists x s',
    random_element arr w s = (Ok x, s') /\ only_random s s'
    /\ slot_pick (valid_random w) true arr [x].
Proof.
  intros Hne. unfold random_element, bind, Math_random, ret.
  eexists _, _. split; [reflexivity|]. split; [split; reflexivity|]. cbn [n_random].
  destruct (index arr _) as [it|] eqn:E.
  - right; right. exists it. split; [reflexivity | eapply index_In; eauto].
  - right; left. split; [reflexivity|]. intros Hv.
    destruct (Hv (n_random s)) as [H0 H1].
    destruct (index_in_range arr _ H0 H1 Hne) as (x & Hx & _). congruence.
Qed.

Lemma push_pick_run arr picked w s :
  exists x s',
    push_pick arr picked w s = (Ok (picked ++ x), s') /\ only_random s s'
    /\ slot_pick (valid_random w) true arr x.
Proof.
  destruct arr as [|a arr'] eqn:Earr.
  - exists [], s. cbn. rewrite app_nil_r. repeat split. left; split; auto.
  - destruct (random_element_pick w s (a :: arr')) as (x & s' & Hrun & Hfr & Hp);
      [discriminate|].
    exists [x], s'. unfold push_pick, bind. rewrite Hrun. cbn. auto.
Qed.

Lemma push_pick_above_run (t : Q) arr picked w s :
  exists x s',
    push_pick_above t arr picked w s = (Ok (picked ++ x), s') /\ only_random s s'
    /\ slot_pick (valid_random w) false arr x.
Proof.
  destruct arr as [|a arr'] eqn:Earr.
  - exists [], s. cbn. rewrite app_nil_r. repeat split. left; split; [auto | discriminate].
  - unfold push_pick_above, bind, Math_random. cbn [n_random n_clock n_axios].
    destruct (JS.gt (random w (n_random s)) t).
    + destruct (random_element_pick w
                  (mkReads (S (n_random s)) (n_clock s) (n_axios s)) (a :: arr'))
        as (x & s' & Hrun & Hfr & Hp); [discriminate|].
      exists [x], s'. rewrite Hrun. cbn. split; [reflexivity|]. split.
      * destruct Hfr; split; assumption.
      * destruct Hp as [[Hp _]|[Hp|Hp]]; [discriminate| |]; unfold slot_pick; auto.
    + eexists [], _. cbn. rewrite app_nil_r. split; [reflexivity|].
      split; [split; reflexivity|]. left; split; [auto | discriminate].
Qed.

(** One turn, spelled out: the five contributions, in order, then the read
    of the names and the length test. *)
Lemma iteration_run (cats : Categories) (occ sea sty : JS.value) (i : nat)
    (outfits : list Outfit) w s :
  exists pt pb po pf pa s',
    let picked := pt ++ pb ++ po ++ pf ++ pa in
    iteration cats occ sea sty i outfits w s =
      (match item_names picked with
       | Throw e => Throw e
       | Ok names =>
           Ok (if (2 <=? List.length picked)%nat
               then outfits ++ [outfit_of occ sea sty (clock w (n_clock s))
                                          (random w (n_random s)) i names picked]
               else outfits)
       end, s')
    /\ n_clock s' = S (n_clock s) /\ n_axios s' = n_axios s
    /\ slot_pick (valid_random w) true (cat_top cats) pt
    /\ slot_pick (valid_random w) true (cat_bottom cats) pb
    /\ slot_pick (valid_random w) false (cat_outerwear cats) po
    /\ slot_pick (valid_random w) true (cat_footwear cats) pf
    /\ slot_pick (valid_random w) false (cat_accessories cats) pa.
Proof.
  unfold iteration. unfold bind at 1 2. unfold Date_now, Math_random.
  cbn [n_random n_clock n_axios].
  set (s0 := mkReads _ _ _).
  destruct (push_pick_run (cat_top cats) [] w s0) as (pt & s1 & R1 & F1 & P1).
  destruct (push_pick_run (cat_bottom cats) ([] ++ pt) w s1) as (pb & s2 & R2 & F2 & P2).
  destruct (push_pick_above_run (1 # 2) (cat_outerwear cats) (([] ++ pt) ++ pb) w s2)
    as (po & s3 & R3 & F3 & P3).
  destruct (push_pick_run (cat_footwear cats) ((([] ++ pt) ++ pb) ++ po) w s3)
    as (pf & s4 & R4 & F4 & P4).
  destruct (push_pick_above_run (3 # 10) (cat_accessories cats)
              (((([] ++ pt) ++ pb) ++ po) ++ pf) w s4)
    as (pa & s5 & R5 & F5 & P5).
  exists pt, pb, po, pf, pa, s5. cbn zeta.
  unfold bind. rewrite R1, R2, R3, R4, R5.
  replace ((((([] ++ pt) ++ pb) ++ po) ++ pf) ++ pa) with (pt ++ pb ++ po ++ pf ++ pa)
    by (cbn; repeat rewrite <- app_assoc; reflexivity).
  assert (Hfr : only_random s0 s5).
  { repeat (eapply only_random_trans; [eassumption|]). apply only_random_refl. }
  destruct Hfr as [Hc Ha]. subst s0; cbn in Hc, Ha.
  repeat (split; [|try assumption]); try assumption.
  destruct (item_names (pt ++ pb ++ po ++ pf ++ pa)) as [names|e]; [|reflexivity].
  unfold outfit_of. destruct (2 <=? _)%nat; reflexivity.
Qed.

End ComposerFacts.

Section OutfitFacts.
Import OutfitService.
Context {D : Type}.
Implicit Types (w : World D) (s : Reads) (arr : list ClothingItem)
  (picked : list (option ClothingItem)) (cats : Categories).

Lemma defined_app picked1 picked2 :
  defined (picked1 ++ picked2) = defined picked1 ++ defined picked2.
Proof.
  induction picked1 as [|[it|] rest IH]; cbn; [reflexivity | f_equal; exact IH | exact IH].
Qed.

(** When the names can be read, no element is [undefined]. *)
Lemma item_names_Ok picked (names : list string) :
  item_names (D := D) picked = Ok names ->
  picked = map Some (defined picked) /\ names = map name (defined picked).
Proof.
  revert names. induction picked as [|[it|] rest IH]; cbn; intros names H.
  - inversion H. auto.
  - destruct (item_names rest) as [ns|e]; [|discriminate].
    inversion H; subst. destruct (IH ns eq_refl) as [H1 H2].
    split; [f_equal; exact H1 | f_equal; exact H2].
  - discriminate.
Qed.

Lemma item_names_defined (l : list ClothingItem) :
  item_names (D := D) (map Some l) = Ok (map name l) /\ defined (map Some l) = l.
Proof.
  induction l as [|it l [IH1 IH2]]; cbn; [auto|]. rewrite IH1, IH2. auto.
Qed.

Lemma map_Some_app_inv (A : Type) (x y : list (option A)) (l : list A) :
  x ++ y = map Some l -> exists lx ly, x = map Some lx /\ y = map Some ly /\ l = lx ++ ly.
Proof.
  revert l. induction x as [|a x IH]; intros l H.
  - exists [], l. auto.
  - destruct l as [|b l]; [discriminate|]. cbn in H. inversion H; subst.
    destruct (IH l H2) as (lx & ly & -> & -> & ->).
    exists (b :: lx), ly. auto.
Qed.

Lemma slot_pick_one_from (valid : Prop) must arr (l : list ClothingItem) :
  slot_pick valid must arr (map Some l) -> one_from must arr l.
Proof.
  intros [[H Hm]|[[H _]|(it & H & Hin)]].
  - left. destruct l; [auto | discriminate].
  - destruct l as [|a [|b l]]; discriminate.
  - right. destruct l as [|a [|b l]]; try discriminate.
    inversion H; subst. eauto.
Qed.

Lemma slot_pick_valid (valid : Prop) must arr picked :
  valid -> slot_pick valid must arr picked ->
  exists l, picked = map Some l.
Proof.
  intros Hv [[H _]|[[_ H]|(it & H & _)]].
  - exists []. auto.
  - contradiction.
  - exists [it]. auto.
Qed.

Lemma composed_of_picks (valid : Prop) cats pt pb po pf pa (l : list ClothingItem) :
  pt ++ pb ++ po ++ pf ++ pa = map Some l ->
  slot_pick valid true (cat_top cats) pt ->
  slot_pick valid true (cat_bottom cats) pb ->
  slot_pick valid false (cat_outerwear cats) po ->
  slot_pick valid true (cat_footwear cats) pf ->
  slot_pick valid false (cat_accessories cats) pa ->
  composed cats l.
Proof.
  intros H Pt Pb Po Pf Pa.
  apply map_Some_app_inv in H. destruct H as (t & r1 & -> & H & ->).
  apply map_Some_app_inv in H. destruct H as (b & r2 & -> & H & ->).
  apply map_Some_app_inv in H. destruct H as (o & r3 & -> & H & ->).
  apply map_Some_app_inv in H. destruct H as (f & a & -> & -> & ->).
  exists t, b, o, f, a. repeat split; try reflexivity; eapply slot_pick_one_from; eassumption.
Qed.

(** A turn that returns pushes one outfit, or leaves [outfits] as it was
    because fewer than two items were picked. *)
Lemma iteration_Ok cats occ sea sty (i : nat) (outfits outfits' : list Outfit) w s s' :
  iteration cats occ sea sty i outfits w s = (Ok outfits', s') ->
  n_clock s' = S (n_clock s) /\ n_axios s' = n_axios s
  /\ ((outfits' = outfits /\ ~ never_short cats)
      \/ exists o, outfits' = outfits ++ [o] /\ pushed cats occ sea sty w o).
Proof.
  intros H.
  destruct (iteration_run cats occ sea sty i outfits w s)
    as (pt & pb & po & pf & pa & s1 & Hrun & Hc & Ha & Pt & Pb & Po & Pf & Pa).
  cbn zeta in Hrun. rewrite Hrun in H. clear Hrun.
  destruct (item_names (pt ++ pb ++ po ++ pf ++ pa)) as [names|e] eqn:En; [|discriminate].
  destruct (item_names_Ok _ _ En) as [Hall Hnames].
  pose proof (composed_of_picks _ cats _ _ _ _ _ _ Hall Pt Pb Po Pf Pa) as Hcomp.
  assert (Hlen : List.length (pt ++ pb ++ po ++ pf ++ pa)
                 = List.length (defined (pt ++ pb ++ po ++ pf ++ pa))).
  { rewrite Hall at 1. apply length_map. }
  destruct (2 <=? List.length (pt ++ pb ++ po ++ pf ++ pa))%nat eqn:Elen;
    inversion H; subst s1 outfits'; clear H;
    (split; [assumption|]); (split; [assumption|]).
  - right. eexists; split; [reflexivity|].
    constructor; cbn; try reflexivity.
    + exact Hcomp.
    + apply Nat.leb_le in Elen. rewrite <- Hlen. exact Elen.
    + eexists; reflexivity.
    + rewrite Hnames. reflexivity.
  - left. split; [reflexivity|].
    apply Nat.leb_gt in Elen. rewrite Hlen in Elen.
    intros Hns. specialize (Hns _ Hcomp). lia.
Qed.

(** Under the contract of [Math.random], a turn returns. *)
Lemma iteration_total cats occ sea sty (i : nat) (outfits : list Outfit) w s :
  valid_random w ->
  exists outfits' s', iteration cats occ sea sty i outfits w s = (Ok outfits', s').
Proof.
  intros Hv.
  destruct (iteration_run cats occ sea sty i outfits w s)
    as (pt & pb & po & pf & pa & s1 & Hrun & _ & _ & Pt & Pb & Po & Pf & Pa).
  cbn zeta in Hrun. rewrite Hrun.
  destruct (slot_pick_valid _ _ _ _ Hv Pt) as [t ->].
  destruct (slot_pick_valid _ _ _ _ Hv Pb) as [b ->].
  destruct (slot_pick_valid _ _ _ _ Hv Po) as [o ->].
  destruct (slot_pick_valid _ _ _ _ Hv Pf) as [f ->].
  destruct (slot_pick_valid _ _ _ _ Hv Pa) as [a ->].
  repeat rewrite <- map_app.
  destruct (item_names_defined (t ++ b ++ o ++ f ++ a)) as [-> _].
  eauto.
Qed.

End OutfitFacts.

Section LoopFacts.
Import OutfitService.
Context {D : Type}.
Implicit Types (w : World D) (s : Reads) (cats : Categories).

Lemma iteration_clock cats occ sea sty (i : nat) (outfits : list Outfit) w s :
  n_clock (snd (iteration cats occ sea sty i outfits w s)) = S (n_clock s).
Proof.
  destruct (iteration_run cats occ sea sty i outfits w s)
    as (pt & pb & po & pf & pa & s1 & Hrun & Hc & _).
  cbn zeta in Hrun. rewrite Hrun. exact Hc.
Qed.

(** The loop reads the clock at least once per run of a turn, whether it
    returns or throws. *)
Lemma loop_clock cats occ sea sty (turns from : nat) (outfits : list Outfit) w s :
  (Nat.min turns 1 + n_clock s <= n_clock (snd (loop cats occ sea sty turns from outfits w s)))%nat.
Proof.
  revert from outfits s. induction turns as [|turns IH]; intros from outfits s.
  - cbn. lia.
  - cbn [loop]. unfold bind.
    pose proof (iteration_clock cats occ sea sty from outfits w s) as Hc.
    destruct (iteration cats occ sea sty from outfits w s) as [[outfits1|e] s1]; cbn in Hc.
    + specialize (IH (S from) outfits1 s1). cbn [Nat.min]. lia.
    + cbn. lia.
Qed.

Lemma loop_Ok cats occ sea sty (turns from : nat) (outfits outfits' : list Outfit) w s s' :
  loop cats occ sea sty turns from outfits w s = (Ok outfits', s') ->
  exists added,
    outfits' = outfits ++ added
    /\ Forall (pushed cats occ sea sty w) added
    /\ (List.length added <= turns)%nat
    /\ (never_short cats -> List.length added = turns)
    /\ n_clock s' = (turns + n_clock s)%nat /\ n_axios s' = n_axios s.
Proof.
  revert from outfits s. induction turns as [|turns IH]; intros from outfits s H.
  - cbn in H. inversion H; subst. exists []. rewrite app_nil_r. auto 6.
  - cbn [loop] in H. unfold bind in H.
    destruct (iteration cats occ sea sty from outfits w s) as [[outfits1|e] s1] eqn:E;
      [|discriminate].
    apply iteration_Ok in E. destruct E as (Hc & Ha & Hstep).
    apply IH in H. destruct H as (added & -> & Hall & Hlen & Hfull & Hc' & Ha').
    destruct Hstep as [[-> Hempty]|(o & -> & Ho)].
    + exists added.
      split; [reflexivity|]. split; [assumption|]. split; [lia|].
      split; [|split; lia].
      intros Hns. contradiction.
    + exists (o :: added). rewrite <- app_assoc.
      split; [reflexivity|]. split; [constructor; assumption|].
      split; [cbn; lia|]. split; [|split; lia].
      intros Hns. cbn. rewrite (Hfull Hns). reflexivity.
Qed.

Lemma loop_total cats occ sea sty (turns from : nat) (outfits : list Outfit) w s :
  valid_random w ->
  exists outfits' s', loop cats occ sea sty turns from outfits w s = (Ok outfits', s').
Proof.
  intros Hv. revert from outfits s. induction turns as [|turns IH]; intros from outfits s.
  - do 2 eexists; reflexivity.
  - cbn [loop]. unfold bind.
    destruct (iteration_total cats occ sea sty from outfits w s Hv) as (o1 & s1 & ->).
    apply IH.
Qed.

(** The array the final [filter] is applied to holds outfits of two items
    or more, so the filter drops nothing. *)
Lemma final_filter_id cats occ sea sty w (outfits : list Outfit) :
  Forall (pushed cats occ sea sty w) outfits ->
  filter (fun o => (0 <? List.length (items o))%nat) outfits = outfits.
Proof.
  induction 1 as [|o l Ho _ IH]; [reflexivity|].
  destruct Ho as [_ Hlen _ _ _ _ _].
  cbn [filter]. rewrite IH.
  destruct (Nat.ltb_spec 0 (List.length (items o))); [reflexivity | lia].
Qed.

Lemma generate_Ok (clothingItems : list ClothingItem) (p : Preferences)
    (outfits : list Outfit) w s s' :
  generateOutfitRecommendation clothingItems p w s = (Ok outfits, s') ->
  Forall (pushed (categorize (availableItems clothingItems p))
                 (effective_occasion p) (effective_season p) (effective_style p) w) outfits
  /\ (List.length outfits <= 3)%nat
  /\ (never_short (categorize (availableItems clothingItems p)) ->
      List.length outfits = 3%nat)
  /\ n_clock s' = (3 + n_clock s)%nat /\ n_axios s' = n_axios s.
Proof.
  unfold generateOutfitRecommendation, bind. intros H.
  destruct (loop _ _ _ _ 3 0 [] w s) as [[out|e] s1] eqn:E; [|discriminate].
  apply loop_Ok in E. destruct E as (added & -> & Hall & Hlen & Hfull & Hc & Ha).
  cbn [app] in H. rewrite (final_filter_id _ _ _ _ _ _ Hall) in H.
  unfold ret in H. inversion H; subst; clear H. auto 6.
Qed.

Lemma generate_total (clothingItems : list ClothingItem) (p : Preferences) w s :
  valid_random w ->
  exists outfits s', generateOutfitRecommendation clothingItems p w s = (Ok outfits, s').
Proof.
  intros Hv. unfold generateOutfitRecommendation, bind.
  destruct (loop_total (categorize (availableItems clothingItems p))
              (effective_occasion p) (effective_season p) (effective_style p)
              3 0 [] w s Hv) as (out & s1 & ->).
  do 2 eexists; reflexivity.
Qed.

(** Every call of the composer reads the clock, whether it returns or
    throws. *)
Lemma generate_reads_clock (clothingItems : list ClothingItem) (p : Preferences) w s :
  (n_clock s < n_clock (snd (generateOutfitRecommendation clothingItems p w s)))%nat.
Proof.
  unfold generateOutfitRecommendation, bind.
  pose proof (loop_clock (categorize (availableItems clothingItems p))
                (effective_occasion p) (effective_season p) (effective_style p)
                3 0 [] w s) as H.
  destruct (loop _ _ _ _ 3 0 [] w s) as [[out|e] s1]; cbn in *; lia.
Qed.

End LoopFacts.

(** * Slots *)

Section SlotFacts.
Import OutfitService.

Lemma one_of_In (lits : list string) (c : string) :
  JS.one_of lits c = true -> In c lits.
Proof.
  unfold JS.one_of. rewrite existsb_exists. intros (x & Hin & Heq).
  apply String.eqb_eq in Heq. subst. exact Hin.
Qed.

Ltac one_slot H :=
  apply one_of_In in H; cbn in H;
  repeat (destruct H as [H|H]; [rewrite <- H; repeat split; reflexivity|]);
  contradiction.

(** The synonym lists of the five slots share no category: an item is in
    one slot at most. *)
Lemma top_only it :
  is_top it = true ->
  is_bottom it = false /\ is_outerwear it = false
  /\ is_footwear it = false /\ is_accessory it = false.
Proof. unfold is_top, is_bottom, is_outerwear, is_footwear, is_accessory. intros H. one_slot H. Qed.

Lemma bottom_only it :
  is_bottom it = true ->
  is_top it = false /\ is_outerwear it = false
  /\ is_footwear it = false /\ is_accessory it = false.
Proof. unfold is_top, is_bottom, is_outerwear, is_footwear, is_accessory. intros H. one_slot H. Qed.

Lemma outerwear_only it :
  is_outerwear it = true -> is_top it = false /\ is_bottom it = false.
Proof. unfold is_top, is_bottom, is_outerwear. intros H. one_slot H. Qed.

Lemma footwear_only it :
  is_footwear it = true -> is_top it = false /\ is_bottom it = false.
Proof. unfold is_top, is_bottom, is_footwear. intros H. one_slot H. Qed.

Lemma accessory_only it :
  is_accessory it = true -> is_top it = false /\ is_bottom it = false.
Proof. unfold is_top, is_bottom, is_accessory. intros H. one_slot H. Qed.

(** A contribution of the slot that [test] selects is made of items of
    the array that pass [test]. *)
Lemma one_from_filter (must : bool) (test : ClothingItem -> bool)
    (available l : list ClothingItem) :
  one_from must (filter test available) l ->
  Forall (fun it => In it available /\ test it = true) l.
Proof.
  intros [[-> _]|(it & -> & Hin)]; [constructor|].
  apply filter_In in Hin. constructor; [exact Hin | constructor].
Qed.

Lemma one_from_must (arr l : list ClothingItem) :
  one_from true arr l -> arr <> [] -> exists it, l = [it].
Proof.
  intros [[_ H]|(it & -> & _)] Hne; [|eauto].
  elim Hne. apply H. reflexivity.
Qed.

Lemma filter_nil_of (A : Type) (p q : A -> bool) (l : list A) :
  (forall x, q x = true -> p x = false) ->
  Forall (fun x => q x = true) l -> filter p l = [].
Proof.
  intros Hpq. induction 1 as [|x l Hx _ IH]; cbn; [reflexivity|].
  rewrite (Hpq x Hx). exact IH.
Qed.

Lemma filter_all_of (A : Type) (p : A -> bool) (l : list A) :
  Forall (fun x => p x = true) l -> filter p l = l.
Proof.
  induction 1 as [|x l Hx _ IH]; cbn; [reflexivity|]. rewrite Hx, IH. reflexivity.
Qed.

Lemma Forall_passes (test : ClothingItem -> bool) (available l : list ClothingItem) :
  Forall (fun it => In it available /\ test it = true) l ->
  Forall (fun it => test it = true) l.
Proof. intros H. eapply Forall_impl; [|exact H]. cbn. tauto. Qed.

(** The items of an outfit composed from [available], slot by slot. *)
Lemma composed_inv (available its : list ClothingItem) :
  composed (categorize available) its ->
  exists t b o f a,
    its = t ++ b ++ o ++ f ++ a
    /\ Forall (fun it => In it available /\ is_top it = true) t
    /\ Forall (fun it => In it available /\ is_bottom it = true) b
    /\ Forall (fun it => In it available /\ is_outerwear it = true) o
    /\ Forall (fun it => In it available /\ is_footwear it = true) f
    /\ Forall (fun it => In it available /\ is_accessory it = true) a
    /\ (List.length t <= 1)%nat /\ (List.length b <= 1)%nat
    /\ ((exists x, In x available /\ is_top x = true) -> List.length t = 1%nat)
    /\ ((exists x, In x available /\ is_bottom x = true) -> List.length b = 1%nat).
Proof.
  intros (t & b & o & f & a & Heq & Ht & Hb & Ho & Hf & Ha). cbn in *.
  exists t, b, o, f, a.
  split; [exact Heq|].
  repeat (split; [eapply one_from_filter; eassumption|]).
  assert (Hle : forall must arr l, one_from must arr l -> (List.length l <= 1)%nat).
  { intros must arr l [[-> _]|(it & -> & _)]; cbn; lia. }
  split; [eapply Hle; eassumption|]. split; [eapply Hle; eassumption|].
  split; intros (x & Hin & Hx).
  - destruct (one_from_must _ _ Ht) as [it ->]; [|reflexivity].
    intros E. assert (Hx' : In x (filter is_top available)) by (apply filter_In; auto).
    rewrite E in Hx'. exact Hx'.
  - destruct (one_from_must _ _ Hb) as [it ->]; [|reflexivity].
    intros E. assert (Hx' : In x (filter is_bottom available)) by (apply filter_In; auto).
    rewrite E in Hx'. exact Hx'.
Qed.

Lemma composed_from (available its : list ClothingItem) :
  composed (categorize available) its -> Forall (fun it => In it available) its.
Proof.
  intros H. apply composed_inv in H.
  destruct H as (t & b & o & f & a & -> & Ht & Hb & Ho & Hf & Ha & _).
  repeat (apply Forall_app; split);
    (eapply Forall_impl; [|eassumption]); cbn; tauto.
Qed.

Lemma composed_count_top (available its : list ClothingItem) :
  composed (categorize available) its ->
  (List.length (filter is_top its) <= 1)%nat
  /\ ((exists x, In x available /\ is_top x = true) ->
      List.length (filter is_top its) = 1%nat).
Proof.
  intros H. apply composed_inv in H.
  destruct H as (t & b & o & f & a & -> & Ht & Hb & Ho & Hf & Ha & Hlt & _ & Hone & _).
  repeat rewrite filter_app.
  rewrite (filter_all_of _ is_top t) by (eapply Forall_passes; eassumption).
  rewrite (filter_nil_of _ is_top is_bottom b)
    by (first [intros x Hx; apply (bottom_only x Hx) | eapply Forall_passes; eassumption]).
  rewrite (filter_nil_of _ is_top is_outerwear o)
    by (first [intros x Hx; apply (outerwear_only x Hx) | eapply Forall_passes; eassumption]).
  rewrite (filter_nil_of _ is_top is_footwear f)
    by (first [intros x Hx; apply (footwear_only x Hx) | eapply Forall_passes; eassumption]).
  rewrite (filter_nil_of _ is_top is_accessory a)
    by (first [intros x Hx; apply (accessory_only x Hx) | eapply Forall_passes; eassumption]).
  repeat rewrite app_nil_r. auto.
Qed.

Lemma composed_count_bottom (available its : list ClothingItem) :
  composed (categorize available) its ->
  (List.length (filter is_bottom its) <= 1)%nat
  /\ ((exists x, In x available /\ is_bottom x = true) ->
      List.length (filter is_bottom its) = 1%nat).
Proof.
  intros H. apply composed_inv in H.
  destruct H as (t & b & o & f & a & -> & Ht & Hb & Ho & Hf & Ha & _ & Hlb & _ & Hone).
  repeat rewrite filter_app.
  rewrite (filter_all_of _ is_bottom b) by (eapply Forall_passes; eassumption).
  rewrite (filter_nil_of _ is_bottom is_top t)
    by (first [intros x Hx; apply (top_only x Hx) | eapply Forall_passes; eassumption]).
  rewrite (filter_nil_of _ is_bottom is_outerwear o)
    by (first [intros x Hx; apply (outerwear_only x Hx) | eapply Forall_passes; eassumption]).
  rewrite (filter_nil_of _ is_bottom is_footwear f)
    by (first [intros x Hx; apply (footwear_only x Hx) | eapply Forall_passes; eassumption]).
  rewrite (filter_nil_of _ is_bottom is_accessory a)
    by (first [intros x Hx; apply (accessory_only x Hx) | eapply Forall_passes; eassumption]).
  cbn. repeat rewrite app_nil_r. auto.
Qed.

End SlotFacts.

(** * The composer: what it returns *)

Section ComposerResults.
Import OutfitService.
Context {D : Type}.
Implicit Types (w : World D) (s : Reads) (p : Preferences)
  (clothingItems : list ClothingItem).

Lemma available_In clothingItems p (it : ClothingItem) :
  In it (availableItems clothingItems p) <-> In it clothingItems /\ eligible p it = true.
Proof. apply filter_In. Qed.

(** With a top and a bottom to choose from, no composed outfit is short. *)
Lemma never_short_top_bottom (available : list ClothingItem) :
  (exists x, In x available /\ is_top x = true) ->
  (exists x, In x available /\ is_bottom x = true) ->
  never_short (categorize available).
Proof.
  intros Ht Hb its H. apply composed_inv in H.
  destruct H as (t & b & o & f & a & -> & _ & _ & _ & _ & _ & _ & _ & Hlt & Hlb).
  repeat rewrite length_app. rewrite (Hlt Ht), (Hlb Hb). lia.
Qed.

(** The confidence of a pushed outfit, when the draws keep the contract. *)
Lemma confidence_band (c : Q) :
  0 <= c -> c < 1 ->
  (85 # 100) <= (85 # 100) + c * (1 # 10) /\ (85 # 100) + c * (1 # 10) <= (95 # 100).
Proof. intros H0 H1. split; lra. Qed.


Lemma one_from_forced (arr l : list ClothingItem) :
  one_from true arr l -> (List.length arr <= 1)%nat -> l = arr.
Proof.
  intros [[-> H]|(it & -> & Hin)] Hlen; [symmetry; auto|].
  destruct arr as [|x [|y arr]]; cbn in *; [contradiction| |lia].
  destruct Hin as [->|[]]. reflexivity.
Qed.

Lemma one_from_nothing (l : list ClothingItem) : one_from false [] l -> l = [].
Proof. intros [[-> _]|(it & _ & [])]. reflexivity. Qed.

(** When no slot leaves a choice and neither outerwear nor accessories are
    available, the items of an outfit are determined. *)
Lemma composed_forced (cats : Categories) (its : list ClothingItem) :
  (List.length (cat_top cats) <= 1)%nat ->
  (List.length (cat_bottom cats) <= 1)%nat ->
  cat_outerwear cats = [] ->
  (List.length (cat_footwear cats) <= 1)%nat ->
  cat_accessories cats = [] ->
  composed cats its ->
  its = cat_top cats ++ cat_bottom cats ++ cat_footwear cats.
Proof.
  intros Ht Hb Ho Hf Ha (t & b & o & f & a & -> & Pt & Pb & Po & Pf & Pa).
  rewrite Ho in Po. rewrite Ha in Pa.
  rewrite (one_from_forced _ _ Pt Ht), (one_from_forced _ _ Pb Hb),
    (one_from_forced _ _ Pf Hf), (one_from_nothing _ Po), (one_from_nothing _ Pa).
  cbn. rewrite app_nil_r. reflexivity.
Qed.

Lemma generate_forced clothingItems p w s :
  let cats := categorize (availableItems clothingItems p) in
  valid_random w ->
  (List.length (cat_top cats) <= 1)%nat ->
  (List.length (cat_bottom cats) <= 1)%nat ->
  cat_outerwear cats = [] ->
  (List.length (cat_footwear cats) <= 1)%nat ->
  cat_accessories cats = [] ->
  (2 <= List.length (cat_top cats ++ cat_bottom cats ++ cat_footwear cats))%nat ->
  exists outfits s',
    generateOutfitRecommendation clothingItems p w s = (Ok outfits, s')
    /\ List.length outfits = 3%nat
    /\ Forall (fun o => items o = cat_top cats ++ cat_bottom cats ++ cat_footwear cats)
              outfits.
Proof.
  intros cats Hv Ht Hb Ho Hf Ha Hlen.
  destruct (generate_total clothingItems p w s Hv) as (outfits & s' & Hrun).
  exists outfits, s'. split; [exact Hrun|].
  apply generate_Ok in Hrun. destruct Hrun as (Hall & _ & Hfull & _).
  split.
  - apply Hfull. intros its Hc.
    rewrite (composed_forced _ _ Ht Hb Ho Hf Ha Hc). exact Hlen.
  - eapply Forall_impl; [|exact Hall]. intros o Hp.
    apply (composed_forced _ _ Ht Hb Ho Hf Ha). apply (pushed_items _ _ _ _ _ _ Hp).
Qed.

End ComposerResults.


(** * The claims about the composer *)

Section ComposerClaims.
Import OutfitService.
Context {D : Type}.
Implicit Types (w : World D) (s : Reads) (p : Preferences)
  (clothingItems : list ClothingItem).

(** C2.  With an eligible top and an eligible bottom in the input, and
    draws in [[0, 1)], the composer returns at most three outfits; each
    holds exactly one item of the top slot and exactly one of the bottom
    slot, and its confidence lies in [[0.85, 0.95]]. *)
Theorem generate_one_top_one_bottom w s clothingItems p :
  valid_random w ->
  (exists t, In t clothingItems /\ eligible p t = true /\ is_top t = true) ->
  (exists b, In b clothingItems /\ eligible p b = true /\ is_bottom b = true) ->
  exists outfits s',
    generateOutfitRecommendation clothingItems p w s = (Ok outfits, s')
    /\ (List.length outfits <= 3)%nat
    /\ Forall (fun o =>
                 List.length (filter is_top (items o)) = 1%nat
                 /\ List.length (filter is_bottom (items o)) = 1%nat
                 /\ (85 # 100) <= confidence o /\ confidence o <= (95 # 100))
              outfits.
Proof.
  intros Hv (t & Ht_in & Ht_el & Ht) (b & Hb_in & Hb_el & Hb).
  assert (Htop : exists x, In x (availableItems clothingItems p) /\ is_top x = true).
  { exists t. split; [apply available_In; auto | exact Ht]. }
  assert (Hbot : exists x, In x (availableItems clothingItems p) /\ is_bottom x = true).
  { exists b. split; [apply available_In; auto | exact Hb]. }
  destruct (generate_total clothingItems p w s Hv) as (outfits & s' & Hrun).
  exists outfits, s'. split; [exact Hrun|].
  apply generate_Ok in Hrun. destruct Hrun as (Hall & Hlen & _).
  split; [exact Hlen|].
  eapply Forall_impl; [|exact Hall]. intros o [Hc _ [n Hconf] _ _ _ _].
  split; [apply (composed_count_top _ _ Hc); exact Htop|].
  split; [apply (composed_count_bottom _ _ Hc); exact Hbot|].
  rewrite Hconf. destruct (Hv n) as [H0 H1]. apply confidence_band; assumption.
Qed.

(** C9.  Whatever the draws, a call of the composer that returns gives
    outfits of two items or more; and it returns unless a draw falls
    outside [[0, 1)]. *)
Theorem generate_two_items_or_more w s clothingItems p
    (res : result D (list Outfit)) s' :
  generateOutfitRecommendation clothingItems p w s = (res, s') ->
  match res with
  | Ok outfits => Forall (fun o => (2 <= List.length (items o))%nat) outfits
  | Throw _ => ~ valid_random w
  end.
Proof.
  intros Hrun. destruct res as [outfits|e].
  - apply generate_Ok in Hrun. destruct Hrun as (Hall & _).
    eapply Forall_impl; [|exact Hall]. intros o Hp. apply (pushed_length _ _ _ _ _ _ Hp).
  - intros Hv. destruct (generate_total clothingItems p w s Hv) as (o & s1 & H).
    congruence.
Qed.

(** C10.  Every item of every returned outfit is an element of the input
    array that passed the occasion and season filter; and the call returns
    unless a draw falls outside [[0, 1)]. *)
Theorem generate_items_eligible_inputs w s clothingItems p
    (res : result D (list Outfit)) s' :
  generateOutfitRecommendation clothingItems p w s = (res, s') ->
  match res with
  | Ok outfits =>
      Forall (fun o =>
                Forall (fun it => In it clothingItems /\ eligible p it = true) (items o))
             outfits
  | Throw _ => ~ valid_random w
  end.
Proof.
  intros Hrun. destruct res as [outfits|e].
  - apply generate_Ok in Hrun. destruct Hrun as (Hall & _).
    eapply Forall_impl; [|exact Hall]. intros o Hp.
    pose proof (composed_from _ _ (pushed_items _ _ _ _ _ _ Hp)) as Hfrom.
    eapply Forall_impl; [|exact Hfrom]. intros it Hin. apply available_In. exact Hin.
  - intros Hv. destruct (generate_total clothingItems p w s Hv) as (o & s1 & H).
    congruence.
Qed.

(** C8.  Scenario A: from a top and a bottom, both tagged [casual], and a
    preference that names the occasion [casual] and nothing else, the
    composer returns three outfits, each made of exactly these two items,
    whatever the draws in [[0, 1)]. *)
Theorem generate_scenario_A w s (top bottom : ClothingItem) :
  valid_random w ->
  is_top top = true -> occasions top = Some ["casual"] ->
  is_bottom bottom = true -> occasions bottom = Some ["casual"] ->
  exists outfits s',
    generateOutfitRecommendation [top; bottom]
      (mkPrefs (JS.Str "casual") JS.Undefined JS.Undefined None) w s = (Ok outfits, s')
    /\ (exists o, In o outfits /\ In top (items o) /\ In bottom (items o))
    /\ List.length outfits = 3%nat
    /\ Forall (fun o => items o = [top; bottom]) outfits.
Proof.
  intros Hv Ht Hto Hb Hbo.
  set (p := mkPrefs (JS.Str "casual") JS.Undefined JS.Undefined None).
  assert (Hav : availableItems [top; bottom] p = [top; bottom]).
  { unfold availableItems, eligible, matchesOccasion, matchesSeason. cbn.
    rewrite Hto, Hbo. reflexivity. }
  destruct (top_only _ Ht) as (Ht1 & Ht2 & Ht3 & Ht4).
  destruct (bottom_only _ Hb) as (Hb1 & Hb2 & Hb3 & Hb4).
  assert (Hcats : categorize (availableItems [top; bottom] p)
                  = mkCategories [top] [bottom] [] [] []).
  { rewrite Hav. unfold categorize. cbn [filter].
    rewrite Ht, Ht1, Ht2, Ht3, Ht4, Hb, Hb1, Hb2, Hb3, Hb4. reflexivity. }
  pose proof (generate_forced [top; bottom] p w s) as Hforced.
  cbv zeta in Hforced. rewrite Hcats in Hforced.
  cbn [cat_top cat_bottom cat_outerwear cat_footwear cat_accessories app List.length]
    in Hforced.
  destruct Hforced as (outfits & s' & Hrun & Hlen & Hall);
    [assumption | lia | lia | reflexivity | lia | reflexivity | lia |].
  exists outfits, s'. split; [exact Hrun|]. split; [|split; assumption].
  destruct outfits as [|o rest]; [discriminate|].
  exists o. inversion Hall as [|? ? Ho _]; subst. rewrite Ho. cbn. auto.
Qed.

End ComposerClaims.

(** * The composer at concrete inputs *)

Section ComposerExamples.
Import OutfitService Examples.

(** C2 at a wardrobe of a tee, a pair of jeans and sneakers. *)
Lemma generate_one_top_one_bottom_witness :
  exists outfits s',
    generateOutfitRecommendation [white_tee; blue_jeans; sneakers] no_preferences
      (quarter_world unit) no_reads = (Ok outfits, s')
    /\ (List.length outfits <= 3)%nat
    /\ Forall (fun o =>
                 List.length (filter is_top (items o)) = 1%nat
                 /\ List.length (filter is_bottom (items o)) = 1%nat
                 /\ (85 # 100) <= confidence o /\ confidence o <= (95 # 100))
              outfits.
Proof.
  apply (generate_one_top_one_bottom (quarter_world unit) no_reads
           [white_tee; blue_jeans; sneakers] no_preferences).
  - intros n. split; [discriminate | reflexivity].
  - exists white_tee. vm_compute. auto.
  - exists blue_jeans. vm_compute. auto.
Defined.

(** C9 at the same wardrobe. *)
Lemma generate_two_items_or_more_witness :
  exists outfits s',
    generateOutfitRecommendation [white_tee; blue_jeans; sneakers] no_preferences
      (quarter_world unit) no_reads = (Ok outfits, s')
    /\ Forall (fun o => (2 <= List.length (items o))%nat) outfits.
Proof.
  eexists _, _. split; [vm_compute; reflexivity|].
  refine (generate_two_items_or_more (quarter_world unit) no_reads
            [white_tee; blue_jeans; sneakers] no_preferences (Ok _) _ _).
  vm_compute. reflexivity.
Defined.

(** C10 at a wardrobe that holds an item the filter drops. *)
Lemma generate_items_eligible_inputs_witness :
  exists outfits s',
    generateOutfitRecommendation [white_tee; evening_gown; blue_jeans] no_preferences
      (quarter_world unit) no_reads = (Ok outfits, s')
    /\ Forall (fun o =>
                 Forall (fun it => In it [white_tee; evening_gown; blue_jeans]
                                   /\ eligible no_preferences it = true) (items o))
              outfits.
Proof.
  eexists _, _. split; [vm_compute; reflexivity|].
  refine (generate_items_eligible_inputs (quarter_world unit) no_reads
            [white_tee; evening_gown; blue_jeans] no_preferences (Ok _) _ _).
  vm_compute. reflexivity.
Defined.

(** C8 at the tee and the jeans of the scenario. *)
Lemma generate_scenario_A_witness :
  exists outfits s',
    generateOutfitRecommendation [white_tee; blue_jeans]
      (mkPrefs (JS.Str "casual") JS.Undefined JS.Undefined None)
      (quarter_world unit) no_reads = (Ok outfits, s')
    /\ (exists o, In o outfits /\ In white_tee (items o) /\ In blue_jeans (items o))
    /\ List.length outfits = 3%nat
    /\ Forall (fun o => items o = [white_tee; blue_jeans]) outfits.
Proof.
  apply (generate_scenario_A (quarter_world unit) no_reads white_tee blue_jeans).
  - intros n. split; [discriminate | reflexivity].
  - reflexivity.
  - reflexivity.
  - reflexivity.
  - reflexivity.
Defined.

(** C1, at the input where it fails.  The wardrobe holds a top and a pair
    of sneakers, both eligible, and no bottom.  Each turn picks the top and
    the sneakers; the test [outfit.items.length >= 2], meant to say that a
    top and a bottom were picked, lets every such outfit through. *)
Theorem generate_top_and_shoes_without_bottom :
  filter is_bottom (availableItems [white_tee; sneakers] no_preferences) = []
  /\ exists outfits s',
       generateOutfitRecommendation [white_tee; sneakers] no_preferences
         (quarter_world unit) no_reads = (Ok outfits, s')
       /\ List.length outfits = 3%nat
       /\ Forall (fun o => items o = [white_tee; sneakers]
                           /\ filter is_bottom (items o) = []) outfits.
Proof.
  split; [reflexivity|].
  eexists _, _. split; [vm_compute; reflexivity|].
  split; [reflexivity|]. repeat constructor.
Qed.

End ComposerExamples.

(** * The eligibility filter *)

Section Eligibility.
Import OutfitService Examples.

Lemma opt_includes_tagged (tags : option (list string)) (v : JS.value) :
  JS.opt_includes tags v = true <-> tagged tags v.
Proof.
  unfold tagged, JS.opt_includes, JS.includes. split.
  - destruct tags as [l|]; [|discriminate]. destruct v as [| |s]; try discriminate.
    rewrite existsb_exists. intros (x & Hin & Heq). apply String.eqb_eq in Heq. subst x.
    eauto.
  - intros (l & s & -> & -> & Hin). apply existsb_exists. exists s.
    split; [exact Hin | apply String.eqb_refl].
Qed.

Lemma strict_eq_str_iff (v : JS.value) (lit : string) :
  JS.strict_eq_str v lit = true <-> v = JS.Str lit.
Proof.
  destruct v as [| |s]; cbn; split; try discriminate.
  - intros H. apply String.eqb_eq in H. congruence.
  - intros H. inversion H. apply String.eqb_refl.
Qed.

(** C4, the counterexample.  The caller supplies no preference at all; the
    gown is tagged [formal].  As worded, the claim lets it through; the
    filter drops it, because the occasion in effect is then [casual]. *)
Lemma eligible_unset_occasion_counterexample :
  occasion no_preferences = JS.Undefined
  /\ occasions evening_gown = Some ["formal"]
  /\ eligible_as_claimed no_preferences evening_gown = true
  /\ matchesOccasion (effective_occasion no_preferences) evening_gown = false
  /\ eligible no_preferences evening_gown = false
  /\ availableItems [evening_gown] no_preferences = [].
Proof. repeat split; reflexivity. Qed.

(** C4, amended.  The occasion in effect is the one supplied, or [casual]
    when none is supplied; the season in effect is the one supplied, or
    [all-year] when none is supplied.  An item is eligible exactly when
    (the occasion in effect is [null] or empty, or the item's occasion tags
    hold it) and (the season in effect is [null] or empty, or is
    [all-year], or the item's season tags hold it).  So when no occasion is
    supplied the eligible items are tagged [casual], and when no season is
    supplied the season excludes nothing. *)
Theorem eligible_iff (p : Preferences) (it : ClothingItem) :
  let occ := JS.default_to "casual" (occasion p) in
  let sea := JS.default_to "all-year" (season p) in
  (eligible p it = true <->
     (JS.truthy occ = false \/ tagged (occasions it) occ)
     /\ (JS.truthy sea = false \/ sea = JS.Str "all-year" \/ tagged (seasons it) sea))
  /\ (occasion p = JS.Undefined ->
      (eligible p it = true -> tagged (occasions it) (JS.Str "casual")))
  /\ (season p = JS.Undefined ->
      (eligible p it = true <-> matchesOccasion occ it = true)).
Proof.
  intros occ sea. unfold eligible, effective_occasion, effective_season.
  fold occ sea.
  assert (Hiff : matchesOccasion occ it && matchesSeason sea it = true <->
                 (JS.truthy occ = false \/ tagged (occasions it) occ)
                 /\ (JS.truthy sea = false \/ sea = JS.Str "all-year"
                     \/ tagged (seasons it) sea)).
  { unfold matchesOccasion, matchesSeason.
    rewrite andb_true_iff. repeat rewrite orb_true_iff.
    rewrite negb_true_iff, negb_true_iff.
    rewrite !opt_includes_tagged, strict_eq_str_iff. tauto. }
  split; [exact Hiff|]. split.
  - intros Hocc Hel. apply Hiff in Hel. destruct Hel as [[Hf|Ht] _].
    + subst occ. rewrite Hocc in Hf. discriminate.
    + subst occ. rewrite Hocc in Ht. exact Ht.
  - intros Hsea. subst sea. rewrite Hsea. unfold matchesSeason. cbn.
    rewrite andb_true_r. tauto.
Qed.

End Eligibility.

(** * Two calls of the composer *)

Section TwoCalls.
Import OutfitService.
Context {D : Type}.
Implicit Types (w : World D) (s : Reads).

Lemma related_ret {A} (C : Prop) (R : A -> A -> Prop) (a1 a2 : A) :
  R a1 a2 -> related (D := D) C R (ret a1) (ret a2).
Proof. intros H w1 w2 s _ _. cbn. auto. Qed.

Lemma related_throw {A} (C : Prop) (R : A -> A -> Prop) (e : Exn D) :
  related (D := D) C R (throw e) (throw e).
Proof. intros w1 w2 s _ _. cbn. auto. Qed.

Lemma related_bind {A B} (C : Prop) (R : A -> A -> Prop) (R' : B -> B -> Prop)
    (m1 m2 : M D A) (k1 k2 : A -> M D B) :
  related (D := D) C R m1 m2 ->
  (forall a1 a2, R a1 a2 -> related (D := D) C R' (k1 a1) (k2 a2)) ->
  related (D := D) C R' (bind m1 k1) (bind m2 k2).
Proof.
  intros Hm Hk w1 w2 s Hd Hc. unfold bind.
  destruct (Hm w1 w2 s Hd Hc) as [Hs Hr].
  destruct (m1 w1 s) as [[a1|e1] s1], (m2 w2 s) as [[a2|e2] s2];
    cbn in Hs, Hr; try contradiction; subst.
  - apply (Hk a1 a2 Hr w1 w2 s2 Hd Hc).
  - cbn. auto.
Qed.

Lemma related_random (C : Prop) : related (D := D) C eq (@Math_random D) Math_random.
Proof. intros w1 w2 s Hd _. cbn. split; [reflexivity | apply Hd]. Qed.

Lemma related_now (C : Prop) :
  related (D := D) C (fun t1 t2 => C -> t1 = t2) (@Date_now D) Date_now.
Proof. intros w1 w2 s _ Hc. cbn. split; [reflexivity | intros c; apply (Hc c)]. Qed.

Lemma related_random_element (C : Prop) (arr : list ClothingItem) :
  related (D := D) C eq (@random_element D _ arr) (random_element arr).
Proof.
  unfold random_element. eapply related_bind; [apply related_random|].
  intros r ? <-. apply related_ret. reflexivity.
Qed.

Lemma related_push_pick (C : Prop) (arr : list ClothingItem)
    (picked : list (option ClothingItem)) :
  related (D := D) C eq (@push_pick D arr picked) (push_pick arr picked).
Proof.
  unfold push_pick. destruct arr; [apply related_ret; reflexivity|].
  eapply related_bind; [apply related_random_element|].
  intros x ? <-. apply related_ret. reflexivity.
Qed.

Lemma related_push_pick_above (C : Prop) (t : Q) (arr : list ClothingItem)
    (picked : list (option ClothingItem)) :
  related (D := D) C eq (@push_pick_above D t arr picked) (push_pick_above t arr picked).
Proof.
  unfold push_pick_above. destruct arr; [apply related_ret; reflexivity|].
  eapply related_bind; [apply related_random|].
  intros r ? <-. destruct (JS.gt r t); [|apply related_ret; reflexivity].
  eapply related_bind; [apply related_random_element|].
  intros x ? <-. apply related_ret. reflexivity.
Qed.

Lemma same_outfit_eq (o1 o2 : Outfit) : same_outfit True o1 o2 -> o1 = o2.
Proof.
  destruct o1, o2. unfold same_outfit. cbn.
  intros (H1 & H2 & H3 & H4 & H5 & H6 & H7). rewrite (H1 I). congruence.
Qed.

Lemma Forall2_same_outfit_eq (l1 l2 : list Outfit) :
  Forall2 (same_outfit True) l1 l2 -> l1 = l2.
Proof.
  induction 1 as [|o1 o2 l1 l2 Ho _ IH]; [reflexivity|].
  rewrite (same_outfit_eq _ _ Ho), IH. reflexivity.
Qed.

Lemma related_iteration (C : Prop) (cats : Categories) (occ sea sty : JS.value) (i : nat)
    (outfits1 outfits2 : list Outfit) :
  Forall2 (same_outfit C) outfits1 outfits2 ->
  related (D := D) C (Forall2 (same_outfit C))
    (@iteration D cats occ sea sty i outfits1) (iteration cats occ sea sty i outfits2).
Proof.
  intros Hout. unfold iteration.
  eapply related_bind; [apply related_now|]. intros t1 t2 Ht.
  eapply related_bind; [apply related_random|]. intros c ? <-.
  eapply related_bind; [apply related_push_pick|]. intros p1 ? <-.
  eapply related_bind; [apply related_push_pick|]. intros p2 ? <-.
  eapply related_bind; [apply related_push_pick_above|]. intros p3 ? <-.
  eapply related_bind; [apply related_push_pick|]. intros p4 ? <-.
  eapply related_bind; [apply related_push_pick_above|]. intros p5 ? <-.
  destruct (item_names p5) as [names|e]; [|apply related_throw].
  destruct (2 <=? List.length p5)%nat; apply related_ret; [|exact Hout].
  apply Forall2_app; [exact Hout|]. constructor; [|constructor].
  unfold same_outfit. cbn. repeat split; try reflexivity.
  intros c'. rewrite (Ht c'). reflexivity.
Qed.

Lemma related_loop (C : Prop) (cats : Categories) (occ sea sty : JS.value)
    (turns from : nat) (outfits1 outfits2 : list Outfit) :
  Forall2 (same_outfit C) outfits1 outfits2 ->
  related (D := D) C (Forall2 (same_outfit C))
    (@loop D cats occ sea sty turns from outfits1) (loop cats occ sea sty turns from outfits2).
Proof.
  revert from outfits1 outfits2.
  induction turns as [|turns IH]; intros from outfits1 outfits2 Hout; cbn [loop].
  - apply related_ret. exact Hout.
  - eapply related_bind; [apply related_iteration; exact Hout|].
    intros o1 o2 Ho. apply IH. exact Ho.
Qed.

Lemma Forall2_final_filter (C : Prop) (l1 l2 : list Outfit) :
  Forall2 (same_outfit C) l1 l2 ->
  Forall2 (same_outfit C)
    (filter (fun o => (0 <? List.length (items o))%nat) l1)
    (filter (fun o => (0 <? List.length (items o))%nat) l2).
Proof.
  induction 1 as [|o1 o2 l1 l2 Ho _ IH]; [constructor|].
  cbn [filter]. pose proof Ho as (_ & _ & _ & _ & H5 & _). rewrite <- H5.
  destruct (0 <? List.length (items o1))%nat; [constructor|]; assumption.
Qed.

Lemma related_generate (C : Prop) (clothingItems : list ClothingItem) (p : Preferences) :
  related (D := D) C (Forall2 (same_outfit C))
    (@generateOutfitRecommendation D clothingItems p)
    (generateOutfitRecommendation clothingItems p).
Proof.
  unfold generateOutfitRecommendation.
  eapply related_bind; [apply related_loop; constructor|].
  intros o1 o2 Ho. apply related_ret. apply Forall2_final_filter. exact Ho.
Qed.


(** C7, amended.  Two calls with the same input array and the same
    preferences, made with the same sequence of draws, either both return
    or both throw the same exception; when they return, the two arrays
    have the same length and agree outfit by outfit on occasion, season,
    style, items, confidence and description.  The [id] of an outfit is
    built from [Date.now()]: the two arrays are equal, ids included, when
    the clock gives both calls the same readings. *)
Theorem generate_same_draws_same_outfits w1 w2 s
    (clothingItems : list ClothingItem) (p : Preferences) :
  same_draws w1 w2 ->
  agree (Forall2 (same_outfit False))
        (fst (generateOutfitRecommendation clothingItems p w1 s))
        (fst (generateOutfitRecommendation clothingItems p w2 s))
  /\ (same_clock w1 w2 ->
      fst (generateOutfitRecommendation clothingItems p w1 s)
      = fst (generateOutfitRecommendation clothingItems p w2 s)).
Proof.
  intros Hd. split.
  - apply (related_generate False clothingItems p w1 w2 s Hd). contradiction.
  - intros Hc.
    destruct (related_generate True clothingItems p w1 w2 s Hd (fun _ => Hc)) as [_ H].
    destruct (fst (generateOutfitRecommendation clothingItems p w1 s)) as [o1|e1],
             (fst (generateOutfitRecommendation clothingItems p w2 s)) as [o2|e2];
      cbn in H; try contradiction.
    + rewrite (Forall2_same_outfit_eq _ _ H). reflexivity.
    + rewrite H. reflexivity.
Qed.

End TwoCalls.

Section TwoCallsExamples.
Import OutfitService Examples.

(** C7, amended, at two calls made one second apart. *)
Lemma generate_same_draws_same_outfits_witness :
  agree (Forall2 (same_outfit False))
        (fst (generateOutfitRecommendation [white_tee; blue_jeans] no_preferences
                (quarter_world unit) no_reads))
        (fst (generateOutfitRecommendation [white_tee; blue_jeans] no_preferences
                (later_world unit) no_reads))
  /\ (same_clock (quarter_world unit) (later_world unit) ->
      fst (generateOutfitRecommendation [white_tee; blue_jeans] no_preferences
             (quarter_world unit) no_reads)
      = fst (generateOutfitRecommendation [white_tee; blue_jeans] no_preferences
               (later_world unit) no_reads)).
Proof.
  apply (generate_same_draws_same_outfits (quarter_world unit) (later_world unit)).
  intros n. reflexivity.
Defined.

(** C7, the counterexample.  Two calls with the same items, the same
    preferences and the same draws, made one second apart, return outfits
    with different ids. *)
Lemma generate_ids_follow_the_clock :
  same_draws (quarter_world unit) (later_world unit)
  /\ exists outfits1 outfits2 s1 s2,
       generateOutfitRecommendation [white_tee; blue_jeans] no_preferences
         (quarter_world unit) no_reads = (Ok outfits1, s1)
       /\ generateOutfitRecommendation [white_tee; blue_jeans] no_preferences
            (later_world unit) no_reads = (Ok outfits2, s2)
       /\ map outfit_id outfits1
          = ["outfit_1700000000000_0"; "outfit_1700000000001_1"; "outfit_1700000000002_2"]
       /\ map outfit_id outfits2
          = ["outfit_1700000001000_0"; "outfit_1700000001001_1"; "outfit_1700000001002_2"]
       /\ outfits1 <> outfits2.
Proof.
  split; [intros n; reflexivity|].
  eexists _, _, _, _. split; [vm_compute; reflexivity|].
  split; [vm_compute; reflexivity|].
  split; [reflexivity|]. split; [reflexivity|]. discriminate.
Qed.

End TwoCallsExamples.

(** * The routes *)

Section RouteFacts.
Context {D : Type}.
Implicit Types (w : World D) (s : Reads).

Lemma random_element_valid {A} (arr : list A) w s :
  valid_random w -> arr <> [] ->
  exists x,
    random_element arr w s
    = (Ok (Some x), mkReads (S (n_random s)) (n_clock s) (n_axios s))
    /\ In x arr.
Proof.
  intros Hv Hne. destruct (Hv (n_random s)) as [H0 H1].
  destruct (index_in_range arr _ H0 H1 Hne) as (x & Hx & Hin).
  exists x. unfold random_element, bind, Math_random, ret. rewrite Hx. auto.
Qed.

Lemma lt_true (a b : Q) : a < b -> JS.lt a b = true.
Proof. unfold JS.lt, Qlt. intros H. apply Z.ltb_lt. exact H. Qed.

End RouteFacts.


Section RouteClaims.
Import OutfitService.

(** What the two layers do with a rejected fetch.  The route
    [POST /generate] of the outfit service answers 503 with
    [fallback: true] if the error code is [ECONNREFUSED] or [ENOTFOUND],
    and the generic 500 for every other rejection, a timeout included.
    Either way one [axios] call was made, and neither a draw nor a clock
    reading: the composer, which reads the clock in every call, was not
    called.  [proxyRequest] of the routing gateway, for a rejection without
    a response, answers 503 if the code is [ECONNREFUSED] and the generic
    500 otherwise, after one [axios] call. *)
Lemma rejected_fetch_outcomes
    (w : World WardrobeData) (s : Reads) (req : GenerateRequest)
    (code : option string) (resp : option (HttpResponse WardrobeData))
    (G : Type) (gw : World G) (gs : Reads) (serviceUrl path : string)
    (gcode : option string) :
  axios w (n_axios s) = Rejected code resp ->
  axios gw (n_axios gs) = Rejected gcode None ->
  generate_route req w s
  = (Ok (match code with
         | Some c =>
             if (c =? "ECONNREFUSED")%string || (c =? "ENOTFOUND")%string
             then mkResponse 503 (FallbackBody "Wardrobe service temporarily unavailable")
             else mkResponse 500 (ErrorBody "Failed to generate outfit recommendations")
         | None => mkResponse 500 (ErrorBody "Failed to generate outfit recommendations")
         end),
     mkReads (n_random s) (n_clock s) (S (n_axios s)))
  /\ (forall (its : list ClothingItem) (p : Preferences) (w0 : World WardrobeData) s0,
        (n_clock s0 < n_clock (snd (generateOutfitRecommendation its p w0 s0)))%nat)
  /\ Gateway.proxyRequest serviceUrl path gw gs
     = (Ok (match gcode with
            | Some c =>
                if (c =? "ECONNREFUSED")%string
                then mkResponse 503 (Gateway.ServiceUnavailable serviceUrl)
                else mkResponse 500 Gateway.GatewayError
            | None => mkResponse 500 Gateway.GatewayError
            end),
        mkReads (n_random gs) (n_clock gs) (S (n_axios gs))).
Proof.
  intros Hw Hg. split; [|split].
  - unfold generate_route, try_catch, bind, await_axios. rewrite Hw.
    unfold generate_catch, code_is, error_code.
    destruct code as [c|]; [|reflexivity].
    destruct ((c =? "ECONNREFUSED")%string || (c =? "ENOTFOUND")%string); reflexivity.
  - intros its p w0 s0. apply generate_reads_clock.
  - unfold Gateway.proxyRequest, try_catch, bind, await_axios. rewrite Hg.
    unfold error_response, code_is, error_code.
    destruct gcode as [c|]; [|reflexivity].
    destruct (c =? "ECONNREFUSED")%string; reflexivity.
Qed.


(** C5, amended.  When the fetch of the wardrobe succeeds with no item,
    the route [POST /generate] of the outfit service answers 200 with
    [success: true], an empty list of outfits and a message that says to add
    items; it has made one [axios] call and has not called the composer.
    [proxyRequest] passes a resolved response on with its status and body.
    The single-process gateway differs: its route [POST /outfits/generate]
    answers 400 with an error body when the user owns no item. *)
Theorem empty_wardrobe_outcomes
    (w : World WardrobeData) (s : Reads) (req : GenerateRequest) (st : nat)
    (G : Type) (gw : World G) (gs : Reads) (serviceUrl path : string)
    (downstream : HttpResponse G)
    (M' : Type) (mw : World M') (ms : Reads) (toString36 : Q -> string)
    (toISOString : Z -> string) (StringToNumber : string -> JS.number)
    (clothingItems : list ClothingItem) (uuid : string)
    (mreq : Monolith.OutfitRequest) :
  axios w (n_axios s) = Resolved (mkHttp st (mkWardrobeData true (Some []))) ->
  axios gw (n_axios gs) = Resolved downstream ->
  filter (fun item => (userId item =? uuid)%string) clothingItems = [] ->
  generate_route req w s
  = (Ok (mkResponse 200
           (EmptyWardrobeBody
              "No clothing items found. Add some items to your wardrobe first!")),
     mkReads (n_random s) (n_clock s) (S (n_axios s)))
  /\ Gateway.proxyRequest serviceUrl path gw gs
     = (Ok (mkResponse (http_status downstream) (Gateway.Forwarded (http_data downstream))),
        mkReads (n_random gs) (n_clock gs) (S (n_axios gs)))
  /\ Monolith.outfits_generate toString36 toISOString StringToNumber clothingItems uuid mreq mw ms
     = (Ok (mkResponse 400
              (Monolith.ErrorBody "No clothing items found. Add some items first!")),
        ms).
Proof.
  intros Hw Hg Hm. split; [|split].
  - unfold generate_route, try_catch, bind, await_axios. rewrite Hw. reflexivity.
  - unfold Gateway.proxyRequest, try_catch, bind, await_axios. rewrite Hg. reflexivity.
  - unfold Monolith.outfits_generate, try_catch. rewrite Hm. reflexivity.
Qed.

(** C3, amended.  In the route [POST /outfits/generate] of the
    single-process gateway, when the request carries a weather whose
    temperature is below 70 and the user owns an item of category
    [outerwear], the outfit that is returned holds an item of category
    [outerwear] of that user.  The composer of the outfit service does not
    read the weather: its result is the same whatever weather the
    preferences carry. *)
Theorem cold_weather_outerwear
    (D : Type) (w : World D) (s : Reads) (toString36 : Q -> string)
    (toISOString : Z -> string) (StringToNumber : string -> JS.number)
    (clothingItems : list ClothingItem) (uuid : string)
    (req : Monolith.OutfitRequest) (wth : Weather) (t : Q) (jacket : ClothingItem) :
  valid_random w ->
  Monolith.req_weather req = Some wth -> temperature wth = JS.Num t -> t < 70 # 1 ->
  In jacket clothingItems -> userId jacket = uuid -> category jacket = "outerwear" ->
  (exists outfit s',
     Monolith.outfits_generate toString36 toISOString StringToNumber clothingItems uuid req w s
     = (Ok (mkResponse 200 (Monolith.OutfitBodyOk outfit)), s')
     /\ exists it, In (Some it) (Monolith.items outfit)
                   /\ category it = "outerwear" /\ userId it = uuid
                   /\ In it clothingItems)
  /\ (forall (its : list ClothingItem) (p : Preferences) (wth' : option Weather)
             (w0 : World D) (s0 : Reads),
        generateOutfitRecommendation its
          (mkPrefs (occasion p) (season p) (style p) wth') w0 s0
        = generateOutfitRecommendation its p w0 s0).
Proof.
  intros Hv Hw Ht Hlt Hin Hu Hc. split; [|intros its [? ? ? ?] wth' w0 s0; reflexivity].
  assert (Hcold : Monolith.below_70 StringToNumber (Monolith.req_weather req) = true).
  { unfold Monolith.below_70. rewrite Hw, Ht. cbn [JS.to_number JS.lt_number].
    apply lt_true. exact Hlt. }
  set (userItems := filter (fun item => (userId item =? uuid)%string) clothingItems).
  assert (Hji : In jacket userItems).
  { apply filter_In. split; [exact Hin|]. rewrite Hu. apply String.eqb_refl. }
  set (outerwear := filter (fun item => (category item =? "outerwear")%string) userItems).
  assert (Hjo : In jacket outerwear).
  { apply filter_In. split; [exact Hji|]. rewrite Hc. reflexivity. }
  assert (Hout : forall it, In it outerwear ->
                   category it = "outerwear" /\ userId it = uuid /\ In it clothingItems).
  { intros it Hit. apply filter_In in Hit. destruct Hit as [Hit Hcat].
    apply filter_In in Hit. destruct Hit as [Hit Hus].
    apply String.eqb_eq in Hcat, Hus. auto. }
  unfold Monolith.outfits_generate, try_catch. fold userItems. fold outerwear.
  destruct userItems as [|u0 us] eqn:Eu; [contradiction|]. cbn [List.length Nat.eqb].
  rewrite Hcold.
  destruct outerwear as [|o0 os] eqn:Eo; [contradiction|].
  cbn [List.length Nat.ltb Nat.leb andb].
  unfold bind at 1. unfold Math_random at 1.
  set (s1 := mkReads _ _ _).
  assert (Hsched : exists d s2,
             (if JS.truthy (Monolith.req_date req) then ret (Monolith.req_date req)
              else bind Date_now (fun t0 => ret (JS.Str (Monolith.before_T (toISOString t0)))))
               w s1 = (Ok d, s2)).
  { destruct (JS.truthy (Monolith.req_date req)); do 2 eexists; reflexivity. }
  destruct Hsched as (d & s2 & Hsched). unfold bind at 1. rewrite Hsched.
  set (tops := filter (fun item => (category item =? "top")%string) (u0 :: us)).
  assert (Htops : exists items1 s3,
             (match tops with
              | [] => ret []
              | _ :: _ => bind (random_element tops) (fun x => ret [x])
              end) w s2 = (Ok items1, s3)).
  { destruct tops as [|t0 ts] eqn:Et; [do 2 eexists; reflexivity|].
    destruct (random_element_valid (t0 :: ts) w s2 Hv) as (x & Hx & _); [discriminate|].
    unfold bind. rewrite Hx. do 2 eexists; reflexivity. }
  destruct Htops as (items1 & s3 & Htops). unfold bind at 1. rewrite Htops.
  destruct (random_element_valid (o0 :: os) w s3 Hv) as (x & Hx & Hxin); [discriminate|].
  unfold bind. rewrite Hx. cbn.
  do 2 eexists. split; [reflexivity|]. cbn.
  exists x. split; [apply in_or_app; right; left; reflexivity|]. apply Hout. exact Hxin.
Qed.

End RouteClaims.

Section RouteExamplesFacts.
Import OutfitService Examples RouteExamples.

(** A refused connection gets 503 from both layers. *)
Lemma rejected_fetch_outcomes_witness :
  generate_route no_body (quarter_world WardrobeData) no_reads
  = (Ok (mkResponse 503 (FallbackBody "Wardrobe service temporarily unavailable")),
     mkReads 0 0 1)
  /\ (forall (its : list ClothingItem) (p : Preferences) (w0 : World WardrobeData) s0,
        (n_clock s0 < n_clock (snd (generateOutfitRecommendation its p w0 s0)))%nat)
  /\ Gateway.proxyRequest "http://localhost:3003" "/generate" (quarter_world unit) no_reads
     = (Ok (mkResponse 503 (Gateway.ServiceUnavailable "http://localhost:3003")),
        mkReads 0 0 1).
Proof.
  exact (rejected_fetch_outcomes (quarter_world WardrobeData) no_reads no_body
           (Some "ECONNREFUSED") None unit (quarter_world unit) no_reads
           "http://localhost:3003" "/generate" (Some "ECONNREFUSED") eq_refl eq_refl).
Defined.

(** C6, at the inputs where it fails.  The wardrobe service does not
    respond and the connection times out: the outfit service answers the
    generic 500, not the 503 of its fallback, although the comment of the
    [catch] clause reads [If wardrobe service is not available, provide
    fallback]; the test names two error codes and [ETIMEDOUT] is neither.
    The name of the outfit service does not resolve, which the outfit
    service itself counts as unavailable: [proxyRequest], which tests for
    [ECONNREFUSED] alone, answers the generic 500.  In both cases one
    [axios] call was made and the composer was not called. *)
Theorem no_response_yet_generic_500 :
  axios (timeout_world WardrobeData) 0 = Rejected (Some "ETIMEDOUT") None
  /\ generate_route no_body (timeout_world WardrobeData) no_reads
     = (Ok (mkResponse 500 (ErrorBody "Failed to generate outfit recommendations")),
        mkReads 0 0 1)
  /\ axios (not_found_world unit) 0 = Rejected (Some "ENOTFOUND") None
  /\ Gateway.proxyRequest "http://localhost:3003" "/generate" (not_found_world unit) no_reads
     = (Ok (mkResponse 500 Gateway.GatewayError), mkReads 0 0 1).
Proof. repeat split; reflexivity. Qed.

(** C5, amended, at an empty wardrobe. *)
Lemma empty_wardrobe_outcomes_witness :
  generate_route no_body empty_wardrobe_world no_reads
  = (Ok (mkResponse 200
           (EmptyWardrobeBody
              "No clothing items found. Add some items to your wardrobe first!")),
     mkReads 0 0 1)
  /\ Gateway.proxyRequest "http://localhost:3003" "/generate" empty_wardrobe_world no_reads
     = (Ok (mkResponse 200 (Gateway.Forwarded (mkWardrobeData true (Some [])))),
        mkReads 0 0 1)
  /\ Monolith.outfits_generate some_base36 some_iso some_number [white_tee; blue_jeans] "user-2"
       cold_request (quarter_world unit) no_reads
     = (Ok (mkResponse 400
              (Monolith.ErrorBody "No clothing items found. Add some items first!")),
        no_reads).
Proof.
  exact (empty_wardrobe_outcomes empty_wardrobe_world no_reads no_body 200
           WardrobeData empty_wardrobe_world no_reads "http://localhost:3003" "/generate"
           (mkHttp 200 (mkWardrobeData true (Some [])))
           unit (quarter_world unit) no_reads some_base36 some_iso some_number
           [white_tee; blue_jeans] "user-2" cold_request eq_refl eq_refl eq_refl).
Defined.

(** C5, the counterexample.  In the single-process gateway a user who owns
    no item gets status 400 and an error body. *)
Lemma empty_wardrobe_is_an_error_in_the_monolith :
  filter (fun item => (userId item =? "user-2")%string) [white_tee; blue_jeans] = []
  /\ Monolith.outfits_generate some_base36 some_iso some_number [white_tee; blue_jeans] "user-2"
       cold_request (quarter_world unit) no_reads
     = (Ok (mkResponse 400
              (Monolith.ErrorBody "No clothing items found. Add some items first!")),
        no_reads).
Proof. split; reflexivity. Qed.

(** C3, amended, at a request with a temperature of 40. *)
Lemma cold_weather_outerwear_witness :
  (exists outfit s',
     Monolith.outfits_generate some_base36 some_iso some_number [white_tee; rain_jacket] "user-1"
       cold_request (quarter_world unit) no_reads
     = (Ok (mkResponse 200 (Monolith.OutfitBodyOk outfit)), s')
     /\ exists it, In (Some it) (Monolith.items outfit)
                   /\ category it = "outerwear" /\ userId it = "user-1"
                   /\ In it [white_tee; rain_jacket])
  /\ (forall (its : list ClothingItem) (p : Preferences) (wth' : option Weather)
             (w0 : World unit) (s0 : Reads),
        generateOutfitRecommendation its
          (mkPrefs (occasion p) (season p) (style p) wth') w0 s0
        = generateOutfitRecommendation its p w0 s0).
Proof.
  apply (cold_weather_outerwear unit (quarter_world unit) no_reads some_base36 some_iso
           some_number
           [white_tee; rain_jacket] "user-1" cold_request
           (mkWeather (JS.Num (40 # 1)) (Some "snow")) (40 # 1) rain_jacket).
  - intros n. split; [discriminate | reflexivity].
  - reflexivity.
  - reflexivity.
  - reflexivity.
  - simpl. auto.
  - reflexivity.
  - reflexivity.
Defined.

(** C3, the counterexample.  The preferences carry a temperature of 40, a
    jacket is eligible, and every draw is [1/4]: no outfit of the composer
    holds the jacket, because [Math.random() > 0.5] fails in each turn and
    the weather is not read. *)
Lemma cold_weather_without_outerwear :
  weather cold_preferences = Some (mkWeather (JS.Num (40 # 1)) (Some "snow"))
  /\ In rain_jacket (availableItems [white_tee; blue_jeans; rain_jacket] cold_preferences)
  /\ is_outerwear rain_jacket = true
  /\ exists outfits s',
       generateOutfitRecommendation [white_tee; blue_jeans; rain_jacket] cold_preferences
         (quarter_world unit) no_reads = (Ok outfits, s')
       /\ List.length outfits = 3%nat
       /\ Forall (fun o => items o = [white_tee; blue_jeans]
                           /\ filter is_outerwear (items o) = []) outfits.
Proof.
  split; [reflexivity|]. split; [simpl; auto|]. split; [reflexivity|].
  eexists _, _. split; [vm_compute; reflexivity|].
  split; [reflexivity|]. repeat constructor.
Qed.

End RouteExamplesFacts.

(** * Part II: further properties of the code *)

(** * More about the composer *)

From Stdlib Require Import Sorted.

Section SlotOrder.
Import OutfitService.

(** The place of an item's slot in the order in which an outfit is filled:
    top, bottom, outerwear, footwear, accessory; 5 for a category that
    belongs to no slot. *)
Definition slot_rank (it : ClothingItem) : nat :=
  if is_top it then 0
  else if is_bottom it then 1
  else if is_outerwear it then 2
  else if is_footwear it then 3
  else if is_accessory it then 4
  else 5.

(** How many of the five slot arrays hold an item. *)
Definition slots_in_use (cats : Categories) : nat :=
  List.length
    (filter (fun arr : list ClothingItem => negb (Nat.eqb (List.length arr) 0))
            [cat_top cats; cat_bottom cats; cat_outerwear cats;
             cat_footwear cats; cat_accessories cats]).

Ltac rank_of H :=
  apply one_of_In in H; cbn in H;
  repeat (destruct H as [H|H]; [rewrite <- H; reflexivity|]);
  contradiction.

Lemma rank_top it : is_top it = true -> slot_rank it = 0%nat.
Proof. unfold slot_rank. intros H. rewrite H. reflexivity. Qed.

Lemma rank_bottom it : is_bottom it = true -> slot_rank it = 1%nat.
Proof.
  unfold slot_rank, is_top, is_bottom, is_outerwear, is_footwear, is_accessory.
  intros H. rank_of H.
Qed.

Lemma rank_outerwear it : is_outerwear it = true -> slot_rank it = 2%nat.
Proof.
  unfold slot_rank, is_top, is_bottom, is_outerwear, is_footwear, is_accessory.
  intros H. rank_of H.
Qed.

Lemma rank_footwear it : is_footwear it = true -> slot_rank it = 3%nat.
Proof.
  unfold slot_rank, is_top, is_bottom, is_outerwear, is_footwear, is_accessory.
  intros H. rank_of H.
Qed.

Lemma rank_accessory it : is_accessory it = true -> slot_rank it = 4%nat.
Proof.
  unfold slot_rank, is_top, is_bottom, is_outerwear, is_footwear, is_accessory.
  intros H. rank_of H.
Qed.

(** The rank tells the slot. *)
Lemma rank_footwear_iff it : is_footwear it = true <-> slot_rank it = 3%nat.
Proof.
  split; [apply rank_footwear|].
  unfold slot_rank.
  destruct (is_top it), (is_bottom it), (is_outerwear it), (is_footwear it),
    (is_accessory it); intros H; try discriminate; reflexivity.
Qed.

(** One contribution of the slot of rank [k]. *)
Lemma one_from_rank (must : bool) (test : ClothingItem -> bool) (k : nat)
    (available l : list ClothingItem) :
  (forall it, test it = true -> slot_rank it = k) ->
  one_from must (filter test available) l ->
  l = [] \/ exists it, l = [it] /\ slot_rank it = k /\ In it available.
Proof.
  intros Hk [[-> _]|(it & -> & Hin)]; [left; reflexivity|].
  apply filter_In in Hin. right. exists it. split; [reflexivity|].
  split; [apply Hk; apply Hin | apply Hin].
Qed.

(** The items of a composed outfit come in slot order, one per slot at
    most, and each belongs to a slot. *)
Lemma composed_sorted (available its : list ClothingItem) :
  composed (categorize available) its ->
  StronglySorted (fun a b => (slot_rank a < slot_rank b)%nat) its
  /\ Forall (fun it => (slot_rank it < 5)%nat) its.
Proof.
  intros (t & b & o & f & a & -> & Ht & Hb & Ho & Hf & Ha). cbn in *.
  apply (one_from_rank _ _ 0%nat _ _ rank_top) in Ht.
  apply (one_from_rank _ _ 1%nat _ _ rank_bottom) in Hb.
  apply (one_from_rank _ _ 2%nat _ _ rank_outerwear) in Ho.
  apply (one_from_rank _ _ 3%nat _ _ rank_footwear) in Hf.
  apply (one_from_rank _ _ 4%nat _ _ rank_accessory) in Ha.
  destruct Ht as [->|(x0 & -> & R0 & _)], Hb as [->|(x1 & -> & R1 & _)],
    Ho as [->|(x2 & -> & R2 & _)], Hf as [->|(x3 & -> & R3 & _)],
    Ha as [->|(x4 & -> & R4 & _)];
    cbn; split;
    repeat first [apply SSorted_nil | apply SSorted_cons | apply Forall_nil
                 | apply Forall_cons];
    lia.
Qed.

Lemma StronglySorted_rank_length (its : list ClothingItem) :
  StronglySorted (fun a b => (slot_rank a < slot_rank b)%nat) its ->
  Forall (fun it => (slot_rank it < 5)%nat) its ->
  forall lo, (lo <= 5)%nat -> Forall (fun it => (lo <= slot_rank it)%nat) its ->
  (List.length its + lo <= 5)%nat.
Proof.
  induction 1 as [|x l Hs IH Hx]; intros Hlt lo Hlo5 Hlo; cbn.
  - lia.
  - inversion Hlt as [|? ? Hx5 Hl5]; subst. inversion Hlo as [|? ? Hxlo _]; subst.
    assert (H : (List.length l + S (slot_rank x) <= 5)%nat).
    { apply IH; [exact Hl5 | lia |]. eapply Forall_impl; [|exact Hx]. cbn. intros; lia. }
    lia.
Qed.

End SlotOrder.

Section ComposerMore.
Import OutfitService.
Context {D : Type}.
Implicit Types (w : World D) (s : Reads) (p : Preferences)
  (clothingItems : list ClothingItem).

Lemma one_from_length (must : bool) (arr l : list ClothingItem) :
  one_from must arr l ->
  (List.length l <= if Nat.eqb (List.length arr) 0 then 0 else 1)%nat.
Proof.
  intros [[-> _]|(it & -> & Hin)]; [cbn; lia|].
  destruct arr; [contradiction | cbn; lia].
Qed.

Lemma composed_length (cats : Categories) (its : list ClothingItem) :
  composed cats its -> (List.length its <= slots_in_use cats)%nat.
Proof.
  intros (t & b & o & f & a & -> & Ht & Hb & Ho & Hf & Ha).
  apply one_from_length in Ht, Hb, Ho, Hf, Ha.
  repeat rewrite length_app. unfold slots_in_use. cbn [filter].
  destruct (Nat.eqb (List.length (cat_top cats)) 0),
    (Nat.eqb (List.length (cat_bottom cats)) 0),
    (Nat.eqb (List.length (cat_outerwear cats)) 0),
    (Nat.eqb (List.length (cat_footwear cats)) 0),
    (Nat.eqb (List.length (cat_accessories cats)) 0); cbn; lia.
Qed.

Lemma not_footwear (it : ClothingItem) : slot_rank it <> 3%nat -> is_footwear it = false.
Proof.
  intros H. destruct (is_footwear it) eqn:E; [|reflexivity].
  elim H. apply rank_footwear. exact E.
Qed.

Lemma composed_count_footwear (available its : list ClothingItem) :
  composed (categorize available) its ->
  (List.length (filter is_footwear its) <= 1)%nat
  /\ ((exists x, In x available /\ is_footwear x = true) ->
      List.length (filter is_footwear its) = 1%nat).
Proof.
  intros (t & b & o & f & a & -> & Ht & Hb & Ho & Hf & Ha). cbn in *.
  assert (Hmust : (exists x, In x available /\ is_footwear x = true) -> exists it, f = [it]).
  { intros (x & Hin & Hx). apply (one_from_must _ _ Hf). intros E.
    assert (Hx' : In x (filter is_footwear available)) by (apply filter_In; auto).
    rewrite E in Hx'. exact Hx'. }
  apply (one_from_rank _ _ 0%nat _ _ rank_top) in Ht.
  apply (one_from_rank _ _ 1%nat _ _ rank_bottom) in Hb.
  apply (one_from_rank _ _ 2%nat _ _ rank_outerwear) in Ho.
  apply (one_from_rank _ _ 3%nat _ _ rank_footwear) in Hf.
  apply (one_from_rank _ _ 4%nat _ _ rank_accessory) in Ha.
  assert (Hnone : forall l k, k <> 3%nat ->
            (l = [] \/ exists it, l = [it] /\ slot_rank it = k /\ In it available) ->
            filter is_footwear l = []).
  { intros l k Hk [->|(it & -> & R & _)]; [reflexivity|]. cbn [filter].
    rewrite not_footwear; [reflexivity | congruence]. }
  repeat rewrite filter_app.
  rewrite (Hnone t 0%nat), (Hnone b 1%nat), (Hnone o 2%nat), (Hnone a 4%nat)
    by (assumption || discriminate).
  cbn [app]. rewrite app_nil_r.
  destruct Hf as [->|(x3 & -> & R3 & _)].
  - split; [cbn; lia|]. intros H. destruct (Hmust H) as [it E]. discriminate.
  - apply rank_footwear_iff in R3. cbn [filter]. rewrite R3. cbn. split; [lia | reflexivity].
Qed.

(** X1.  For every input, and whatever the draws, a call of the composer
    that returns gives outfits whose items come in slot order (top, bottom,
    outerwear, footwear, accessory) with one item per slot at most: an
    outfit has five items at most and holds no item whose category belongs
    to no slot.  The call returns unless a draw falls outside [[0, 1)]. *)
Theorem generate_items_in_slot_order w s clothingItems p
    (res : result D (list Outfit)) s' :
  generateOutfitRecommendation clothingItems p w s = (res, s') ->
  match res with
  | Ok outfits =>
      Forall (fun o =>
                StronglySorted (fun a b => (slot_rank a < slot_rank b)%nat) (items o)
                /\ Forall (fun it => (slot_rank it < 5)%nat) (items o)
                /\ (List.length (items o) <= 5)%nat)
             outfits
  | Throw _ => ~ valid_random w
  end.
Proof.
  intros Hrun. destruct res as [outfits|e].
  - apply generate_Ok in Hrun. destruct Hrun as (Hall & _).
    eapply Forall_impl; [|exact Hall]. intros o Hp.
    destruct (composed_sorted _ _ (pushed_items _ _ _ _ _ _ Hp)) as [Hs Hr].
    split; [exact Hs|]. split; [exact Hr|].
    pose proof (StronglySorted_rank_length _ Hs Hr 0%nat) as Hlen.
    rewrite Nat.add_0_r in Hlen. apply Hlen; [lia|].
    eapply Forall_impl; [|exact Hr]. cbn. intros; lia.
  - intros Hv. destruct (generate_total clothingItems p w s Hv) as (o & s1 & H).
    congruence.
Qed.

(** X2.  With draws in [[0, 1)] the composer returns three outfits at most
    for every input, and exactly three when the input holds an eligible top
    and an eligible bottom. *)
Theorem generate_three_outfits w s clothingItems p :
  valid_random w ->
  exists outfits s',
    generateOutfitRecommendation clothingItems p w s = (Ok outfits, s')
    /\ (List.length outfits <= 3)%nat
    /\ ((exists t, In t clothingItems /\ eligible p t = true /\ is_top t = true) ->
        (exists b, In b clothingItems /\ eligible p b = true /\ is_bottom b = true) ->
        List.length outfits = 3%nat).
Proof.
  intros Hv.
  destruct (generate_total clothingItems p w s Hv) as (outfits & s' & Hrun).
  exists outfits, s'. split; [exact Hrun|].
  apply generate_Ok in Hrun. destruct Hrun as (_ & Hlen & Hfull & _).
  split; [exact Hlen|].
  intros (t & Ht_in & Ht_el & Ht) (b & Hb_in & Hb_el & Hb).
  apply Hfull. apply never_short_top_bottom.
  - exists t. split; [apply available_In; auto | exact Ht].
  - exists b. split; [apply available_In; auto | exact Hb].
Qed.

(** X3.  When the eligible items fill fewer than two of the five slots
    (an empty input, or tops only, say), the composer returns no outfit:
    a turn that picks fewer than two items pushes nothing.  The call
    returns unless a draw falls outside [[0, 1)]. *)
Theorem generate_nothing_from_one_slot w s clothingItems p
    (res : result D (list Outfit)) s' :
  (slots_in_use (categorize (availableItems clothingItems p)) < 2)%nat ->
  generateOutfitRecommendation clothingItems p w s = (res, s') ->
  match res with
  | Ok outfits => outfits = []
  | Throw _ => ~ valid_random w
  end.
Proof.
  intros Hfew Hrun. destruct res as [outfits|e].
  - apply generate_Ok in Hrun. destruct Hrun as (Hall & _).
    destruct outfits as [|o rest]; [reflexivity|].
    inversion Hall as [|? ? Ho _]; subst.
    pose proof (composed_length _ _ (pushed_items _ _ _ _ _ _ Ho)) as Hlen.
    pose proof (pushed_length _ _ _ _ _ _ Ho). lia.
  - intros Hv. destruct (generate_total clothingItems p w s Hv) as (o & s1 & H).
    congruence.
Qed.

(** X4.  Footwear is never left out: when the input holds an eligible
    item of the footwear slot, every returned outfit holds exactly one item
    of that slot (and one at most in any case).  The call returns unless a
    draw falls outside [[0, 1)]. *)
Theorem generate_footwear_whenever_available w s clothingItems p
    (res : result D (list Outfit)) s' :
  generateOutfitRecommendation clothingItems p w s = (res, s') ->
  match res with
  | Ok outfits =>
      Forall (fun o =>
                (List.length (filter is_footwear (items o)) <= 1)%nat
                /\ ((exists f, In f clothingItems /\ eligible p f = true
                               /\ is_footwear f = true) ->
                    List.length (filter is_footwear (items o)) = 1%nat))
             outfits
  | Throw _ => ~ valid_random w
  end.
Proof.
  intros Hrun. destruct res as [outfits|e].
  - apply generate_Ok in Hrun. destruct Hrun as (Hall & _).
    eapply Forall_impl; [|exact Hall]. intros o Hp.
    destruct (composed_count_footwear _ _ (pushed_items _ _ _ _ _ _ Hp)) as [Hle Hone].
    split; [exact Hle|]. intros (f & Hin & Hel & Hf). apply Hone.
    exists f. split; [apply available_In; auto | exact Hf].
  - intros Hv. destruct (generate_total clothingItems p w s Hv) as (o & s1 & H).
    congruence.
Qed.

(** X5.  Every returned outfit carries the occasion, season and style in
    effect (the supplied ones, or [casual], [all-year] and [comfortable]
    when not supplied), and its description is
    [Perfect <occasion> outfit for <season>: ] followed by the names of its
    items, in order, separated by a comma and a space. *)
Theorem generate_echo_and_description w s clothingItems p
    (res : result D (list Outfit)) s' :
  generateOutfitRecommendation clothingItems p w s = (res, s') ->
  match res with
  | Ok outfits =>
      Forall (fun o =>
                outfit_occasion o = JS.default_to "casual" (occasion p)
                /\ outfit_season o = JS.default_to "all-year" (season p)
                /\ outfit_style o = JS.default_to "comfortable" (style p)
                /\ description o
                   = ("Perfect " ++ JS.to_string (outfit_occasion o) ++ " outfit for "
                      ++ JS.to_string (outfit_season o) ++ ": "
                      ++ JS.join ", " (map name (items o)))%string)
             outfits
  | Throw _ => ~ valid_random w
  end.
Proof.
  intros Hrun. destruct res as [outfits|e].
  - apply generate_Ok in Hrun. destruct Hrun as (Hall & _).
    eapply Forall_impl; [|exact Hall]. intros o [_ _ _ Ho Hs Hst Hd].
    rewrite Ho, Hs, Hst. repeat split. exact Hd.
  - intros Hv. destruct (generate_total clothingItems p w s Hv) as (o & s1 & H).
    congruence.
Qed.

End ComposerMore.

Section ComposerIds.
Import OutfitService.
Context {D : Type}.
Implicit Types (w : World D) (s : Reads).

(** The last character of a string. *)
Fixpoint last_char (str : string) : option ascii :=
  match str with
  | EmptyString => None
  | String c rest =>
      match last_char rest with
      | Some c' => Some c'
      | None => Some c
      end
  end.

(** The [id] of [o] is the one the turn [i] builds, at some instant. *)
Definition id_of_turn (o : Outfit) (i : nat) : Prop :=
  exists t, outfit_id o = ("outfit_" ++ JS.show_Z t ++ "_" ++ JS.show_nat i)%string.

Lemma last_char_app (a b : string) :
  last_char (a ++ b) = match last_char b with
                       | Some c => Some c
                       | None => last_char a
                       end.
Proof.
  induction a as [|c a IH]; cbn.
  - destruct (last_char b); reflexivity.
  - rewrite IH. destruct (last_char b); reflexivity.
Qed.

Lemma id_of_turn_last (o : Outfit) (i : nat) :
  id_of_turn o i -> (i < 3)%nat ->
  last_char (outfit_id o) = last_char (JS.show_nat i).
Proof.
  intros [t ->] Hi. rewrite !last_char_app.
  destruct i as [|[|[|i]]]; [reflexivity | reflexivity | reflexivity | lia].
Qed.

Lemma ids_differ (o1 o2 : Outfit) (i j : nat) :
  id_of_turn o1 i -> id_of_turn o2 j -> (i < j)%nat -> (j < 3)%nat ->
  outfit_id o1 <> outfit_id o2.
Proof.
  intros H1 H2 Hij Hj E.
  apply id_of_turn_last in H1; [|lia]. apply id_of_turn_last in H2; [|lia].
  rewrite E, H2 in H1.
  destruct i as [|[|[|i]]], j as [|[|[|j]]]; try lia; discriminate.
Qed.

Lemma iteration_Ok_id (cats : Categories) (occ sea sty : JS.value) (i : nat)
    (outfits outfits' : list Outfit) w s s' :
  iteration cats occ sea sty i outfits w s = (Ok outfits', s') ->
  outfits' = outfits \/ exists o, outfits' = outfits ++ [o] /\ id_of_turn o i.
Proof.
  intros H.
  destruct (iteration_run cats occ sea sty i outfits w s)
    as (pt & pb & po & pf & pa & s1 & Hrun & _).
  cbn zeta in Hrun. rewrite Hrun in H. clear Hrun.
  destruct (item_names (pt ++ pb ++ po ++ pf ++ pa)) as [names|e]; [|discriminate].
  destruct (2 <=? List.length (pt ++ pb ++ po ++ pf ++ pa))%nat;
    inversion H; subst; [right | left; reflexivity].
  eexists. split; [reflexivity|]. eexists. reflexivity.
Qed.

Lemma loop_Ok_ids (cats : Categories) (occ sea sty : JS.value) (turns from : nat)
    (outfits outfits' : list Outfit) w s s' :
  loop cats occ sea sty turns from outfits w s = (Ok outfits', s') ->
  exists added idxs,
    outfits' = outfits ++ added
    /\ Forall2 id_of_turn added idxs
    /\ StronglySorted lt idxs
    /\ Forall (fun i => (from <= i < from + turns)%nat) idxs.
Proof.
  revert from outfits s. induction turns as [|turns IH]; intros from outfits s H.
  - cbn in H. inversion H; subst. exists [], []. rewrite app_nil_r.
    repeat split; constructor.
  - cbn [loop] in H. unfold bind in H.
    destruct (iteration cats occ sea sty from outfits w s) as [[outfits1|e] s1] eqn:E;
      [|discriminate].
    apply iteration_Ok_id in E.
    apply IH in H. destruct H as (added & idxs & -> & Hids & Hsorted & Hrange).
    assert (Hrange' : Forall (fun i => (from <= i < from + S turns)%nat) idxs).
    { eapply Forall_impl; [|exact Hrange]. cbn. intros; lia. }
    destruct E as [->|(o & -> & Ho)].
    + exists added, idxs. auto.
    + exists (o :: added), (from :: idxs). rewrite <- app_assoc.
      split; [reflexivity|]. split; [constructor; assumption|].
      split; [|constructor; [lia | exact Hrange']].
      constructor; [exact Hsorted|].
      eapply Forall_impl; [|exact Hrange]. cbn. intros; lia.
Qed.

Lemma ids_NoDup (outfits : list Outfit) (idxs : list nat) :
  Forall2 id_of_turn outfits idxs ->
  StronglySorted lt idxs ->
  Forall (fun i => (i < 3)%nat) idxs ->
  NoDup (map outfit_id outfits).
Proof.
  induction 1 as [|o i outfits idxs Ho Hrest IH]; intros Hs Hlt; cbn; [constructor|].
  inversion Hs as [|? ? Hs' Hi]; subst. inversion Hlt as [|? ? Hi3 Hlt']; subst.
  constructor; [|apply IH; assumption].
  intros Hin. apply in_map_iff in Hin. destruct Hin as (o' & Heq & Hin').
  clear IH Hs Hs' Hlt.
  induction Hrest as [|o2 j outfits idxs Ho2 Hrest IH2]; [contradiction|].
  inversion Hi as [|? ? Hij Hi']; subst. inversion Hlt' as [|? ? Hj3 Hlt2]; subst.
  destruct Hin' as [->|Hin'].
  - apply (ids_differ o o' i j Ho Ho2 Hij Hj3). symmetry. exact Heq.
  - apply IH2; assumption.
Qed.

(** X6.  The ids of the outfits of one response are pairwise distinct:
    the id ends with the number of the turn that built the outfit.  The
    call returns unless a draw falls outside [[0, 1)]. *)
Theorem generate_ids_distinct w s (clothingItems : list ClothingItem) (p : Preferences)
    (res : result D (list Outfit)) s' :
  generateOutfitRecommendation clothingItems p w s = (res, s') ->
  match res with
  | Ok outfits => NoDup (map outfit_id outfits)
  | Throw _ => ~ valid_random w
  end.
Proof.
  intros Hrun. destruct res as [outfits|e].
  - unfold generateOutfitRecommendation, bind in Hrun.
    destruct (loop _ _ _ _ 3 0 [] w s) as [[out|e] s1] eqn:E; [|discriminate].
    pose proof (loop_Ok _ _ _ _ _ _ _ _ _ _ _ E) as (added & -> & Hall & _).
    apply loop_Ok_ids in E. destruct E as (added' & idxs & Heq & Hids & Hsorted & Hrange).
    cbn [app] in Hrun, Heq. subst added'.
    rewrite (final_filter_id _ _ _ _ _ _ Hall) in Hrun.
    unfold ret in Hrun. inversion Hrun; subst.
    apply (ids_NoDup _ idxs Hids Hsorted).
    eapply Forall_impl; [|exact Hrange]. cbn. intros; lia.
  - intros Hv. destruct (generate_total clothingItems p w s Hv) as (o & s1 & H).
    congruence.
Qed.

End ComposerIds.

Section ComposerReads.
Import OutfitService.
Context {D : Type}.
Implicit Types (w : World D) (s : Reads).

(** A run of [m] makes [hi] draws at most, [lo] at least when it returns,
    and does not call [axios]. *)
Definition draws_within {A} (lo hi : nat) (m : M D A) : Prop :=
  forall w s,
    n_axios (snd (m w s)) = n_axios s
    /\ (n_random s <= n_random (snd (m w s)) <= n_random s + hi)%nat
    /\ (forall a, fst (m w s) = Ok a -> (n_random s + lo <= n_random (snd (m w s)))%nat).

Lemma draws_ret {A} (a : A) : draws_within 0 0 (ret a).
Proof. intros w s. cbn. split; [reflexivity|]. split; intros; lia. Qed.

Lemma draws_throw {A} (e : Exn D) : draws_within (A := A) 0 0 (throw e).
Proof. intros w s. cbn. split; [reflexivity|]. split; intros; lia. Qed.

Lemma draws_random : draws_within 1 1 Math_random.
Proof. intros w s. cbn. split; [reflexivity|]. split; intros; lia. Qed.

Lemma draws_now : draws_within 0 0 Date_now.
Proof. intros w s. cbn. split; [reflexivity|]. split; intros; lia. Qed.

Lemma draws_weaken {A} (lo hi lo' hi' : nat) (m : M D A) :
  (lo' <= lo)%nat -> (hi <= hi')%nat -> draws_within lo hi m -> draws_within lo' hi' m.
Proof.
  intros Hlo Hhi H w s. destruct (H w s) as (Hf & Hb & Hl).
  split; [exact Hf|]. split; [lia|]. intros a Ha. specialize (Hl a Ha). lia.
Qed.

Lemma draws_bind {A B} (lo1 hi1 lo2 hi2 : nat) (m : M D A) (k : A -> M D B) :
  draws_within lo1 hi1 m -> (forall a, draws_within lo2 hi2 (k a)) ->
  draws_within (lo1 + lo2) (hi1 + hi2) (bind m k).
Proof.
  intros Hm Hk w s. unfold bind. destruct (Hm w s) as (Hf & Hb & Hl).
  destruct (m w s) as [[a|e] s1]; cbn in *.
  - destruct (Hk a w s1) as (Hf2 & Hb2 & Hl2). specialize (Hl a eq_refl).
    split; [congruence|]. split; [lia|].
    intros b Hb'. specialize (Hl2 b Hb'). lia.
  - split; [exact Hf|]. split; [lia|]. intros a Ha. discriminate.
Qed.

Lemma draws_random_element {A} (arr : list A) : draws_within 1 1 (random_element arr).
Proof.
  unfold random_element. apply (draws_bind 1 1 0 0); [apply draws_random|].
  intros r. apply draws_ret.
Qed.

Lemma draws_push_pick (arr : list ClothingItem) (picked : list (option ClothingItem)) :
  draws_within 0 1 (push_pick arr picked).
Proof.
  unfold push_pick. destruct arr.
  - eapply draws_weaken; [| |apply draws_ret]; lia.
  - eapply draws_weaken; [| |apply (draws_bind 1 1 0 0)];
      [lia | lia | apply draws_random_element | intros; apply draws_ret].
Qed.

Lemma draws_push_pick_above (t : Q) (arr : list ClothingItem)
    (picked : list (option ClothingItem)) :
  draws_within 0 2 (push_pick_above t arr picked).
Proof.
  unfold push_pick_above. destruct arr.
  - eapply draws_weaken; [| |apply draws_ret]; lia.
  - eapply draws_weaken; [| |apply (draws_bind 1 1 0 1)];
      [lia | lia | apply draws_random |].
    intros r. destruct (JS.gt r t).
    + eapply draws_weaken; [| |apply (draws_bind 1 1 0 0)];
        [lia | lia | apply draws_random_element | intros; apply draws_ret].
    + eapply draws_weaken; [| |apply draws_ret]; lia.
Qed.

Lemma draws_iteration (cats : Categories) (occ sea sty : JS.value) (i : nat)
    (outfits : list Outfit) :
  draws_within 1 8 (iteration cats occ sea sty i outfits).
Proof.
  unfold iteration.
  apply (draws_bind 0 0 1 8); [apply draws_now|]. intros t.
  apply (draws_bind 1 1 0 7); [apply draws_random|]. intros c.
  apply (draws_bind 0 1 0 6); [apply draws_push_pick|]. intros p1.
  apply (draws_bind 0 1 0 5); [apply draws_push_pick|]. intros p2.
  apply (draws_bind 0 2 0 3); [apply draws_push_pick_above|]. intros p3.
  apply (draws_bind 0 1 0 2); [apply draws_push_pick|]. intros p4.
  apply (draws_bind 0 2 0 0); [apply draws_push_pick_above|]. intros p5.
  destruct (item_names p5); [|apply draws_throw].
  destruct (2 <=? List.length p5)%nat; apply draws_ret.
Qed.

Lemma draws_loop (cats : Categories) (occ sea sty : JS.value) (turns from : nat)
    (outfits : list Outfit) :
  draws_within turns (8 * turns) (loop cats occ sea sty turns from outfits).
Proof.
  revert from outfits. induction turns as [|turns IH]; intros from outfits; cbn [loop].
  - apply draws_ret.
  - eapply draws_weaken; [| |apply (draws_bind 1 8 turns (8 * turns))];
      [lia | lia | apply draws_iteration | intros; apply IH].
Qed.

Lemma draws_generate (clothingItems : list ClothingItem) (p : Preferences) :
  draws_within 3 24 (generateOutfitRecommendation clothingItems p).
Proof.
  unfold generateOutfitRecommendation.
  apply (draws_bind 3 24 0 0); [apply (draws_loop _ _ _ _ 3) | intros; apply draws_ret].
Qed.

(** X7.  A call of the composer makes no [axios] call.  When it returns
    it has read the clock three times and made between 3 and 24 draws; it
    returns unless a draw falls outside [[0, 1)]. *)
Theorem generate_reads w s (clothingItems : list ClothingItem) (p : Preferences)
    (res : result D (list Outfit)) s' :
  generateOutfitRecommendation clothingItems p w s = (res, s') ->
  n_axios s' = n_axios s
  /\ match res with
     | Ok _ =>
         n_clock s' = (n_clock s + 3)%nat
         /\ (n_random s + 3 <= n_random s' <= n_random s + 24)%nat
     | Throw _ => ~ valid_random w
     end.
Proof.
  intros Hrun.
  assert (Hreads : n_axios s' = n_axios s
                   /\ (n_random s' <= n_random s + 24)%nat
                   /\ (forall out, res = Ok out -> (n_random s + 3 <= n_random s')%nat)).
  { destruct (draws_generate clothingItems p w s) as (Ha & Hb & Hl). rewrite Hrun in Ha, Hb, Hl. cbn in Ha, Hb, Hl.
    split; [exact Ha|]. split; [lia|]. intros out ->. apply (Hl out eq_refl). }
  destruct Hreads as (Ha & Hb & Hl). split; [exact Ha|].
  destruct res as [outfits|e].
  - apply generate_Ok in Hrun. destruct Hrun as (_ & _ & _ & Hc & _).
    split; [lia|]. specialize (Hl outfits eq_refl). lia.
  - intros Hv. destruct (generate_total clothingItems p w s Hv) as (o & s1 & H).
    congruence.
Qed.

End ComposerReads.

Section ComposerMoreExamples.
Import OutfitService Examples.

(** X1 at a wardrobe with a top, a bottom, sneakers and a jacket. *)
Lemma generate_items_in_slot_order_witness :
  exists outfits s',
    generateOutfitRecommendation [rain_jacket; sneakers; blue_jeans; white_tee]
      no_preferences (quarter_world unit) no_reads = (Ok outfits, s')
    /\ Forall (fun o =>
                 StronglySorted (fun a b => (slot_rank a < slot_rank b)%nat) (items o)
                 /\ Forall (fun it => (slot_rank it < 5)%nat) (items o)
                 /\ (List.length (items o) <= 5)%nat)
              outfits.
Proof.
  eexists _, _. split; [vm_compute; reflexivity|].
  refine (generate_items_in_slot_order (quarter_world unit) no_reads
            [rain_jacket; sneakers; blue_jeans; white_tee] no_preferences (Ok _) _ _).
  vm_compute. reflexivity.
Defined.

(** X2 at a wardrobe with a top and a bottom. *)
Lemma generate_three_outfits_witness :
  exists outfits s',
    generateOutfitRecommendation [white_tee; blue_jeans] no_preferences
      (quarter_world unit) no_reads = (Ok outfits, s')
    /\ (List.length outfits <= 3)%nat
    /\ ((exists t, In t [white_tee; blue_jeans] /\ eligible no_preferences t = true
                   /\ is_top t = true) ->
        (exists b, In b [white_tee; blue_jeans] /\ eligible no_preferences b = true
                   /\ is_bottom b = true) ->
        List.length outfits = 3%nat).
Proof.
  apply (generate_three_outfits (quarter_world unit) no_reads [white_tee; blue_jeans]
           no_preferences).
  intros n. split; [discriminate | reflexivity].
Defined.

(** X3 at a wardrobe that holds tops only. *)
Lemma generate_nothing_from_one_slot_witness :
  exists outfits s',
    generateOutfitRecommendation [white_tee; evening_gown] no_preferences
      (quarter_world unit) no_reads = (Ok outfits, s')
    /\ outfits = [].
Proof.
  eexists _, _. split; [vm_compute; reflexivity|].
  refine (generate_nothing_from_one_slot (quarter_world unit) no_reads
            [white_tee; evening_gown] no_preferences (Ok _) _ _ _).
  - vm_compute. lia.
  - vm_compute. reflexivity.
Defined.

(** X4 at a wardrobe with sneakers. *)
Lemma generate_footwear_whenever_available_witness :
  exists outfits s',
    generateOutfitRecommendation [white_tee; blue_jeans; sneakers] no_preferences
      (quarter_world unit) no_reads = (Ok outfits, s')
    /\ Forall (fun o =>
                 (List.length (filter is_footwear (items o)) <= 1)%nat
                 /\ ((exists f, In f [white_tee; blue_jeans; sneakers]
                                /\ eligible no_preferences f = true
                                /\ is_footwear f = true) ->
                     List.length (filter is_footwear (items o)) = 1%nat))
              outfits.
Proof.
  eexists _, _. split; [vm_compute; reflexivity|].
  refine (generate_footwear_whenever_available (quarter_world unit) no_reads
            [white_tee; blue_jeans; sneakers] no_preferences (Ok _) _ _).
  vm_compute. reflexivity.
Defined.

(** X5 at preferences that name an occasion and nothing else. *)
Lemma generate_echo_and_description_witness :
  exists outfits s',
    generateOutfitRecommendation [white_tee; blue_jeans]
      (mkPrefs (JS.Str "casual") JS.Undefined JS.Null None)
      (quarter_world unit) no_reads = (Ok outfits, s')
    /\ Forall (fun o =>
                 outfit_occasion o = JS.Str "casual"
                 /\ outfit_season o = JS.Str "all-year"
                 /\ outfit_style o = JS.Null
                 /\ description o
                    = ("Perfect " ++ JS.to_string (outfit_occasion o) ++ " outfit for "
                       ++ JS.to_string (outfit_season o) ++ ": "
                       ++ JS.join ", " (map name (items o)))%string)
              outfits.
Proof.
  eexists _, _. split; [vm_compute; reflexivity|].
  refine (generate_echo_and_description (quarter_world unit) no_reads
            [white_tee; blue_jeans] (mkPrefs (JS.Str "casual") JS.Undefined JS.Null None)
            (Ok _) _ _).
  vm_compute. reflexivity.
Defined.

(** X6 at a wardrobe with a top and a bottom. *)
Lemma generate_ids_distinct_witness :
  exists outfits s',
    generateOutfitRecommendation [white_tee; blue_jeans] no_preferences
      (quarter_world unit) no_reads = (Ok outfits, s')
    /\ NoDup (map outfit_id outfits).
Proof.
  eexists _, _. split; [vm_compute; reflexivity|].
  refine (generate_ids_distinct (quarter_world unit) no_reads
            [white_tee; blue_jeans] no_preferences (Ok _) _ _).
  vm_compute. reflexivity.
Defined.

(** X7 at a wardrobe with a top and a bottom. *)
Lemma generate_reads_witness :
  exists outfits s',
    generateOutfitRecommendation [white_tee; blue_jeans] no_preferences
      (quarter_world unit) no_reads = (Ok outfits, s')
    /\ n_axios s' = 0%nat /\ n_clock s' = 3%nat
    /\ (3 <= n_random s' <= 24)%nat.
Proof.
  eexists _, _. split; [vm_compute; reflexivity|].
  exact (generate_reads (quarter_world unit) no_reads
           [white_tee; blue_jeans] no_preferences (Ok _) _ eq_refl).
Defined.

End ComposerMoreExamples.

(** * More about the routes of the outfit service and of the gateway *)

Section OutfitRouteMore.
Import OutfitService.
Implicit Types (w : World WardrobeData) (s : Reads) (req : GenerateRequest).




Lemma item_names_Throw {D} (picked : list (option ClothingItem)) (e : Exn D) :
  item_names picked = Throw e -> error_code e = None.
Proof.
  induction picked as [|[it|] rest IH]; cbn; intros H.
  - discriminate.
  - destruct (item_names rest); [discriminate|]. inversion H; subst. apply IH. reflexivity.
  - inversion H. reflexivity.
Qed.

Lemma iteration_Throw {D} (cats : Categories) (occ sea sty : JS.value) (i : nat)
    (outfits : list Outfit) (w0 : World D) s0 (e : Exn D) s1 :
  iteration cats occ sea sty i outfits w0 s0 = (Throw e, s1) -> error_code e = None.
Proof.
  intros H.
  destruct (iteration_run cats occ sea sty i outfits w0 s0)
    as (pt & pb & po & pf & pa & s2 & Hrun & _).
  cbn zeta in Hrun. rewrite Hrun in H.
  destruct (item_names (pt ++ pb ++ po ++ pf ++ pa)) as [names|e0] eqn:En; [discriminate|].
  inversion H; subst. eapply item_names_Throw. exact En.
Qed.

Lemma loop_Throw {D} (cats : Categories) (occ sea sty : JS.value) (turns from : nat)
    (outfits : list Outfit) (w0 : World D) s0 (e : Exn D) s1 :
  loop cats occ sea sty turns from outfits w0 s0 = (Throw e, s1) -> error_code e = None.
Proof.
  revert from outfits s0. induction turns as [|turns IH]; intros from outfits s0 H.
  - discriminate.
  - cbn [loop] in H. unfold bind in H.
    destruct (iteration cats occ sea sty from outfits w0 s0) as [[o1|e1] s2] eqn:E.
    + eapply IH. exact H.
    + inversion H; subst. eapply iteration_Throw. exact E.
Qed.

(** The composer throws nothing but the [TypeError] of reading [name] of
    [undefined], which has no [code]. *)
Lemma generate_Throw {D} (clothingItems : list ClothingItem) (p : Preferences)
    (w0 : World D) s0 (e : Exn D) s1 :
  generateOutfitRecommendation clothingItems p w0 s0 = (Throw e, s1) ->
  error_code e = None.
Proof.
  unfold generateOutfitRecommendation, bind. intros H.
  destruct (loop _ _ _ _ 3 0 [] w0 s0) as [[out|e1] s2] eqn:E; [discriminate|].
  inversion H; subst. eapply loop_Throw. exact E.
Qed.

(** A call of the composer, whatever is passed as preferences, makes no
    [axios] call and throws nothing but a [TypeError]. *)
Lemma call_generate_outcome {D} (clothingItems : list ClothingItem)
    (preferences : PreferencesValue) (w0 : World D) s0 :
  n_axios (snd (call_generateOutfitRecommendation clothingItems preferences w0 s0))
  = n_axios s0
  /\ forall e s1,
       call_generateOutfitRecommendation clothingItems preferences w0 s0 = (Throw e, s1) ->
       error_code e = None.
Proof.
  destruct preferences as [| |p]; cbn [call_generateOutfitRecommendation].
  - split; [apply (draws_generate clothingItems no_preferences w0 s0)|].
    intros e s1. apply generate_Throw.
  - split; [reflexivity|]. intros e s1 H. inversion H. reflexivity.
  - split; [apply (draws_generate clothingItems p w0 s0)|].
    intros e s1. apply generate_Throw.
Qed.

(** X8.  The route [POST /generate] answers every request: no exception
    leaves the handler, exactly one [axios] call is made, and the status is
    200, 400, 500 or 503.  It is 503 exactly when the call was rejected
    with code [ECONNREFUSED] or [ENOTFOUND], and 400 exactly when the call
    resolved with a body whose [success] is not true. *)
Theorem generate_route_always_answers w s req :
  exists r s',
    generate_route req w s = (Ok r, s')
    /\ n_axios s' = S (n_axios s)
    /\ In (status r) [200; 400; 500; 503]%nat
    /\ (status r = 503%nat <->
        exists c resp, axios w (n_axios s) = Rejected (Some c) resp
                       /\ (c = "ECONNREFUSED" \/ c = "ENOTFOUND"))
    /\ (status r = 400%nat <->
        exists resp, axios w (n_axios s) = Resolved resp
                     /\ success (http_data resp) = false).
Proof.
  unfold generate_route, try_catch, bind, await_axios.
  destruct (axios w (n_axios s)) as [resp|code resp] eqn:Eax.
  - assert (Hno503 : ~ exists c (r0 : option (HttpResponse WardrobeData)),
                         Resolved resp = Rejected (Some c) r0
                         /\ (c = "ECONNREFUSED" \/ c = "ENOTFOUND")).
    { intros (c & r0 & H & _). discriminate. }
    destruct (success (http_data resp)) eqn:Esucc; cbn [negb].
    + assert (Hno400 : ~ exists r0 : HttpResponse WardrobeData,
                           Resolved resp = Resolved r0 /\ success (http_data r0) = false).
      { intros (r0 & H & Hs). inversion H; subst. congruence. }
      destruct (wardrobe_items (http_data resp)) as [clothingItems|].
      * destruct (List.length clothingItems =? 0)%nat.
        { do 2 eexists. split; [reflexivity|]. cbn.
          split; [reflexivity|]. split; [auto|].
          split; split; intros H; first [discriminate | contradiction]. }
        { set (s1 := mkReads (n_random s) (n_clock s) (S (n_axios s))).
          destruct (call_generate_outcome clothingItems (destructure_preferences req) w s1)
            as (Ha & Hthrow).
          destruct (call_generateOutfitRecommendation clothingItems _ w s1)
            as [[outfits|e] s2] eqn:Egen; cbn in Ha.
          - do 2 eexists. split; [reflexivity|]. cbn.
            split; [exact Ha|]. split; [auto|].
            split; split; intros H; first [discriminate | contradiction].
          - specialize (Hthrow e s2 eq_refl).
            unfold generate_catch, code_is. rewrite Hthrow. cbn.
            do 2 eexists. split; [reflexivity|]. cbn.
            split; [exact Ha|]. split; [auto|].
            split; split; intros H; first [discriminate | contradiction]. }
      * do 2 eexists. split; [reflexivity|]. cbn.
        split; [reflexivity|]. split; [auto|].
        split; split; intros H; first [discriminate | contradiction].
    + do 2 eexists. split; [reflexivity|]. cbn.
      split; [reflexivity|]. split; [auto|].
      split; split; intros H; first [discriminate | contradiction | idtac].
      * exists resp. auto.
      * reflexivity.
  - assert (Hno400 : ~ exists r0 : HttpResponse WardrobeData,
                         Rejected code resp = Resolved r0
                         /\ success (http_data r0) = false).
    { intros (r0 & H & _). discriminate. }
    unfold generate_catch, code_is, error_code.
    destruct code as [c|].
    + destruct (String.eqb_spec c "ECONNREFUSED") as [->|Hn1].
      * do 2 eexists. split; [reflexivity|]. cbn.
        split; [reflexivity|]. split; [auto 6|].
        split; split; intros H; first [discriminate | contradiction | idtac].
        { exists "ECONNREFUSED", resp. auto. }
        { reflexivity. }
      * destruct (String.eqb_spec c "ENOTFOUND") as [->|Hn2].
        { do 2 eexists. split; [reflexivity|]. cbn.
          split; [reflexivity|]. split; [auto 6|].
          split; split; intros H; first [discriminate | contradiction | idtac].
          - exists "ENOTFOUND", resp. auto.
          - reflexivity. }
        { do 2 eexists. split; [reflexivity|]. cbn.
          split; [reflexivity|]. split; [auto 6|].
          split; split; intros H; first [discriminate | contradiction | idtac].
          destruct H as (c' & r0 & H & [Hc|Hc]); inversion H; subst; contradiction. }
    + do 2 eexists. split; [reflexivity|]. cbn.
      split; [reflexivity|]. split; [auto 6|].
      split; split; intros H; first [discriminate | contradiction | idtac].
      destruct H as (c' & r0 & H & _). discriminate.
Qed.




End OutfitRouteMore.

Module GatewayHealth.

(** [SERVICES]: the base URL of each service, from the environment or the
    default. *)
Record Services : Type := mkServices {
  AUTH : string;
  WARDROBE : string;
  OUTFIT : string;
  PROFILE : string
}.

(** [Object.entries(SERVICES)], in the order of the object literal. *)
Definition entries (services : Services) : list (string * string) :=
  [("AUTH", AUTH services); ("WARDROBE", WARDROBE services);
   ("OUTFIT", OUTFIT services); ("PROFILE", PROFILE services)].

(** [toLowerCase] on a character; only the letters A to Z change.  The
    route applies it to the keys of [SERVICES]. *)
Definition lower_char (c : ascii) : ascii :=
  let n := nat_of_ascii c in
  if ((65 <=? n) && (n <=? 90))%nat then ascii_of_nat (n + 32) else c.

Fixpoint toLowerCase (str : string) : string :=
  match str with
  | EmptyString => EmptyString
  | String c rest => String (lower_char c) (toLowerCase rest)
  end.

Section Health.
Context {D : Type}.

(** [error.message], which the exceptions of the model do not carry. *)
Variable message : Exn D -> string.

(** One entry of [healthChecks]. *)
Inductive HealthCheck : Type :=
| (** [{ status: 'healthy', url, response }] *)
  Healthy (url : string) (response : D)
| (** [{ status: 'unhealthy', url, error }] *)
  Unhealthy (url : string) (error : string).

(** [service.status === 'healthy'] *)
Definition is_healthy (c : HealthCheck) : bool :=
  match c with
  | Healthy _ _ => true
  | Unhealthy _ _ => false
  end.

(** [obj[key] = value] on an object kept as the list of its properties in
    insertion order. *)
Fixpoint set_property (obj : list (string * HealthCheck)) (key : string)
    (value : HealthCheck) : list (string * HealthCheck) :=
  match obj with
  | [] => [(key, value)]
  | (k, v) :: rest =>
      if (k =? key)%string then (k, value) :: rest
      else (k, v) :: set_property rest key value
  end.

(** The body of the [for] loop for one entry. *)
Definition check_service (healthChecks : list (string * HealthCheck))
    (entry : string * string) : M D (list (string * HealthCheck)) :=
  let (name, url) := entry in
  try_catch
    (response <- await_axios ;;
     ret (set_property healthChecks (toLowerCase name) (Healthy url (http_data response))))
    (fun error =>
       ret (set_property healthChecks (toLowerCase name) (Unhealthy url (message error)))).

(** [for (const [name, url] of Object.entries(SERVICES))] *)
Fixpoint check_services (todo : list (string * string))
    (healthChecks : list (string * HealthCheck)) : M D (list (string * HealthCheck)) :=
  match todo with
  | [] => ret healthChecks
  | entry :: rest =>
      healthChecks' <- check_service healthChecks entry ;;
      check_services rest healthChecks'
  end.

(** [{ gateway: { status: 'healthy', version }, services, overall }] *)
Record HealthBody : Type := mkHealthBody {
  services : list (string * HealthCheck);
  overall : string
}.

(** The handler of [GET /health]. *)
Definition health (SERVICES : Services) : M D (Response HealthBody) :=
  healthChecks <- check_services (entries SERVICES) [] ;;
  let allHealthy := forallb is_healthy (map snd healthChecks) in
  ret (mkResponse (if allHealthy then 200 else 503)
         (mkHealthBody healthChecks
            (if allHealthy then "All services operational"
             else "Some services are down"))).

End Health.

End GatewayHealth.

Section GatewayComposition.

(** What [axios] makes of a response it receives, with its default
    [validateStatus]: a status from 200 to 299 resolves the promise, any
    other rejects it with the response attached. *)
Definition axios_outcome {B} (r : Response B) : AxiosResult B :=
  if ((200 <=? status r) && (status r <? 300))%nat
  then Resolved (mkHttp (status r) (body r))
  else Rejected (Some (if (status r <? 500)%nat then "ERR_BAD_REQUEST"
                       else "ERR_BAD_RESPONSE"))
                (Some (mkHttp (status r) (body r))).

End GatewayComposition.

Section GatewayMore.
Import GatewayHealth.
Context {D : Type}.
Implicit Types (w : World D) (s : Reads).

(** The entry [GET /health] records for a service, from how the call to
    it ended. *)
Definition check_of (message : Exn D -> string) (url : string) (a : AxiosResult D)
  : HealthCheck :=
  match a with
  | Resolved resp => Healthy url (http_data resp)
  | Rejected code resp => Unhealthy url (message (AxiosError code resp))
  end.

(** The call resolved. *)
Definition resolved (a : AxiosResult D) : bool :=
  match a with
  | Resolved _ => true
  | Rejected _ _ => false
  end.

Lemma check_service_run (message : Exn D -> string)
    (healthChecks : list (string * HealthCheck)) (name url : string) w s :
  check_service message healthChecks (name, url) w s
  = (Ok (set_property healthChecks (toLowerCase name)
           (check_of message url (axios w (n_axios s)))),
     mkReads (n_random s) (n_clock s) (S (n_axios s))).
Proof.
  unfold check_service, try_catch, bind, await_axios, check_of.
  destruct (axios w (n_axios s)); reflexivity.
Qed.

(** X11.  [GET /health] of the gateway calls the four services in the
    order auth, wardrobe, outfit, profile, one call each, whether or not
    an earlier call failed, and never throws.  The report has one entry per
    service, in that order, healthy exactly when the call to it resolved.
    The status is 200 when the four calls resolved and 503 otherwise. *)
Theorem health_checks_every_service (message : Exn D -> string)
    (SERVICES : Services) w s :
  let a0 := axios w (n_axios s) in
  let a1 := axios w (n_axios s + 1) in
  let a2 := axios w (n_axios s + 2) in
  let a3 := axios w (n_axios s + 3) in
  let allHealthy := resolved a0 && resolved a1 && resolved a2 && resolved a3 in
  health message SERVICES w s
  = (Ok (mkResponse (if allHealthy then 200 else 503)
           (mkHealthBody
              [("auth", check_of message (AUTH SERVICES) a0);
               ("wardrobe", check_of message (WARDROBE SERVICES) a1);
               ("outfit", check_of message (OUTFIT SERVICES) a2);
               ("profile", check_of message (PROFILE SERVICES) a3)]
              (if allHealthy then "All services operational"
               else "Some services are down"))),
     mkReads (n_random s) (n_clock s) (n_axios s + 4)).
Proof.
  cbv zeta.
  replace (n_axios s + 1)%nat with (S (n_axios s)) by lia.
  replace (n_axios s + 2)%nat with (S (S (n_axios s))) by lia.
  replace (n_axios s + 3)%nat with (S (S (S (n_axios s)))) by lia.
  replace (n_axios s + 4)%nat with (S (S (S (S (n_axios s))))) by lia.
  unfold health, entries. cbn [check_services]. unfold bind.
  repeat (rewrite check_service_run; cbn [n_axios n_random n_clock]).
  destruct (axios w (n_axios s)), (axios w (S (n_axios s))),
    (axios w (S (S (n_axios s)))), (axios w (S (S (S (n_axios s))))); reflexivity.
Qed.

End GatewayMore.

Section ProxyComposition.
Context {B : Type}.

(** X12.  The gateway is transparent for a service that answers: whatever
    status and body the handler of the service sends, [proxyRequest]
    sends the same status and the same body to its own client, after one
    [axios] call. *)
Theorem proxy_passes_the_answer_on (gw : World B) (gs : Reads)
    (serviceUrl path : string) (r : Response B) :
  axios gw (n_axios gs) = axios_outcome r ->
  Gateway.proxyRequest serviceUrl path gw gs
  = (Ok (mkResponse (status r) (Gateway.Forwarded (body r))),
     mkReads (n_random gs) (n_clock gs) (S (n_axios gs))).
Proof.
  intros H. unfold Gateway.proxyRequest, try_catch, bind, await_axios. rewrite H.
  unfold axios_outcome. destruct ((200 <=? status r) && (status r <? 300))%nat; reflexivity.
Qed.

End ProxyComposition.

(** * More about the single-process gateway *)

Section MonolithOutfit.
Import Monolith.
Context {D : Type}.
Implicit Types (w : World D) (s : Reads).

(** What a slot of the single-process gateway contributes: nothing when
    its array is empty, else one element of the array. *)
Definition picked_from (arr : list ClothingItem) (x : list (option ClothingItem)) : Prop :=
  (arr = [] /\ x = []) \/ (exists it, In it arr /\ x = [Some it]).

(** The items of [clothingItems] that belong to the user. *)
Definition items_of (uuid : string) (clothingItems : list ClothingItem)
  : list ClothingItem :=
  filter (fun item => (userId item =? uuid)%string) clothingItems.

Lemma outfits_generate_run (toString36 : Q -> string) (toISOString : Z -> string)
    (StringToNumber : string -> JS.number)
    (clothingItems : list ClothingItem) (uuid : string) (req : OutfitRequest) w s :
  valid_random w ->
  items_of uuid clothingItems <> [] ->
  exists outfit s' tops_pick outerwear_pick,
    outfits_generate toString36 toISOString StringToNumber clothingItems uuid req w s
    = (Ok (mkResponse 200 (OutfitBodyOk outfit)), s')
    /\ n_axios s' = n_axios s
    /\ confidence outfit = 85 # 100
    /\ occasion outfit = or_else (req_occasion req) "casual"
    /\ weather outfit = match req_weather req with
                        | Some wth => wth
                        | None => mkWeather (JS.Num (72 # 1)) (Some "sunny")
                        end
    /\ items outfit = tops_pick ++ outerwear_pick
    /\ picked_from (filter (fun item => (category item =? "top")%string)
                           (items_of uuid clothingItems)) tops_pick
    /\ (if below_70 StringToNumber (req_weather req)
        then picked_from (filter (fun item => (category item =? "outerwear")%string)
                                 (items_of uuid clothingItems)) outerwear_pick
        else outerwear_pick = []).
Proof.
  intros Hv Hne. unfold outfits_generate, try_catch. fold (items_of uuid clothingItems).
  destruct (items_of uuid clothingItems) as [|u0 us] eqn:Eu; [congruence|].
  cbn [List.length Nat.eqb].
  unfold bind at 1. unfold Math_random at 1.
  set (s1 := mkReads _ _ _).
  assert (Hsched : exists d s2,
             (if JS.truthy (req_date req) then ret (req_date req)
              else bind Date_now (fun t0 => ret (JS.Str (before_T (toISOString t0)))))
               w s1 = (Ok d, s2) /\ n_axios s2 = n_axios s).
  { destruct (JS.truthy (req_date req)); do 2 eexists; split; reflexivity. }
  destruct Hsched as (d & s2 & Hsched & Ha2). unfold bind at 1. rewrite Hsched.
  set (tops := filter (fun item => (category item =? "top")%string) (u0 :: us)).
  set (outerwear := filter (fun item => (category item =? "outerwear")%string) (u0 :: us)).
  assert (Htops : exists items1 s3,
             (match tops with
              | [] => ret []
              | _ :: _ => bind (random_element tops) (fun x => ret [x])
              end) w s2 = (Ok items1, s3)
             /\ n_axios s3 = n_axios s /\ picked_from tops items1).
  { destruct tops as [|t0 ts] eqn:Et.
    - do 2 eexists. split; [reflexivity|]. split; [exact Ha2|]. left. auto.
    - destruct (random_element_valid (t0 :: ts) w s2 Hv) as (x & Hx & Hin); [discriminate|].
      unfold bind. rewrite Hx. do 2 eexists. split; [reflexivity|].
      split; [exact Ha2|]. right. eauto. }
  destruct Htops as (items1 & s3 & Htops & Ha3 & Hpt). unfold bind at 1. rewrite Htops.
  destruct (below_70 StringToNumber (req_weather req)) eqn:Ecold.
  - destruct outerwear as [|o0 os] eqn:Eo.
    + cbn. do 4 eexists. split; [reflexivity|]. cbn.
      split; [exact Ha3|]. repeat (split; [reflexivity|]).
      split; [symmetry; apply app_nil_r|]. split; [exact Hpt|]. left. auto.
    + cbn [List.length Nat.ltb Nat.leb andb].
      destruct (random_element_valid (o0 :: os) w s3 Hv) as (x & Hx & Hin); [discriminate|].
      unfold bind. rewrite Hx. cbn.
      do 4 eexists. split; [reflexivity|]. cbn.
      split; [exact Ha3|]. repeat (split; [reflexivity|]).
      split; [exact Hpt|]. right. eauto.
  - rewrite andb_false_r. cbn.
    do 4 eexists. split; [reflexivity|]. cbn.
    split; [exact Ha3|]. repeat (split; [reflexivity|]).
    split; [symmetry; apply app_nil_r|]. split; [exact Hpt|]. reflexivity.
Qed.


Lemma picked_from_filter (test : ClothingItem -> bool) (uuid : string)
    (clothingItems : list ClothingItem) (x : list (option ClothingItem)) :
  picked_from (filter test (items_of uuid clothingItems)) x ->
  (List.length x <= 1)%nat
  /\ Forall (fun e => exists it, e = Some it /\ In it clothingItems
                                 /\ userId it = uuid /\ test it = true) x.
Proof.
  intros [[_ ->]|(it & Hin & ->)]; [split; [cbn; lia | constructor]|].
  apply filter_In in Hin. destruct Hin as [Hin Htest].
  apply filter_In in Hin. destruct Hin as [Hin Hu]. apply String.eqb_eq in Hu.
  split; [cbn; lia|]. constructor; [|constructor]. exists it. auto.
Qed.





(** X13.  In [POST /outfits/generate] of the single-process gateway, for
    a user who owns an item and draws in [[0, 1)]: the answer is 200, and
    the outfit holds two items at most, each of them an item of the array
    that belongs to the requesting user and whose category is [top] or
    [outerwear]; no item of another user is ever returned.  When the user
    owns a top, the first item of the outfit is a top. *)
Theorem monolith_outfit_is_the_users_own (toString36 : Q -> string)
    (toISOString : Z -> string) (StringToNumber : string -> JS.number)
    (clothingItems : list ClothingItem) (uuid : string)
    (req : OutfitRequest) w s :
  valid_random w ->
  (exists mine, In mine clothingItems /\ userId mine = uuid) ->
  exists outfit s',
    outfits_generate toString36 toISOString StringToNumber clothingItems uuid req w s
    = (Ok (mkResponse 200 (OutfitBodyOk outfit)), s')
    /\ (List.length (items outfit) <= 2)%nat
    /\ Forall (fun e => exists it, e = Some it /\ In it clothingItems
                                   /\ userId it = uuid
                                   /\ (category it = "top" \/ category it = "outerwear"))
              (items outfit)
    /\ ((exists t, In t clothingItems /\ userId t = uuid /\ category t = "top") ->
        exists it, hd_error (items outfit) = Some (Some it) /\ category it = "top").
Proof.
  intros Hv (mine & Hin & Hu).
  assert (Hne : items_of uuid clothingItems <> []).
  { intros E. assert (H : In mine (items_of uuid clothingItems)).
    { apply filter_In. split; [exact Hin|]. rewrite Hu. apply String.eqb_refl. }
    rewrite E in H. exact H. }
  destruct (outfits_generate_run toString36 toISOString StringToNumber clothingItems uuid
              req w s Hv Hne)
    as (outfit & s' & tp & op & Hrun & _ & _ & _ & _ & Hitems & Htp & Hop).
  exists outfit, s'. split; [exact Hrun|]. rewrite Hitems.
  pose proof (picked_from_filter _ _ _ _ Htp) as [Hlt Hft].
  assert (Hout : (List.length op <= 1)%nat
                 /\ Forall (fun e => exists it, e = Some it /\ In it clothingItems
                                                /\ userId it = uuid
                                                /\ (category it =? "outerwear")%string = true)
                           op).
  { destruct (below_70 StringToNumber (req_weather req)).
    - apply (picked_from_filter _ _ _ _ Hop).
    - subst op. split; [cbn; lia | constructor]. }
  destruct Hout as [Hlo Hfo].
  split; [rewrite length_app; lia|]. split.
  - apply Forall_app. split.
    + eapply Forall_impl; [|exact Hft]. cbn. intros e (it & -> & H1 & H2 & H3).
      exists it. apply String.eqb_eq in H3. auto.
    + eapply Forall_impl; [|exact Hfo]. cbn. intros e (it & -> & H1 & H2 & H3).
      exists it. apply String.eqb_eq in H3. auto.
  - intros (t & Ht_in & Ht_u & Ht_c).
    destruct Htp as [[E _]|(it & Hit & ->)].
    + assert (H : In t (filter (fun item => (category item =? "top")%string)
                               (items_of uuid clothingItems))).
      { apply filter_In. split; [|rewrite Ht_c; reflexivity].
        apply filter_In. split; [exact Ht_in|]. rewrite Ht_u. apply String.eqb_refl. }
      rewrite E in H. contradiction.
    + exists it. split; [reflexivity|].
      apply filter_In in Hit. destruct Hit as [_ Hc]. apply String.eqb_eq in Hc. exact Hc.
Qed.


End MonolithOutfit.

Module MoreExamples.
Import Examples.



(** A service answers 404 with a text body. *)
Definition answer_404 : Response string := mkResponse 404 "Item not found".

Definition world_404 : World string :=
  mkWorld (fun _ => 1 # 4) (fun n => 1700000000000 + Z.of_nat n)%Z
          (fun _ => Rejected (Some "ERR_BAD_REQUEST") (Some (mkHttp 404 "Item not found"))).

(** A request to the single-process gateway on a warm day. *)
Definition warm_request : Monolith.OutfitRequest :=
  Monolith.mkOutfitRequest JS.Undefined (Some (mkWeather (JS.Num (75 # 1)) (Some "sunny")))
                           (JS.Str "2024-07-15").



End MoreExamples.

Section RouteMoreExamples.
Import OutfitService Examples RouteExamples MoreExamples.



(** X12 at a service that answers 404. *)
Lemma proxy_passes_the_answer_on_witness :
  Gateway.proxyRequest "http://localhost:3002" "/items/1" world_404 no_reads
  = (Ok (mkResponse 404 (Gateway.Forwarded "Item not found")), mkReads 0 0 1).
Proof.
  exact (proxy_passes_the_answer_on world_404 no_reads "http://localhost:3002" "/items/1"
           answer_404 eq_refl).
Defined.

(** X13 at a user who owns a tee and a jacket, on a cold day. *)
Lemma monolith_outfit_is_the_users_own_witness :
  exists outfit s',
    Monolith.outfits_generate some_base36 some_iso some_number [white_tee; rain_jacket]
      "user-1" cold_request (quarter_world unit) no_reads
    = (Ok (mkResponse 200 (Monolith.OutfitBodyOk outfit)), s')
    /\ (List.length (Monolith.items outfit) <= 2)%nat
    /\ Forall (fun e => exists it, e = Some it /\ In it [white_tee; rain_jacket]
                                   /\ userId it = "user-1"
                                   /\ (category it = "top" \/ category it = "outerwear"))
              (Monolith.items outfit)
    /\ ((exists t, In t [white_tee; rain_jacket] /\ userId t = "user-1"
                   /\ category t = "top") ->
        exists it, hd_error (Monolith.items outfit) = Some (Some it)
                   /\ category it = "top").
Proof.
  apply (monolith_outfit_is_the_users_own some_base36 some_iso some_number
           [white_tee; rain_jacket] "user-1" cold_request (quarter_world unit) no_reads).
  - intros n. split; [discriminate | reflexivity].
  - exists white_tee. simpl. auto.
Defined.


End RouteMoreExamples.

(** * The middleware [authenticateToken] *)

Module Auth.

(** [str.split(' ')]: the pieces between single spaces; two spaces in a
    row, a leading or a trailing space give an empty piece. *)
Fixpoint split_space (str : string) : list string :=
  match str with
  | EmptyString => [EmptyString]
  | String c rest =>
      if Ascii.eqb c " " then EmptyString :: split_space rest
      else match split_space rest with
           | piece :: pieces => String c piece :: pieces
           | [] => [String c EmptyString]
           end
  end.

(** How the middleware ends: it answers itself, or it calls [next()] with
    [req.user] set. *)
Inductive Outcome (U : Type) : Type :=
| Answered (status : nat) (error : string)
| Next (user : U).
Arguments Answered {U} _ _.
Arguments Next {U} _.

Section Middleware.
Context {U : Type}.

(** [jwt.verify(token, secret)]: the decoded payload, or [None] when it
    throws. *)
Variable verify : string -> option U.

(** The text of the 403 answer: ['Invalid or expired token'] in the
    services, ['Invalid token'] in the single-process gateway. *)
Variable invalid : string.

(** [authHeader] is [req.headers['authorization']]: [None] when the
    request has no such header. *)
Definition authenticateToken (authHeader : option string) : Outcome U :=
  let token :=
    match authHeader with
    | None => None
    | Some h => if (h =? "")%string then None else nth_error (split_space h) 1
    end in
  match token with
  | None => Answered 401 "Access token required"
  | Some t =>
      if (t =? "")%string then Answered 401 "Access token required"
      else match verify t with
           | Some decoded => Next decoded
           | None => Answered 403 invalid
           end
  end.

End Middleware.

End Auth.

Section AuthFacts.
Import Auth.

(** The string holds no space. *)
Definition no_space (str : string) : Prop := ~ In " "%char (list_ascii_of_string str).

Lemma split_space_nonempty (str : string) : split_space str <> [].
Proof.
  induction str as [|c rest IH]; cbn; [discriminate|].
  destruct (Ascii.eqb c " "); [discriminate|].
  destruct (split_space rest); discriminate.
Qed.

Lemma split_space_no_space (str : string) : no_space str -> split_space str = [str].
Proof.
  unfold no_space. induction str as [|c rest IH]; cbn; intros H; [reflexivity|].
  destruct (Ascii.eqb_spec c " ") as [->|Hc]; [elim H; auto|].
  rewrite IH; [reflexivity|]. intros Hin. apply H. auto.
Qed.

Lemma split_space_app (a b : string) :
  no_space a -> split_space (a ++ String " " b) = a :: split_space b.
Proof.
  unfold no_space. induction a as [|c rest IH]; cbn; intros H; [reflexivity|].
  destruct (Ascii.eqb_spec c " ") as [->|Hc]; [elim H; auto|].
  rewrite IH; [reflexivity|]. intros Hin. apply H. auto.
Qed.

Lemma second_piece (scheme token : string) :
  no_space scheme -> no_space token ->
  nth_error (split_space (scheme ++ String " " token)) 1 = Some token.
Proof.
  intros Hs Ht. rewrite (split_space_app _ _ Hs), (split_space_no_space _ Ht). reflexivity.
Qed.

Lemma second_piece_then_more (scheme token more : string) :
  no_space scheme -> no_space token ->
  nth_error (split_space (scheme ++ String " " (token ++ String " " more))) 1 = Some token.
Proof.
  intros Hs Ht. rewrite (split_space_app _ _ Hs), (split_space_app _ _ Ht). reflexivity.
Qed.

Lemma app_space_not_empty (a b : string) : ((a ++ String " " b)%string =? "")%string = false.
Proof. destruct a; reflexivity. Qed.

(** X15.  [authenticateToken] takes the second word of the header as the
    token and does not look at the first: for a header made of any word, a
    space and a token that is not empty and holds no space, it calls
    [next()] with the payload [jwt.verify] decodes from exactly that token,
    and answers 403 when the verification throws.  What follows a further
    space is ignored. *)
Theorem authenticate_second_word {U : Type} (verify : string -> option U)
    (invalid scheme token more : string) :
  no_space scheme -> no_space token -> token <> "" ->
  let outcome := match verify token with
                 | Some decoded => Next decoded
                 | None => Answered 403 invalid
                 end in
  authenticateToken verify invalid (Some (scheme ++ " " ++ token)%string) = outcome
  /\ authenticateToken verify invalid
       (Some (scheme ++ " " ++ token ++ " " ++ more)%string)
     = outcome.
Proof.
  intros Hs Ht Hne. cbv zeta.
  assert (Hempty : (token =? "")%string = false) by (apply String.eqb_neq; exact Hne).
  unfold authenticateToken. cbn [append].
  change (" " ++ token)%string with (String " " token).
  change (" " ++ token ++ String " " more)%string with (String " " (token ++ String " " more)).
  rewrite !app_space_not_empty, second_piece, second_piece_then_more by assumption.
  rewrite Hempty. split; reflexivity.
Qed.

(** X16.  Without a header, or with a header of one word only (a bare
    token without a scheme, say), [authenticateToken] answers 401 and does
    not verify anything: the answer is the same for every [jwt.verify]. *)
Theorem authenticate_needs_two_words {U : Type} (verify : string -> option U)
    (invalid : string) (authHeader : option string) :
  (forall h, authHeader = Some h -> no_space h) ->
  authenticateToken verify invalid authHeader = Answered 401 "Access token required".
Proof.
  intros H. unfold authenticateToken. destruct authHeader as [h|]; [|reflexivity].
  destruct (h =? "")%string; [reflexivity|].
  rewrite (split_space_no_space h (H h eq_refl)). reflexivity.
Qed.

End AuthFacts.

(** * The wardrobe routes of the single-process gateway *)

Module MonolithWardrobe.

(** One element of the module-level array [clothingItems]: the fields the
    outfit route reads ([core]) and the others. *)
Record StoredItem : Type := mkStored {
  core : ClothingItem;
  brand : string;
  size : string;
  purchasePrice : Q;
  wearCount : nat;
  favorite : bool;
  imageUri : string;
  createdAt : option string
}.

(** [req.body] of [POST /wardrobe/items] *)
Record NewItemRequest : Type := mkNewItemRequest {
  req_name : JS.value;
  req_category : JS.value;
  req_colors : option (list string);
  req_seasons : option (list string);
  req_occasions : option (list string);
  req_brand : JS.value;
  req_size : JS.value;
  req_purchasePrice : option Q
}.

(** [summary] of [GET /wardrobe/items] *)
Record Summary : Type := mkSummary {
  totalItems : nat;
  categories : list string;
  totalValue : Q;
  avgWearCount : Q
}.

Inductive ItemsBody : Type :=
| (** [{ error }] *)
  ItemsError (error : string)
| (** [{ success: true, message, items, count, summary }] *)
  ItemsList (items : list StoredItem) (count : nat) (summary : Summary)
| (** [{ success: true, message, item }] *)
  ItemAdded (item : StoredItem).

(** [[...new Set(arr)]]: the elements of [arr] without repetition, each at
    the place of its first occurrence. *)
Fixpoint unique (seen : list string) (arr : list string) : list string :=
  match arr with
  | [] => []
  | x :: rest =>
      if existsb (String.eqb x) seen then unique seen rest
      else x :: unique (x :: seen) rest
  end.

(** [a || 'lit'] for a field that is a string when present. *)
Definition string_or (a : JS.value) (lit : string) : string :=
  match a with
  | JS.Str s => if (s =? "")%string then lit else s
  | _ => lit
  end.

(** [a || []] *)
Definition array_or_empty (a : option (list string)) : list string :=
  match a with
  | Some l => l
  | None => []
  end.

(** The items of the array that belong to the user. *)
Definition userItems (clothingItems : list StoredItem) (uuid : string) : list StoredItem :=
  filter (fun item => (userId (core item) =? uuid)%string) clothingItems.

(** The handler of [GET /wardrobe/items], once [authenticateToken] has let
    the request of the user [uuid] through. *)
Definition get_items (clothingItems : list StoredItem) (uuid : string)
  : Response ItemsBody :=
  let items := userItems clothingItems uuid in
  mkResponse 200
    (ItemsList items (List.length items)
       (mkSummary
          (List.length items)
          (unique [] (map (fun item => category (core item)) items))
          (fold_left (fun sum item => sum + purchasePrice item) items 0)
          (if (0 <? List.length items)%nat
           then inject_Z (Z.of_nat (fold_left (fun sum item => (sum + wearCount item)%nat)
                                               items 0%nat))
                / inject_Z (Z.of_nat (List.length items))
           else 0))).

Section AddItem.
Context {D : Type}.

(** The renderings of a number in base 36 and of an instant as an ISO
    string, and [name.toLowerCase().replace(/\s+/g, '-')], are taken as
    given. *)
Variable toString36 : Q -> string.
Variable toISOString : Z -> string.
Variable slug : string -> string.

(** The handler of [POST /wardrobe/items]: the answer and the array after
    the request. *)
Definition add_item (clothingItems : list StoredItem) (uuid : string)
    (req : NewItemRequest) : M D (Response ItemsBody * list StoredItem) :=
  try_catch
    (if negb (JS.truthy (req_name req)) || negb (JS.truthy (req_category req)) then
       ret (mkResponse 400 (ItemsError "Name and category are required"), clothingItems)
     else
       let name := string_or (req_name req) "" in
       let category := string_or (req_category req) "" in
       r <- Math_random ;;
       t <- Date_now ;;
       let newItem :=
         mkStored
           (mkItem (substring 2 9 (toString36 r)) uuid name category
                   (array_or_empty (req_colors req))
                   (Some (array_or_empty (req_seasons req)))
                   (Some (array_or_empty (req_occasions req))))
           (string_or (req_brand req) "")
           (string_or (req_size req) "")
           (match req_purchasePrice req with Some price => price | None => 0 end)
           0 false
           ("https://example.com/" ++ slug name ++ ".jpg")%string
           (Some (toISOString t)) in
       ret (mkResponse 201 (ItemAdded newItem), clothingItems ++ [newItem]))
    (fun _ => ret (mkResponse 500 (ItemsError "Failed to add clothing item"), clothingItems)).

End AddItem.

End MonolithWardrobe.

Section MonolithWardrobeFacts.
Import MonolithWardrobe.
Context {D : Type}.
Implicit Types (w : World D) (s : Reads) (clothingItems : list StoredItem).

Lemma unique_spec (arr seen : list string) :
  NoDup (unique seen arr)
  /\ (forall x, In x (unique seen arr) <-> In x arr /\ ~ In x seen).
Proof.
  revert seen. induction arr as [|a arr IH]; intros seen; cbn.
  - split; [constructor|]. intros x. tauto.
  - destruct (existsb (String.eqb a) seen) eqn:E.
    + destruct (IH seen) as [Hnd Hin]. split; [exact Hnd|].
      intros x. rewrite Hin. split; [tauto|].
      intros [[->|H] Hs]; [|tauto].
      apply existsb_exists in E. destruct E as (y & Hy & Heq).
      apply String.eqb_eq in Heq. subst y. contradiction.
    + destruct (IH (a :: seen)) as [Hnd Hin]. split.
      * constructor; [|exact Hnd]. rewrite Hin. cbn. tauto.
      * intros x. cbn. rewrite Hin. cbn.
        assert (Ha : ~ In a seen).
        { intros Hs. assert (Ht : existsb (String.eqb a) seen = true).
          { apply existsb_exists. exists a. split; [exact Hs | apply String.eqb_refl]. }
          congruence. }
        destruct (string_dec a x) as [->|Hne]; [tauto|]. tauto.
Qed.

Lemma userItems_app clothingItems (more : list StoredItem) (uuid : string) :
  userItems (clothingItems ++ more) uuid
  = userItems clothingItems uuid ++ userItems more uuid.
Proof. apply filter_app. Qed.

Lemma fold_prices_nonneg (items : list StoredItem) (acc : Q) :
  0 <= acc -> Forall (fun it => 0 <= purchasePrice it) items ->
  0 <= fold_left (fun sum item => sum + purchasePrice item) items acc.
Proof.
  revert acc. induction items as [|it items IH]; intros acc Hacc Hall; cbn; [exact Hacc|].
  inversion Hall; subst. apply IH; [|assumption].
  apply Qle_trans with (0 + 0); [discriminate|]. apply Qplus_le_compat; assumption.
Qed.

(** [mine] is what is left of [all] when the items of the other users are
    taken out: the items of the user, each as often as in [all] and in the
    order of [all]. *)
Inductive own_items_of (uuid : string) : list StoredItem -> list StoredItem -> Prop :=
| own_nil : own_items_of uuid [] []
| own_keep (it : StoredItem) (all mine : list StoredItem) :
    userId (core it) = uuid ->
    own_items_of uuid all mine -> own_items_of uuid (it :: all) (it :: mine)
| own_skip (it : StoredItem) (all mine : list StoredItem) :
    userId (core it) <> uuid ->
    own_items_of uuid all mine -> own_items_of uuid (it :: all) mine.

Lemma userItems_own clothingItems (uuid : string) :
  own_items_of uuid clothingItems (userItems clothingItems uuid).
Proof.
  unfold userItems. induction clothingItems as [|it rest IH]; cbn; [constructor|].
  destruct (String.eqb_spec (userId (core it)) uuid) as [E|N].
  - apply own_keep; assumption.
  - apply own_skip; assumption.
Qed.

(** The relation fixes the list: a listing in another order does not
    satisfy it. *)
Lemma own_items_of_unique (uuid : string) (all mine mine' : list StoredItem) :
  own_items_of uuid all mine -> own_items_of uuid all mine' -> mine = mine'.
Proof.
  intros H. revert mine'. induction H as [|it all mine Hu H IH|it all mine Hu H IH];
    intros mine' H'; inversion H'; subst; try contradiction.
  - reflexivity.
  - f_equal. apply IH. assumption.
  - apply IH. assumption.
Qed.

(** X17.  [GET /wardrobe/items] of the single-process gateway returns the
    items of the requesting user and no other, in the order of the array.
    [count] and [summary.totalItems] are their number; [summary.categories]
    lists each of their categories once; [summary.totalValue] is not
    negative when no price is. *)
Theorem wardrobe_get_own_items clothingItems (uuid : string) :
  exists items summary,
    get_items clothingItems uuid = mkResponse 200 (ItemsList items (List.length items) summary)
    /\ own_items_of uuid clothingItems items
    /\ (forall other, own_items_of uuid clothingItems other -> other = items)
    /\ (forall it, In it items <-> In it clothingItems /\ userId (core it) = uuid)
    /\ totalItems summary = List.length items
    /\ NoDup (categories summary)
    /\ (forall c, In c (categories summary)
                  <-> exists it, In it items /\ category (core it) = c)
    /\ (Forall (fun it => 0 <= purchasePrice it) clothingItems ->
        0 <= totalValue summary).
Proof.
  unfold get_items. do 2 eexists. split; [reflexivity|]. cbn [totalItems categories totalValue].
  split; [apply userItems_own|].
  split; [intros other Ho; exact (own_items_of_unique _ _ _ _ Ho (userItems_own _ _))|].
  split; [|split; [reflexivity|]].
  - intros it. unfold userItems. rewrite filter_In.
    split; intros [H1 H2]; (split; [exact H1|]); apply String.eqb_eq; exact H2.
  - destruct (unique_spec (map (fun item => category (core item))
                               (userItems clothingItems uuid)) []) as [Hnd Hin].
    split; [exact Hnd|]. split.
    + intros c. rewrite Hin, in_map_iff. cbn. split.
      * intros [(it & Hc & Hit) _]. eauto.
      * intros (it & Hit & Hc). split; [eauto | tauto].
    + intros Hall. apply fold_prices_nonneg; [discriminate|].
      apply Forall_forall. intros it Hit. apply filter_In in Hit.
      rewrite Forall_forall in Hall. apply Hall. apply Hit.
Qed.


End MonolithWardrobeFacts.

Section MonolithAddThenGenerate.
Import MonolithWardrobe.
Context {D : Type}.
Implicit Types (w : World D) (s : Reads) (clothingItems : list StoredItem).

Lemma items_of_core clothingItems (uuid : string) :
  items_of uuid (map core clothingItems) = map core (userItems clothingItems uuid).
Proof.
  unfold items_of, userItems. induction clothingItems as [|it rest IH]; cbn; [reflexivity|].
  destruct (userId (core it) =? uuid)%string; cbn; rewrite IH; reflexivity.
Qed.

(** X19.  The two routes of the single-process gateway share the array:
    a user who owns nothing gets 400 from [POST /outfits/generate]; once
    the same user has added a top with [POST /wardrobe/items], the next
    [POST /outfits/generate] answers 200 with an outfit made of that item
    alone, for draws in [[0, 1)]. *)
Theorem added_top_is_recommended (toString36 : Q -> string) (toISOString : Z -> string)
    (StringToNumber : string -> JS.number)
    (slug : string -> string) clothingItems (uuid : string) (req : NewItemRequest)
    (oreq : Monolith.OutfitRequest) w s :
  valid_random w ->
  userItems clothingItems uuid = [] ->
  JS.truthy (req_name req) = true -> req_category req = JS.Str "top" ->
  Monolith.outfits_generate toString36 toISOString StringToNumber (map core clothingItems)
    uuid oreq w s
  = (Ok (mkResponse 400 (Monolith.ErrorBody "No clothing items found. Add some items first!")),
     s)
  /\ exists item clothingItems' s1 outfit s2,
       add_item toString36 toISOString slug clothingItems uuid req w s
       = (Ok (mkResponse 201 (ItemAdded item), clothingItems'), s1)
       /\ Monolith.outfits_generate toString36 toISOString StringToNumber
            (map core clothingItems') uuid
            oreq w s1
          = (Ok (mkResponse 200 (Monolith.OutfitBodyOk outfit)), s2)
       /\ Monolith.items outfit = [Some (core item)].
Proof.
  intros Hv Hnone Hname Hcat. split.
  - unfold Monolith.outfits_generate, try_catch.
    fold (items_of uuid (map core clothingItems)). rewrite items_of_core, Hnone. reflexivity.
  - unfold add_item, try_catch. rewrite Hname, Hcat. cbn [JS.truthy String.eqb negb orb].
    cbn [bind]. unfold bind, Math_random, Date_now, ret.
    cbn [n_random n_clock n_axios].
    set (item := mkStored _ _ _ _ _ _ _ _).
    set (s1 := mkReads _ _ _).
    assert (Hmine : items_of uuid (map core (clothingItems ++ [item])) = [core item]).
    { rewrite items_of_core, userItems_app, Hnone. cbn.
      rewrite String.eqb_refl. reflexivity. }
    assert (Hne : items_of uuid (map core (clothingItems ++ [item])) <> [])
      by (rewrite Hmine; discriminate).
    destruct (outfits_generate_run toString36 toISOString StringToNumber
                (map core (clothingItems ++ [item]))
                uuid oreq w s1 Hv Hne)
      as (outfit & s2 & tp & op & Hrun & _ & _ & _ & _ & Hitems & Htp & Hop).
    exists item, (clothingItems ++ [item]), s1, outfit, s2.
    split; [reflexivity|]. split; [exact Hrun|].
    rewrite Hmine in Htp, Hop. cbn in Htp, Hop.
    assert (Htp' : tp = [Some (core item)]).
    { destruct Htp as [[H _]|(it & [<-|[]] & ->)]; [discriminate | reflexivity]. }
    assert (Hop' : op = []).
    { destruct (Monolith.below_70 StringToNumber (Monolith.req_weather oreq)); [|exact Hop].
      destruct Hop as [[_ H]|(it & [] & _)]. exact H. }
    rewrite Hitems, Htp', Hop'. reflexivity.
Qed.

End MonolithAddThenGenerate.

(** * The authentication routes of the single-process gateway *)

Module MonolithAuth.

(** An id: an integer that is a double, or [-Infinity], which
    [Math.max()] of no argument is. *)
Inductive Num : Type :=
| Finite (z : Z)
| NegInfinity.

(** [Math.max(a, b)] *)
Definition max2 (a b : Num) : Num :=
  match a, b with
  | Finite x, Finite y => Finite (Z.max x y)
  | Finite x, NegInfinity => Finite x
  | NegInfinity, _ => b
  end.

(** [Math.max(...arr)] *)
Definition Math_max (arr : list Num) : Num := fold_left max2 arr NegInfinity.

(** The double nearest to the integer [n], for [n] within the range of
    the doubles.  Every integer below [2^53] in absolute value is a double;
    from there on the doubles between [2^(52+e)] and [2^(53+e)] are [2^e]
    apart, and a tie goes to the even significand. *)
Definition nearest_double (n : Z) : Z :=
  let a := Z.abs n in
  if (a <? 2 ^ 53)%Z then n
  else
    let ulp := (2 ^ (Z.log2 a - 52))%Z in
    let q := (a / ulp)%Z in
    let r := (a mod ulp)%Z in
    let q' := if (2 * r <? ulp)%Z then q
              else if (ulp <? 2 * r)%Z then (q + 1)%Z
              else if Z.even q then q else (q + 1)%Z in
    (Z.sgn n * (q' * ulp))%Z.

(** [a + 1], rounded as the addition of doubles rounds it. *)
Definition plus_one (a : Num) : Num :=
  match a with
  | Finite x => Finite (nearest_double (x + 1))
  | NegInfinity => NegInfinity
  end.

(** One element of the module-level array [users]. *)
Record User : Type := mkUser {
  id : Num;
  uuid : string;
  email : string;
  full_name : string;
  password_hash : string;
  role : string;
  status : string;
  created_at : option string
}.

(** The payload [generateToken] signs. *)
Record TokenPayload : Type := mkPayload {
  payload_userId : Num;
  payload_uuid : string;
  payload_email : string;
  payload_role : string
}.

(** The [user] object of the answers. *)
Record PublicUser : Type := mkPublic {
  public_id : Num;
  public_uuid : string;
  public_email : string;
  public_fullName : string;
  public_role : string;
  public_status : string
}.

Inductive AuthBody : Type :=
| (** [{ error }], with [details] when the handler caught an exception *)
  AuthError (error : string)
| (** [{ success: true, message, user, token }] *)
  AuthOk (user : PublicUser) (token : string).

Record RegisterRequest : Type := mkRegisterRequest {
  reg_email : JS.value;
  reg_password : JS.value;
  reg_fullName : JS.value
}.

Record LoginRequest : Type := mkLoginRequest {
  login_email : JS.value;
  login_password : JS.value
}.

(** A field that passed the test [!field]: the string it holds. *)
Definition text (a : JS.value) : string :=
  match a with
  | JS.Str s => s
  | _ => ""
  end.

Definition public (u : User) : PublicUser :=
  mkPublic (id u) (uuid u) (email u) (full_name u) (role u) (status u).

(** How far the handler of [POST /auth/register] runs before
    [await bcrypt.hash]: it answers at once, or it is suspended, with the
    address and the name it goes on with. *)
Inductive Started : Type :=
| Replied (r : Response AuthBody)
| Suspended (address fullName : string).

Section Routes.
Context {D : Type}.

(** [String.prototype.toLowerCase], the value [uuidv4()] returns to this
    request, [jwt.sign] with the secret and the expiry of [generateToken],
    and the rendering of an instant as an ISO string are taken as given.
    [jwt.sign] with [expiresIn] stamps the token with the instant of
    signing, which it reads from the clock: the token depends on the
    payload and on that instant. *)
Variable toLowerCase : string -> string.
Variable uuidv4 : string.
Variable jwt_sign : TokenPayload -> Z -> string.
Variable toISOString : Z -> string.

Definition generateToken (u : User) : M D string :=
  now <- Date_now ;;
  ret (jwt_sign (mkPayload (id u) (uuid u) (email u) (role u)) now).

(** [u.email.toLowerCase() === email.toLowerCase()] *)
Definition same_email (address : string) (u : User) : bool :=
  (toLowerCase (email u) =? toLowerCase address)%string.

(** The handler of [POST /auth/register] up to [await bcrypt.hash];
    [users] is the array when the request arrives. *)
Definition register_start (users : list User) (req : RegisterRequest) : Started :=
  if negb (JS.truthy (reg_email req)) || negb (JS.truthy (reg_password req))
     || negb (JS.truthy (reg_fullName req)) then
    Replied (mkResponse 400 (AuthError "Email, password, and fullName are required"))
  else
    match find (same_email (text (reg_email req))) users with
    | Some _ => Replied (mkResponse 409 (AuthError "Email already exists"))
    | None => Suspended (text (reg_email req)) (text (reg_fullName req))
    end.

(** The handler from the [await] on: the answer and the array after it.
    [users] is the array when the handler resumes, as the handlers that
    ran in the meantime left it.  [passwordHash] is how the [await] ended:
    the hash, or [None] when [bcrypt.hash] rejected. *)
Definition register_resume (users : list User) (address fullName : string)
    (passwordHash : option string) : M D (Response AuthBody * list User) :=
  match passwordHash with
  | None => ret (mkResponse 500 (AuthError "Registration failed"), users)
  | Some hash =>
      now <- Date_now ;;
      let newUser :=
        mkUser (plus_one (Math_max (map id users))) uuidv4
               (toLowerCase address) fullName
               hash "USER" "ACTIVE" (Some (toISOString now)) in
      token <- generateToken newUser ;;
      ret (mkResponse 201 (AuthOk (public newUser) token), users ++ [newUser])
  end.

(** A request that is served alone: no other handler changes the array
    while this one is suspended. *)
Definition register (users : list User) (req : RegisterRequest)
    (passwordHash : option string) : M D (Response AuthBody * list User) :=
  match register_start users req with
  | Replied r => ret (r, users)
  | Suspended address fullName => register_resume users address fullName passwordHash
  end.

(** The handler of [POST /auth/login]; the array is not changed. *)
Definition login (users : list User) (req : LoginRequest) : M D (Response AuthBody) :=
  if negb (JS.truthy (login_email req)) || negb (JS.truthy (login_password req)) then
    ret (mkResponse 400 (AuthError "Email and password are required"))
  else
    match find (fun u => same_email (text (login_email req)) u
                         && (status u =? "ACTIVE")%string) users with
    | None => ret (mkResponse 401 (AuthError "Invalid email or password"))
    | Some user =>
        token <- generateToken user ;;
        ret (mkResponse 200 (AuthOk (public user) token))
    end.

End Routes.

End MonolithAuth.

Section MonolithAuthFacts.
Context {D : Type}.
Implicit Types (w : World D) (s : Reads) (users : list MonolithAuth.User).

Variable toLowerCase : string -> string.
Variable jwt_sign : MonolithAuth.TokenPayload -> Z -> string.
Variable toISOString : Z -> string.

(** What [register] keeps true of the array: it is not empty, every id is
    an integer from 0 up to the bound, no two users share an id, and no
    two users share an email address up to the case of its letters. *)
Definition users_apart (bound : Z) users : Prop :=
  users <> []
  /\ Forall (fun u => exists z, MonolithAuth.id u = MonolithAuth.Finite z
                                /\ (0 <= z < bound)%Z) users
  /\ NoDup (map MonolithAuth.id users)
  /\ NoDup (map (fun u => toLowerCase (MonolithAuth.email u)) users).

(** The user the request of a 201 answer appends. *)
Definition registered (uuidv4 : string) (req : MonolithAuth.RegisterRequest)
    (u : MonolithAuth.User) : Prop :=
  MonolithAuth.email u = toLowerCase (MonolithAuth.text (MonolithAuth.reg_email req))
  /\ MonolithAuth.full_name u = MonolithAuth.text (MonolithAuth.reg_fullName req)
  /\ MonolithAuth.role u = "USER"
  /\ MonolithAuth.status u = "ACTIVE"
  /\ MonolithAuth.uuid u = uuidv4.

(** The payload of the token of a user, from the [user] object of an
    answer. *)
Definition payload_of_public (user : MonolithAuth.PublicUser) : MonolithAuth.TokenPayload :=
  MonolithAuth.mkPayload (MonolithAuth.public_id user) (MonolithAuth.public_uuid user)
    (MonolithAuth.public_email user) (MonolithAuth.public_role user).

Lemma nearest_double_small (n : Z) :
  (Z.abs n < 2 ^ 53)%Z -> MonolithAuth.nearest_double n = n.
Proof.
  intros H. unfold MonolithAuth.nearest_double. cbv zeta.
  apply Z.ltb_lt in H. rewrite H. reflexivity.
Qed.

(** Where the doubles thin out the next id is the last one again. *)
Lemma plus_one_at_2_53 :
  MonolithAuth.plus_one (MonolithAuth.Finite (2 ^ 53)) = MonolithAuth.Finite (2 ^ 53).
Proof. vm_compute. reflexivity. Qed.

Lemma fold_max_finite (ids : list MonolithAuth.Num) (a : Z) :
  Forall (fun n => exists z, n = MonolithAuth.Finite z) ids ->
  exists m, fold_left MonolithAuth.max2 ids (MonolithAuth.Finite a) = MonolithAuth.Finite m
            /\ (a <= m)%Z
            /\ (m = a \/ In (MonolithAuth.Finite m) ids)
            /\ Forall (fun n => exists z, n = MonolithAuth.Finite z /\ (z <= m)%Z) ids.
Proof.
  revert a. induction ids as [|n ids IH]; intros a Hall; cbn.
  - exists a. split; [reflexivity|]. split; [lia|]. split; [auto | constructor].
  - inversion Hall as [|? ? [z ->] Hrest]; subst. cbn.
    destruct (IH (Z.max a z) Hrest) as (m & Hm & Hle & Hin & Hall').
    exists m. split; [exact Hm|]. split; [lia|]. split.
    + destruct Hin as [->|Hin]; [|auto].
      destruct (Z.max_spec a z) as [[_ ->]|[_ ->]]; auto.
    + constructor; [exists z; split; [reflexivity | lia] | exact Hall'].
Qed.

Lemma Math_max_finite (ids : list MonolithAuth.Num) :
  ids <> [] -> Forall (fun n => exists z, n = MonolithAuth.Finite z) ids ->
  exists m, MonolithAuth.Math_max ids = MonolithAuth.Finite m
            /\ In (MonolithAuth.Finite m) ids
            /\ Forall (fun n => exists z, n = MonolithAuth.Finite z /\ (z <= m)%Z) ids.
Proof.
  intros Hne Hall. unfold MonolithAuth.Math_max. destruct ids as [|n ids]; [congruence|].
  inversion Hall as [|? ? [z ->] Hrest]; subst. cbn.
  destruct (fold_max_finite ids z Hrest) as (m & Hm & Hle & Hin & Hall').
  exists m. split; [exact Hm|]. split.
  - destruct Hin as [->|Hin]; [left; reflexivity | right; exact Hin].
  - constructor; [exists z; split; [reflexivity | lia] | exact Hall'].
Qed.

Lemma find_none_app {A} (test : A -> bool) (l : list A) (x : A) :
  find test l = None -> find test (l ++ [x]) = if test x then Some x else None.
Proof.
  induction l as [|a l IH]; cbn; intros H; [reflexivity|].
  destruct (test a); [discriminate | apply IH; exact H].
Qed.

Lemma find_none_of {A} (test : A -> bool) (l : list A) :
  (forall x, In x l -> test x = false) -> find test l = None.
Proof.
  induction l as [|a l IH]; cbn; intros H; [reflexivity|].
  rewrite (H a) by auto. apply IH. auto.
Qed.

Lemma find_first_app {A} (test : A -> bool) (l more : list A) (x : A) :
  find test l = Some x -> find test (l ++ more) = Some x.
Proof.
  induction l as [|a l IH]; cbn; intros H; [discriminate|].
  destruct (test a); [exact H | apply IH; exact H].
Qed.

Lemma NoDup_app_one {A} (l : list A) (x : A) : NoDup l -> ~ In x l -> NoDup (l ++ [x]).
Proof.
  induction 1 as [|a l Ha Hl IH]; cbn; intros Hx.
  - constructor; [tauto | constructor].
  - constructor.
    + rewrite in_app_iff. cbn. intros [H|[H|[]]]; [contradiction|]. subst. tauto.
    + apply IH. tauto.
Qed.

(** The id a resumed registration gives: one more than the largest id,
    exactly, while the ids are below [2^53]. *)
Lemma next_id (bound : Z) users :
  (bound < 2 ^ 53)%Z -> users <> [] ->
  Forall (fun u => exists z, MonolithAuth.id u = MonolithAuth.Finite z
                             /\ (0 <= z < bound)%Z) users ->
  exists m, MonolithAuth.Math_max (map MonolithAuth.id users) = MonolithAuth.Finite m
            /\ MonolithAuth.plus_one (MonolithAuth.Math_max (map MonolithAuth.id users))
               = MonolithAuth.Finite (m + 1)
            /\ (0 <= m < bound)%Z
            /\ Forall (fun n => exists z, n = MonolithAuth.Finite z /\ (z <= m)%Z)
                      (map MonolithAuth.id users).
Proof.
  intros Hb Hne Hfin.
  destruct (Math_max_finite (map MonolithAuth.id users)) as (m & Hm & Hin & Hle).
  { destruct users; [congruence | discriminate]. }
  { apply Forall_map. eapply Forall_impl; [|exact Hfin]. cbn. intros u (z & Hz & _). eauto. }
  assert (Hrange : (0 <= m < bound)%Z).
  { apply in_map_iff in Hin. destruct Hin as (u & Hu & Hin).
    rewrite Forall_forall in Hfin. destruct (Hfin u Hin) as (z & Hz & Hr).
    rewrite Hz in Hu. inversion Hu; subst. exact Hr. }
  exists m. split; [exact Hm|]. split; [|split; [exact Hrange | exact Hle]].
  rewrite Hm. cbn [MonolithAuth.plus_one]. rewrite nearest_double_small; [reflexivity|].
  rewrite Z.abs_eq by lia. lia.
Qed.

(** X20.  [POST /auth/register] keeps the users apart, as long as its
    requests do not overlap and the ids stay below [2^53].  Take an array
    that is not empty, whose ids are distinct integers from 0 up to a bound
    below [2^53] and whose email addresses are distinct up to letter case.
    A request that is served with no other handler changing the array
    while it awaits [bcrypt.hash] leaves such an array, with the bound
    raised by one.  A 201 answer appends one active user with role [USER],
    the address in lower case and an id one above the largest; any other
    answer (400, 409 or 500) leaves the array as it was.  [toLowerCase] is
    assumed idempotent. *)
Theorem register_keeps_users_apart (uuidv4 : string) (bound : Z) users
    (req : MonolithAuth.RegisterRequest) (passwordHash : option string) w s :
  (forall x, toLowerCase (toLowerCase x) = toLowerCase x) ->
  (bound < 2 ^ 53)%Z ->
  users_apart bound users ->
  exists r users' s',
    MonolithAuth.register toLowerCase uuidv4 jwt_sign toISOString users req passwordHash w s
    = (Ok (r, users'), s')
    /\ users_apart (bound + 1) users'
    /\ ((status r = 201%nat
         /\ exists u m, users' = users ++ [u] /\ registered uuidv4 req u
                        /\ MonolithAuth.id u = MonolithAuth.Finite (m + 1)
                        /\ MonolithAuth.Math_max (map MonolithAuth.id users)
                           = MonolithAuth.Finite m)
        \/ (In (status r) [400; 409; 500]%nat /\ users' = users)).
Proof.
  intros Hidem Hb (Hne & Hfin & Hids & Hemails).
  assert (Hwider : users_apart (bound + 1) users).
  { split; [exact Hne|]. split; [|split; assumption].
    eapply Forall_impl; [|exact Hfin]. cbn. intros u (z & Hz & Hr).
    exists z. split; [exact Hz | lia]. }
  unfold MonolithAuth.register, MonolithAuth.register_start.
  destruct (negb (JS.truthy (MonolithAuth.reg_email req))
            || negb (JS.truthy (MonolithAuth.reg_password req))
            || negb (JS.truthy (MonolithAuth.reg_fullName req))).
  { do 3 eexists. split; [reflexivity|]. split; [exact Hwider|]. right. cbn. auto. }
  destruct (find _ users) as [existing|] eqn:Efind.
  { do 3 eexists. split; [reflexivity|]. split; [exact Hwider|]. right. cbn. auto. }
  unfold MonolithAuth.register_resume.
  destruct passwordHash as [hash|].
  2:{ do 3 eexists. split; [reflexivity|]. split; [exact Hwider|]. right. cbn. auto. }
  unfold bind, Date_now, MonolithAuth.generateToken, ret. cbn [n_random n_clock n_axios].
  do 3 eexists. split; [reflexivity|].
  destruct (next_id bound users Hb Hne Hfin) as (m & Hmax & Hnext & Hrange & Hle).
  split.
  - split; [destruct users; discriminate|]. split; [|split].
    + apply Forall_app. split.
      * eapply Forall_impl; [|exact Hfin]. cbn. intros u (z & Hz & Hr).
        exists z. split; [exact Hz | lia].
      * constructor; [|constructor]. cbn [MonolithAuth.id]. rewrite Hnext.
        exists (m + 1)%Z. split; [reflexivity | lia].
    + rewrite map_app. cbn. apply NoDup_app_one; [exact Hids|].
      rewrite Hnext. intros Hin. rewrite Forall_forall in Hle.
      destruct (Hle _ Hin) as (z & Hz & Hzm). inversion Hz. lia.
    + rewrite map_app. cbn. apply NoDup_app_one; [exact Hemails|].
      rewrite Hidem. intros Hin. apply in_map_iff in Hin. destruct Hin as (u & Hu & Hin).
      pose proof (find_none _ _ Efind u Hin) as Hno.
      unfold MonolithAuth.same_email in Hno. rewrite Hu, String.eqb_refl in Hno.
      discriminate.
  - left. split; [reflexivity|]. eexists _, m. split; [reflexivity|].
    split; [unfold registered; cbn; auto|].
    split; [cbn [MonolithAuth.id]; exact Hnext | exact Hmax].
Qed.

(** X21.  A user who has just registered, in a request served alone, can
    log in, with the address in any letter case and with any password that
    is not empty, also after further users were appended to the array: the
    password is not compared with anything.  The login answers with the
    user of the registration and with a token signed anew, for the same
    payload, at the instant of the login.  [toLowerCase] is assumed
    idempotent. *)
Theorem register_then_login (uuidv4 : string) users (req : MonolithAuth.RegisterRequest)
    (passwordHash : option string) w s
    (token : string) (user : MonolithAuth.PublicUser) (users' : list MonolithAuth.User) s'
    (more : list MonolithAuth.User) (address password : string) w2 s2 :
  (forall x, toLowerCase (toLowerCase x) = toLowerCase x) ->
  MonolithAuth.register toLowerCase uuidv4 jwt_sign toISOString users req passwordHash w s
  = (Ok (mkResponse 201 (MonolithAuth.AuthOk user token), users'), s') ->
  toLowerCase address = toLowerCase (MonolithAuth.text (MonolithAuth.reg_email req)) ->
  address <> "" -> password <> "" ->
  MonolithAuth.login toLowerCase jwt_sign (users' ++ more)
    (MonolithAuth.mkLoginRequest (JS.Str address) (JS.Str password)) w2 s2
  = (Ok (mkResponse 200
           (MonolithAuth.AuthOk user
              (jwt_sign (payload_of_public user) (clock w2 (n_clock s2))))),
     mkReads (n_random s2) (S (n_clock s2)) (n_axios s2)).
Proof.
  intros Hidem Hreg Haddr Ha Hp.
  unfold MonolithAuth.register, MonolithAuth.register_start in Hreg.
  destruct (negb (JS.truthy (MonolithAuth.reg_email req))
            || negb (JS.truthy (MonolithAuth.reg_password req))
            || negb (JS.truthy (MonolithAuth.reg_fullName req))); [discriminate|].
  destruct (find _ users) as [existing|] eqn:Efind; [discriminate|].
  unfold MonolithAuth.register_resume in Hreg.
  destruct passwordHash as [hash|]; [|discriminate].
  unfold bind, Date_now, MonolithAuth.generateToken, ret in Hreg.
  inversion Hreg; subst; clear Hreg.
  unfold MonolithAuth.login. cbn [MonolithAuth.login_email MonolithAuth.login_password
                                  JS.truthy MonolithAuth.text].
  apply String.eqb_neq in Ha, Hp. rewrite Ha, Hp. cbn [negb orb].
  erewrite find_first_app.
  2:{ rewrite find_none_app.
      - unfold MonolithAuth.same_email. cbn [MonolithAuth.email MonolithAuth.status].
        rewrite Hidem, Haddr, String.eqb_refl. reflexivity.
      - apply find_none_of. intros u Hin.
        pose proof (find_none _ _ Efind u Hin) as Hno.
        unfold MonolithAuth.same_email in *. rewrite Haddr, Hno. reflexivity. }
  reflexivity.
Qed.

(** X22.  [POST /auth/login] answers 200 for a request with an address
    and a password that are not empty exactly when the array holds an
    active user with that address, up to letter case; the user returned is
    the first such user of the array, and the answer is the same for every
    password that is not empty.  Otherwise the answer is 401.  The token
    of a 200 answer is signed for that user at the instant of the
    request. *)
Theorem login_ignores_the_password users (address password other : string) w s :
  address <> "" -> password <> "" -> other <> "" ->
  MonolithAuth.login toLowerCase jwt_sign users
    (MonolithAuth.mkLoginRequest (JS.Str address) (JS.Str password)) w s
  = MonolithAuth.login toLowerCase jwt_sign users
      (MonolithAuth.mkLoginRequest (JS.Str address) (JS.Str other)) w s
  /\ ((exists before u after,
         users = before ++ u :: after
         /\ toLowerCase (MonolithAuth.email u) = toLowerCase address
         /\ MonolithAuth.status u = "ACTIVE"
         /\ Forall (fun v => toLowerCase (MonolithAuth.email v) <> toLowerCase address
                             \/ MonolithAuth.status v <> "ACTIVE") before
         /\ MonolithAuth.login toLowerCase jwt_sign users
              (MonolithAuth.mkLoginRequest (JS.Str address) (JS.Str password)) w s
            = (Ok (mkResponse 200
                     (MonolithAuth.AuthOk (MonolithAuth.public u)
                        (jwt_sign (payload_of_public (MonolithAuth.public u))
                           (clock w (n_clock s))))),
               mkReads (n_random s) (S (n_clock s)) (n_axios s)))
      \/ (Forall (fun v => toLowerCase (MonolithAuth.email v) <> toLowerCase address
                           \/ MonolithAuth.status v <> "ACTIVE") users
          /\ MonolithAuth.login toLowerCase jwt_sign users
               (MonolithAuth.mkLoginRequest (JS.Str address) (JS.Str password)) w s
             = (Ok (mkResponse 401 (MonolithAuth.AuthError "Invalid email or password")),
                s))).
Proof.
  intros Ha Hp Ho.
  unfold MonolithAuth.login. cbn [MonolithAuth.login_email MonolithAuth.login_password
                                  JS.truthy MonolithAuth.text].
  apply String.eqb_neq in Ha, Hp, Ho. rewrite Ha, Hp, Ho. cbn [negb orb].
  split; [reflexivity|].
  set (test := fun u => MonolithAuth.same_email toLowerCase address u
                        && (MonolithAuth.status u =? "ACTIVE")%string).
  assert (Htest : forall v, test v = false ->
                    toLowerCase (MonolithAuth.email v) <> toLowerCase address
                    \/ MonolithAuth.status v <> "ACTIVE").
  { intros v Hv. unfold test, MonolithAuth.same_email in Hv.
    apply andb_false_iff in Hv. destruct Hv as [Hv|Hv]; apply String.eqb_neq in Hv; auto. }
  induction users as [|u0 rest IH]; cbn [find].
  - right. split; [constructor | reflexivity].
  - destruct (test u0) eqn:E0.
    + left. exists [], u0, rest. unfold test, MonolithAuth.same_email in E0.
      apply andb_true_iff in E0. destruct E0 as [E1 E2].
      apply String.eqb_eq in E1, E2.
      split; [reflexivity|]. split; [exact E1|]. split; [exact E2|].
      split; [constructor | reflexivity].
    + destruct IH as [(before & u & after & -> & H1 & H2 & H3 & H4)|[H1 H2]].
      * left. exists (u0 :: before), u, after.
        split; [reflexivity|]. split; [exact H1|]. split; [exact H2|].
        split; [constructor; [apply Htest; exact E0 | exact H3] | exact H4].
      * right. split; [constructor; [apply Htest; exact E0 | exact H1] | exact H2].
Qed.

Lemma register_start_suspended users (req : MonolithAuth.RegisterRequest)
    (address fullName : string) :
  MonolithAuth.register_start toLowerCase users req
  = MonolithAuth.Suspended address fullName ->
  address = MonolithAuth.text (MonolithAuth.reg_email req)
  /\ fullName = MonolithAuth.text (MonolithAuth.reg_fullName req)
  /\ find (MonolithAuth.same_email toLowerCase address) users = None.
Proof.
  unfold MonolithAuth.register_start.
  destruct (negb (JS.truthy (MonolithAuth.reg_email req))
            || negb (JS.truthy (MonolithAuth.reg_password req))
            || negb (JS.truthy (MonolithAuth.reg_fullName req))); [discriminate|].
  destruct (find _ users) eqn:Efind; [discriminate|].
  intros H. inversion H; subst. auto.
Qed.

(** X29.  Two registrations that overlap can take the same address.  When
    two requests with the same address, up to letter case, both arrive
    before either has resumed from [await bcrypt.hash], both pass the test
    for an existing user; when they resume one after the other, each gets
    201 and appends the user of its request, and the array then holds two
    users with the same address. *)
Theorem overlapping_registers_share_an_address (uuid1 uuid2 : string) users
    (req1 req2 : MonolithAuth.RegisterRequest) (address1 name1 address2 name2 : string)
    (hash1 hash2 : string) w s :
  MonolithAuth.register_start toLowerCase users req1
  = MonolithAuth.Suspended address1 name1 ->
  MonolithAuth.register_start toLowerCase users req2
  = MonolithAuth.Suspended address2 name2 ->
  toLowerCase address1 = toLowerCase address2 ->
  exists user1 token1 u1 s1 user2 token2 u2 s2,
    MonolithAuth.register_resume toLowerCase uuid1 jwt_sign toISOString
      users address1 name1 (Some hash1) w s
    = (Ok (mkResponse 201 (MonolithAuth.AuthOk user1 token1), users ++ [u1]), s1)
    /\ MonolithAuth.register_resume toLowerCase uuid2 jwt_sign toISOString
         (users ++ [u1]) address2 name2 (Some hash2) w s1
       = (Ok (mkResponse 201 (MonolithAuth.AuthOk user2 token2), users ++ [u1; u2]), s2)
    /\ registered uuid1 req1 u1 /\ registered uuid2 req2 u2
    /\ MonolithAuth.email u1 = MonolithAuth.email u2
    /\ ~ NoDup (map (fun u => toLowerCase (MonolithAuth.email u)) (users ++ [u1; u2])).
Proof.
  intros Hstart1 Hstart2 Hsame.
  apply register_start_suspended in Hstart1, Hstart2.
  destruct Hstart1 as (Ha1 & Hn1 & _). destruct Hstart2 as (Ha2 & Hn2 & _).
  unfold MonolithAuth.register_resume, bind, Date_now, MonolithAuth.generateToken, ret.
  cbn [n_random n_clock n_axios].
  do 8 eexists. split; [reflexivity|].
  split; [rewrite <- app_assoc; reflexivity|].
  split; [unfold registered; cbn; subst; auto|].
  split; [unfold registered; cbn; subst; auto|].
  split; [cbn [MonolithAuth.email]; exact Hsame|].
  rewrite map_app. cbn [map MonolithAuth.email]. rewrite Hsame.
  intros Hnd. apply NoDup_remove_2 in Hnd. apply Hnd.
  apply in_or_app. right. left. reflexivity.
Qed.

End MonolithAuthFacts.

(** * Calls to a database *)

(** How a call to the database ends: its promise resolves with a value,
    or the call throws or its promise rejects. *)
Inductive DbResult (A : Type) : Type :=
| Resolves (a : A)
| Rejects.
Arguments Resolves {A} _.
Arguments Rejects {A}.

(** * The login of the authentication service *)

Module AuthService.

(** The columns of a row of [users] the routes read. *)
Record Row : Type := mkRow {
  row_id : Z;
  row_uuid : string;
  row_email : string;
  row_full_name : string;
  row_password_hash : string;
  row_role : string
}.

(** The [user] object of the answers: a row without its password hash. *)
Record UserView : Type := mkView {
  view_id : Z;
  view_uuid : string;
  view_email : string;
  view_full_name : string;
  view_role : string
}.

(** The payload [generateToken] signs and [jwt.verify] decodes. *)
Record TokenPayload : Type := mkPayload {
  payload_userId : Z;
  payload_uuid : string;
  payload_email : string;
  payload_role : string
}.

Inductive AuthBody : Type :=
| (** [{ error }] *)
  AuthError (error : string)
| (** [{ success: true, token, user }] *)
  LoginOk (token : string) (user : UserView)
| (** [{ success: true, user }] *)
  MeOk (user : UserView).

Definition view (user : Row) : UserView :=
  mkView (row_id user) (row_uuid user) (row_email user) (row_full_name user) (row_role user).

Section Routes.

(** [jwt.sign] and [jwt.verify] with the secret of the service ([None]
    when [verify] throws), and [bcrypt.compare] ([None] when it throws or
    rejects) are taken as given. *)
Variable jwt_sign : TokenPayload -> string.
Variable jwt_verify : string -> option TokenPayload.
Variable bcrypt_compare : JS.value -> string -> option bool.

Definition generateToken (user : Row) : string :=
  jwt_sign (mkPayload (row_id user) (row_uuid user) (row_email user) (row_role user)).

(** The handler of [POST /login].  [select] is how the query for the
    active users with the address of the request ends. *)
Definition login (select : DbResult (list Row)) (password : JS.value)
  : Response AuthBody :=
  match select with
  | Rejects => mkResponse 500 (AuthError "Login failed")
  | Resolves [] => mkResponse 401 (AuthError "Invalid credentials")
  | Resolves (user :: _) =>
      let isValidPassword :=
        if JS.strict_eq_str password "any" then Some true
        else bcrypt_compare password (row_password_hash user) in
      match isValidPassword with
      | None => mkResponse 500 (AuthError "Login failed")
      | Some false => mkResponse 401 (AuthError "Invalid credentials")
      | Some true => mkResponse 200 (LoginOk (generateToken user) (view user))
      end
  end.

(** The handler of [GET /me].  [authorization] is
    [req.headers.authorization]; [select userId] is how the query for the
    user with that id ends. *)
Definition me (authorization : option string)
    (select : Z -> DbResult (list UserView)) : Response AuthBody :=
  let token :=
    match authorization with
    | None => None
    | Some h => nth_error (Auth.split_space h) 1
    end in
  match token with
  | None => mkResponse 401 (AuthError "No token provided")
  | Some t =>
      if (t =? "")%string then mkResponse 401 (AuthError "No token provided")
      else match jwt_verify t with
           | None => mkResponse 401 (AuthError "Invalid token")
           | Some decoded =>
               match select (payload_userId decoded) with
               | Rejects => mkResponse 401 (AuthError "Invalid token")
               | Resolves [] => mkResponse 404 (AuthError "User not found")
               | Resolves (user :: _) => mkResponse 200 (MeOk user)
               end
           end
  end.

End Routes.

End AuthService.

Section AuthServiceFacts.
Import AuthService.

Variable jwt_sign : TokenPayload -> string.
Variable jwt_verify : string -> option TokenPayload.
Variable bcrypt_compare : JS.value -> string -> option bool.

(** X23.  [POST /login] of the authentication service answers 200
    exactly when the query returns a user and the password is the word
    [any] or [bcrypt.compare] accepts it for the hash of the first user
    returned.  With the password [any] every active account opens: the
    answer carries the token and the data of that user, whatever the
    stored hash and whatever [bcrypt.compare] would say. *)
Theorem auth_login_accepts_any (select : DbResult (list Row)) (password : JS.value) :
  (status (login jwt_sign bcrypt_compare select password) = 200%nat
   <-> exists user rest,
         select = Resolves (user :: rest)
         /\ (password = JS.Str "any"
             \/ bcrypt_compare password (row_password_hash user) = Some true))
  /\ (forall user rest,
        select = Resolves (user :: rest) ->
        login jwt_sign bcrypt_compare select (JS.Str "any")
        = mkResponse 200 (LoginOk (generateToken jwt_sign user) (view user))
        /\ forall other_compare,
             login jwt_sign other_compare select (JS.Str "any")
             = login jwt_sign bcrypt_compare select (JS.Str "any")).
Proof.
  split.
  - unfold login. destruct select as [[|user rest]|].
    + cbn. split; [discriminate | intros (u & r & H & _); discriminate].
    + destruct (JS.strict_eq_str password "any") eqn:Eany.
      * cbn. split; [|reflexivity]. intros _. exists user, rest. split; [reflexivity|].
        left. destruct password as [| |p]; cbn in Eany; try discriminate.
        apply String.eqb_eq in Eany. subst. reflexivity.
      * destruct (bcrypt_compare password (row_password_hash user)) as [[]|] eqn:Ecmp; cbn.
        -- split; [|reflexivity]. intros _. exists user, rest. auto.
        -- split; [discriminate|]. intros (u & r & H & [Hp|Hc]).
           ++ subst. cbn in Eany. discriminate.
           ++ inversion H; subst. congruence.
        -- split; [discriminate|]. intros (u & r & H & [Hp|Hc]).
           ++ subst. cbn in Eany. discriminate.
           ++ inversion H; subst. congruence.
    + cbn. split; [discriminate | intros (u & r & H & _); discriminate].
  - intros user rest ->. split; [reflexivity|]. intros other. reflexivity.
Qed.

(** X24.  [GET /me] of the authentication service answers 200, 401 or
    404 and never 500: a query that fails is reported as 401 with the text
    [Invalid token], although the token verified.  The answer is 200
    exactly when the second word of the header is a token that verifies
    and the query for its user id returns a row, and the user of the
    answer is then the first row returned. *)
Theorem auth_me_never_500 (authorization : option string)
    (select : Z -> DbResult (list UserView)) :
  In (status (me jwt_verify authorization select)) [200; 401; 404]%nat
  /\ (forall user,
        me jwt_verify authorization select = mkResponse 200 (MeOk user)
        <-> exists h t decoded rest,
              authorization = Some h
              /\ nth_error (Auth.split_space h) 1 = Some t /\ t <> ""
              /\ jwt_verify t = Some decoded
              /\ select (payload_userId decoded) = Resolves (user :: rest))
  /\ (forall h t decoded,
        authorization = Some h ->
        nth_error (Auth.split_space h) 1 = Some t -> t <> "" ->
        jwt_verify t = Some decoded ->
        select (payload_userId decoded) = Rejects ->
        me jwt_verify authorization select = mkResponse 401 (AuthError "Invalid token")).
Proof.
  unfold me. split; [|split].
  - destruct authorization as [h|]; [|cbn; auto].
    destruct (nth_error (Auth.split_space h) 1) as [t|]; [|cbn; auto].
    destruct (t =? "")%string; [cbn; auto|].
    destruct (jwt_verify t) as [decoded|]; [|cbn; auto].
    destruct (select (payload_userId decoded)) as [[|u rest]|]; cbn; auto.
  - intros user. split.
    + destruct authorization as [h|]; [|discriminate].
      destruct (nth_error (Auth.split_space h) 1) as [t|] eqn:Et; [|discriminate].
      destruct (String.eqb_spec t "") as [->|Hne]; [discriminate|].
      destruct (jwt_verify t) as [decoded|] eqn:Ev; [|discriminate].
      destruct (select (payload_userId decoded)) as [[|u rest]|] eqn:Es; try discriminate.
      intros H. inversion H; subst. exists h, t, decoded, rest.
      repeat split; try reflexivity; assumption.
    + intros (h & t & decoded & rest & -> & -> & Hne & -> & ->).
      apply String.eqb_neq in Hne. rewrite Hne. reflexivity.
  - intros h t decoded -> -> Hne -> ->.
    apply String.eqb_neq in Hne. rewrite Hne. reflexivity.
Qed.

(** What [generateToken] signs for a user. *)
Definition payload_of (user : UserView) : TokenPayload :=
  mkPayload (view_id user) (view_uuid user) (view_email user) (view_role user).

(** X25.  Login, then [GET /me]: when [jwt.verify] decodes what
    [jwt.sign] signed for the user, the token holds no space, and the
    table still holds the user under the same id, the token of a 200
    answer of [POST /login], sent back as [Bearer <token>], makes [GET /me]
    answer 200 with the same user. *)
Theorem auth_login_then_me (users : DbResult (list Row)) (password : JS.value)
    (token : string) (user : UserView) (select : Z -> DbResult (list UserView))
    (rest : list UserView) :
  jwt_verify (jwt_sign (payload_of user)) = Some (payload_of user) ->
  login jwt_sign bcrypt_compare users password = mkResponse 200 (LoginOk token user) ->
  no_space token -> token <> "" ->
  select (view_id user) = Resolves (user :: rest) ->
  me jwt_verify (Some ("Bearer " ++ token)%string) select = mkResponse 200 (MeOk user).
Proof.
  intros Hround Hlogin Hsp Hne Hsel.
  unfold login in Hlogin. destruct users as [[|row others]|]; try discriminate.
  destruct (if JS.strict_eq_str password "any" then Some true
            else bcrypt_compare password (row_password_hash row)) as [[]|];
    try discriminate.
  inversion Hlogin; subst; clear Hlogin.
  unfold me.
  change ("Bearer " ++ generateToken jwt_sign row)%string
    with ("Bearer" ++ String " " (generateToken jwt_sign row))%string.
  rewrite second_piece; [|vm_compute; intuition discriminate | exact Hsp].
  apply String.eqb_neq in Hne. rewrite Hne.
  change (generateToken jwt_sign row) with (jwt_sign (payload_of (view row))).
  rewrite Hround. cbn [payload_of payload_userId].
  rewrite Hsel. reflexivity.
Qed.

End AuthServiceFacts.

(** * The quiz and the recommendations of the profile service *)

Module ProfileService.

(** The fields of [req.body.answers] the quiz reads. *)
Record Answers : Type := mkAnswers {
  lifestyle : JS.value;
  answer_colors : JS.value;
  fit : JS.value
}.

(** [recommendations] of the quiz answer *)
Record QuizRecommendations : Type := mkQuizRecommendations {
  quiz_categories : list string;
  quiz_colors : list string;
  quiz_brands : list string
}.

Inductive QuizBody : Type :=
| (** [{ error }] *)
  QuizError (error : string)
| (** [{ success: true, stylePersonality, recommendations }] *)
  QuizOk (stylePersonality : list string) (recommendations : QuizRecommendations).

(** [if (test) arr.push(label)] *)
Definition push_if (test : bool) (label : string) (arr : list string) : list string :=
  if test then arr ++ [label] else arr.

(** The array [stylePersonality] the quiz builds. *)
Definition stylePersonality (answers : Answers) : list string :=
  let arr := [] in
  let arr := push_if (JS.strict_eq_str (lifestyle answers) "active") "athletic" arr in
  let arr := push_if (JS.strict_eq_str (lifestyle answers) "professional")
                     "business-casual" arr in
  let arr := push_if (JS.strict_eq_str (lifestyle answers) "creative") "artistic" arr in
  let arr := push_if (JS.strict_eq_str (answer_colors answers) "bold") "bold" arr in
  let arr := push_if (JS.strict_eq_str (answer_colors answers) "neutral") "minimalist" arr in
  let arr := push_if (JS.strict_eq_str (answer_colors answers) "pastels") "feminine" arr in
  let arr := push_if (JS.strict_eq_str (fit answers) "loose") "comfortable" arr in
  let arr := push_if (JS.strict_eq_str (fit answers) "fitted") "tailored" arr in
  let arr := push_if (JS.strict_eq_str (fit answers) "oversized") "trendy" arr in
  arr.

(** The handler of [POST /style-quiz], once [authenticateToken] has let
    the request through.  [answers] is [None] when the body has no
    [answers] or holds [null] there: reading [answers.lifestyle] then
    throws.  [updateOne] is how the write to the collection ends. *)
Definition style_quiz (answers : option Answers) (updateOne : DbResult unit)
  : Response QuizBody :=
  match answers with
  | None => mkResponse 500 (QuizError "Failed to process style quiz")
  | Some a =>
      let personality := stylePersonality a in
      match updateOne with
      | Rejects => mkResponse 500 (QuizError "Failed to process style quiz")
      | Resolves _ =>
          mkResponse 200
            (QuizOk personality
               (mkQuizRecommendations
                  ["top"; "bottom"; "outerwear"]
                  (if JS.strict_eq_str (answer_colors a) "bold"
                   then ["red"; "blue"; "green"] else ["black"; "white"; "gray"])
                  (if JS.includes personality (JS.Str "business-casual")
                   then ["Hugo Boss"; "Calvin Klein"] else ["Zara"; "H&M"])))
      end
  end.

(** The fields of a profile document [GET /recommendations/personal]
    reads, each [None] when the document has no such field or holds
    [null] there, and an array of strings otherwise. *)
Record Profile : Type := mkProfile {
  favoriteColors : option (list string);
  profile_stylePersonality : option (list string)
}.

Inductive PersonalBody : Type :=
| (** [{ error }] *)
  PersonalError (error : string)
| (** [{ success: true, recommendations: { message, suggestions } }] *)
  Incomplete (message : string) (suggestions : list string)
| (** [{ success: true, recommendations: { colors, styles, categories, tips } }] *)
  Personal (colors styles categories tips : list string).

Definition tip_minimalist : string :=
  "Focus on versatile, neutral pieces that mix and match easily".
Definition tip_bold : string :=
  "Don't be afraid to add statement pieces and vibrant colors".
Definition tip_professional : string :=
  "Invest in quality blazers and tailored pieces for work".

(** The handler of [GET /recommendations/personal]; [findOne] is how the
    lookup of the user's document ends.  Reading [.length] of a field the
    document does not have throws. *)
Definition personal (findOne : DbResult (option Profile)) : Response PersonalBody :=
  match findOne with
  | Rejects => mkResponse 500 (PersonalError "Failed to get personal recommendations")
  | Resolves None =>
      mkResponse 200
        (Incomplete "Complete your profile to get personalized recommendations!"
           ["Take the style quiz"; "Add your favorite colors"; "Set your size preferences"])
  | Resolves (Some profile) =>
      match favoriteColors profile, profile_stylePersonality profile with
      | Some favorite, Some personality =>
          let tips := [] in
          let tips := push_if (JS.includes personality (JS.Str "minimalist"))
                              tip_minimalist tips in
          let tips := push_if (JS.includes personality (JS.Str "bold")) tip_bold tips in
          let tips := push_if (JS.includes personality (JS.Str "professional"))
                              tip_professional tips in
          mkResponse 200
            (Personal
               (if (0 <? List.length favorite)%nat then favorite
                else ["navy"; "white"; "black"])
               (if (0 <? List.length personality)%nat then personality else ["casual"])
               ["top"; "bottom"; "outerwear"]
               tips)
      | _, _ => mkResponse 500 (PersonalError "Failed to get personal recommendations")
      end
  end.

End ProfileService.

Section ProfileFacts.
Import ProfileService.

(** The label one question of the quiz contributes: at most one, since
    the three literals it is compared with differ. *)
Definition label_of (v : JS.value) (l1 t1 l2 t2 l3 t3 : string) : list string :=
  if JS.strict_eq_str v l1 then [t1]
  else if JS.strict_eq_str v l2 then [t2]
  else if JS.strict_eq_str v l3 then [t3]
  else [].

Lemma three_pushes (v : JS.value) (l1 t1 l2 t2 l3 t3 : string) (arr : list string) :
  l1 <> l2 -> l1 <> l3 -> l2 <> l3 ->
  push_if (JS.strict_eq_str v l3) t3
    (push_if (JS.strict_eq_str v l2) t2 (push_if (JS.strict_eq_str v l1) t1 arr))
  = arr ++ label_of v l1 t1 l2 t2 l3 t3.
Proof.
  intros H12 H13 H23. unfold label_of, push_if.
  destruct v as [| |s]; cbn; try (rewrite app_nil_r; reflexivity).
  destruct (String.eqb_spec s l1) as [->|N1].
  - apply String.eqb_neq in H12, H13. rewrite H12, H13. reflexivity.
  - destruct (String.eqb_spec s l2) as [->|N2].
    + apply String.eqb_neq in H23. rewrite H23. reflexivity.
    + destruct (String.eqb_spec s l3); [reflexivity | rewrite app_nil_r; reflexivity].
Qed.

Definition lifestyle_label (a : Answers) : list string :=
  label_of (lifestyle a) "active" "athletic" "professional" "business-casual"
           "creative" "artistic".
Definition colors_label (a : Answers) : list string :=
  label_of (answer_colors a) "bold" "bold" "neutral" "minimalist" "pastels" "feminine".
Definition fit_label (a : Answers) : list string :=
  label_of (fit a) "loose" "comfortable" "fitted" "tailored" "oversized" "trendy".

Lemma stylePersonality_labels (a : Answers) :
  stylePersonality a = lifestyle_label a ++ colors_label a ++ fit_label a.
Proof.
  unfold stylePersonality. cbv zeta.
  rewrite (three_pushes (lifestyle a)) by discriminate.
  rewrite (three_pushes (answer_colors a)) by discriminate.
  rewrite (three_pushes (fit a)) by discriminate.
  cbn [app]. rewrite app_assoc. reflexivity.
Qed.

Lemma label_of_cases (v : JS.value) (l1 t1 l2 t2 l3 t3 : string) :
  (label_of v l1 t1 l2 t2 l3 t3 = [t1] /\ v = JS.Str l1)
  \/ (label_of v l1 t1 l2 t2 l3 t3 = [t2] /\ v = JS.Str l2)
  \/ (label_of v l1 t1 l2 t2 l3 t3 = [t3] /\ v = JS.Str l3)
  \/ (label_of v l1 t1 l2 t2 l3 t3 = []
      /\ v <> JS.Str l1 /\ v <> JS.Str l2 /\ v <> JS.Str l3).
Proof.
  unfold label_of. destruct v as [| |s]; cbn.
  1,2: right; right; right; repeat split; discriminate.
  destruct (String.eqb_spec s l1) as [->|N1]; [auto|].
  destruct (String.eqb_spec s l2) as [->|N2]; [auto|].
  destruct (String.eqb_spec s l3) as [->|N3]; [auto|].
  right; right; right. repeat split; congruence.
Qed.

(** X26.  [POST /style-quiz] answers 200 when the request has answers and
    the write succeeds, 500 otherwise.  The style personality of a 200
    answer holds at most one label per question and so at most three, none
    of them twice; it holds [business-casual] exactly when the lifestyle
    answer is [professional], and the brands recommended are Hugo Boss and
    Calvin Klein exactly then. *)
Theorem quiz_personality (answers : option Answers) (updateOne : DbResult unit) :
  match answers, updateOne with
  | Some a, Resolves _ =>
      exists recommendations,
        style_quiz answers updateOne
        = mkResponse 200 (QuizOk (stylePersonality a) recommendations)
        /\ (List.length (stylePersonality a) <= 3)%nat
        /\ NoDup (stylePersonality a)
        /\ (In "business-casual" (stylePersonality a)
            <-> lifestyle a = JS.Str "professional")
        /\ (quiz_brands recommendations = ["Hugo Boss"; "Calvin Klein"]
            <-> lifestyle a = JS.Str "professional")
        /\ (quiz_brands recommendations = ["Zara"; "H&M"]
            <-> lifestyle a <> JS.Str "professional")
  | _, _ =>
      style_quiz answers updateOne
      = mkResponse 500 (QuizError "Failed to process style quiz")
  end.
Proof.
  destruct answers as [a|]; [|reflexivity].
  destruct updateOne as [u|]; [|reflexivity].
  eexists. split; [reflexivity|]. cbn [quiz_brands].
  rewrite stylePersonality_labels.
  unfold lifestyle_label, colors_label, fit_label.
  destruct (label_of_cases (lifestyle a) "active" "athletic" "professional"
              "business-casual" "creative" "artistic")
    as [[-> Hl]|[[-> Hl]|[[-> Hl]|[-> (Hl1 & Hl2 & Hl3)]]]];
  destruct (label_of_cases (answer_colors a) "bold" "bold" "neutral" "minimalist"
              "pastels" "feminine")
    as [[-> Hc]|[[-> Hc]|[[-> Hc]|[-> Hc]]]];
  destruct (label_of_cases (fit a) "loose" "comfortable" "fitted" "tailored"
              "oversized" "trendy")
    as [[-> Hf]|[[-> Hf]|[[-> Hf]|[-> Hf]]]];
  cbn;
  (split; [lia|]);
  (split; [repeat constructor; cbn; intuition discriminate|]);
  try rewrite Hl;
  (split; [|split]); split; intros H;
  try reflexivity; try discriminate; try congruence;
  try (cbn in H; intuition discriminate); try (cbn; auto; fail).
Qed.

Lemma includes_In (arr : list string) (lit : string) :
  JS.includes arr (JS.Str lit) = true <-> In lit arr.
Proof.
  cbn. rewrite existsb_exists. split.
  - intros (x & Hx & Heq). apply String.eqb_eq in Heq. subst. exact Hx.
  - intros H. exists lit. split; [exact H | apply String.eqb_refl].
Qed.

Lemma includes_not_In (arr : list string) (lit : string) :
  ~ In lit arr -> JS.includes arr (JS.Str lit) = false.
Proof.
  intros H. destruct (JS.includes arr (JS.Str lit)) eqn:E; [|reflexivity].
  apply includes_In in E. contradiction.
Qed.

Lemma label_of_In (v : JS.value) (l1 t1 l2 t2 l3 t3 x : string) :
  In x (label_of v l1 t1 l2 t2 l3 t3) -> x = t1 \/ x = t2 \/ x = t3.
Proof.
  destruct (label_of_cases v l1 t1 l2 t2 l3 t3)
    as [[-> _]|[[-> _]|[[-> _]|[-> _]]]]; cbn; intuition.
Qed.

(** X27.  The quiz never gives the label [professional].  Take a profile
    whose style personality is what the quiz computed, from any answers.
    When the profile has a [favoriteColors] array, empty or not,
    [GET /recommendations/personal] answers 200 with at most one tip, the
    tip for [minimalist] when the colours answer was [neutral] and the tip
    for [bold] when it was [bold], and never with the tip about blazers
    and tailored pieces for work.  When the profile has no
    [favoriteColors], a field the quiz does not write, the route answers
    500 and gives no tip at all. *)
Theorem quiz_then_no_professional_tip (a : Answers) (favorite : option (list string)) :
  match favorite with
  | Some _ =>
      exists colors styles categories tips,
        personal (Resolves (Some (mkProfile favorite (Some (stylePersonality a)))))
        = mkResponse 200 (Personal colors styles categories tips)
        /\ ~ In tip_professional tips
        /\ tips = (if JS.strict_eq_str (answer_colors a) "neutral" then [tip_minimalist]
                   else if JS.strict_eq_str (answer_colors a) "bold" then [tip_bold]
                   else [])
  | None =>
      personal (Resolves (Some (mkProfile favorite (Some (stylePersonality a)))))
      = mkResponse 500 (PersonalError "Failed to get personal recommendations")
  end.
Proof.
  destruct favorite as [favorite|]; [|reflexivity].
  unfold personal. cbn [favoriteColors profile_stylePersonality]. cbv zeta.
  do 4 eexists. split; [reflexivity|].
  assert (Hpro : JS.includes (stylePersonality a) (JS.Str "professional") = false).
  { apply includes_not_In. rewrite stylePersonality_labels, !in_app_iff.
    intros [H|[H|H]]; apply label_of_In in H; intuition discriminate. }
  rewrite Hpro.
  assert (Htips :
    push_if false tip_professional
      (push_if (JS.includes (stylePersonality a) (JS.Str "bold")) tip_bold
         (push_if (JS.includes (stylePersonality a) (JS.Str "minimalist")) tip_minimalist []))
    = (if JS.strict_eq_str (answer_colors a) "neutral" then [tip_minimalist]
       else if JS.strict_eq_str (answer_colors a) "bold" then [tip_bold]
       else [])).
  { rewrite stylePersonality_labels. unfold lifestyle_label, colors_label, fit_label.
    destruct (label_of_cases (lifestyle a) "active" "athletic" "professional"
                "business-casual" "creative" "artistic")
      as [[-> Hl]|[[-> Hl]|[[-> Hl]|[-> Hl]]]];
    destruct (label_of_cases (fit a) "loose" "comfortable" "fitted" "tailored"
                "oversized" "trendy")
      as [[-> Hf]|[[-> Hf]|[[-> Hf]|[-> Hf]]]];
    unfold label_of; destruct (answer_colors a) as [| |s]; cbn; try reflexivity;
    destruct (String.eqb_spec s "bold") as [->|Nb]; try reflexivity;
    destruct (String.eqb_spec s "neutral") as [->|Nn]; try reflexivity;
    destruct (String.eqb_spec s "pastels") as [->|Np]; reflexivity. }
  split; [|exact Htips].
  rewrite Htips.
  destruct (JS.strict_eq_str (answer_colors a) "neutral");
    [|destruct (JS.strict_eq_str (answer_colors a) "bold")];
    cbn; intuition discriminate.
Qed.


End ProfileFacts.

Module ServiceExamples.

(** The two users the array starts with. *)
Definition admin : MonolithAuth.User :=
  MonolithAuth.mkUser (MonolithAuth.Finite 1) "4205e3e9-5a64-11f0-aecf-f854f659880d"
    "admin@vyom.com" "System Administrator" "$2a$12$LQv3c1yqBWVHxkd0LHAkCOYz6TtxMQJqhN8/LewjMJA..."
    "ADMIN" "ACTIVE" None.

Definition anil : MonolithAuth.User :=
  MonolithAuth.mkUser (MonolithAuth.Finite 5) "30968eab-5a70-11f0-aecf-f854f659880d"
    "93anil199@gmail.com" "Anil Yadav" "$2b$12$2ZYhFwnukGcPYT/2O2a2vunJmbCOyGFlumoTYrWOQW5..."
    "USER" "ACTIVE" None.

Definition initial_users : list MonolithAuth.User := [admin; anil].

Definition new_user_request : MonolithAuth.RegisterRequest :=
  MonolithAuth.mkRegisterRequest (JS.Str "Mira@Vyom.com") (JS.Str "s3cret") (JS.Str "Mira Rao").

(** The same address in capitals. *)
Definition same_address_request : MonolithAuth.RegisterRequest :=
  MonolithAuth.mkRegisterRequest (JS.Str "MIRA@VYOM.COM") (JS.Str "0ther") (JS.Str "Mira R.").

(** A hash as [bcrypt.hash] resolves with, and a stand-in for [jwt.sign],
    which stamps the token with the instant of signing. *)
Definition some_hash : string := "$2a$10$N9qo8uLOickgx2ZMRZoMye".

Definition some_token (payload : MonolithAuth.TokenPayload) (now : Z) : string :=
  ("jwt." ++ MonolithAuth.payload_email payload ++ "." ++ JS.show_Z now)%string.

Definition some_slug (name : string) : string := GatewayHealth.toLowerCase name.

(** The two items the array [clothingItems] starts with. *)
Definition denim_jacket : MonolithWardrobe.StoredItem :=
  MonolithWardrobe.mkStored
    (mkItem "507f1f77bcf86cd799439011" "30968eab-5a70-11f0-aecf-f854f659880d"
            "Blue Denim Jacket" "outerwear" ["blue"] (Some ["spring"; "fall"])
            (Some ["casual"]))
    "Levi's" "M" (8999 # 100) 5 true "https://example.com/blue-jacket.jpg" None.

Definition cotton_tshirt : MonolithWardrobe.StoredItem :=
  MonolithWardrobe.mkStored
    (mkItem "507f1f77bcf86cd799439012" "30968eab-5a70-11f0-aecf-f854f659880d"
            "White Cotton T-Shirt" "top" ["white"] (Some ["all-year"])
            (Some ["casual"; "sports"]))
    "Nike" "M" (2999 # 100) 15 false "https://example.com/white-tshirt.jpg" None.

Definition new_top_request : MonolithWardrobe.NewItemRequest :=
  MonolithWardrobe.mkNewItemRequest (JS.Str "Linen Shirt") (JS.Str "top")
    (Some ["beige"]) None None JS.Undefined (JS.Str "L") None.

(** A row of the table [users] of the authentication service. *)
Definition admin_row : AuthService.Row :=
  AuthService.mkRow 1 "4205e3e9-5a64-11f0-aecf-f854f659880d" "admin@vyom.com"
    "System Administrator" "$2a$12$LQv3c1yqBWVHxkd0LHAkCOYz6TtxMQJqhN8/LewjMJA..." "ADMIN".

(** Stand-ins for [jwt.sign] and [jwt.verify] that know one token. *)
Definition one_token (payload : AuthService.TokenPayload) : string := "abc.def.ghi".

Definition verify_one_token (token : string) : option AuthService.TokenPayload :=
  if (token =? "abc.def.ghi")%string
  then Some (payload_of (AuthService.view admin_row))
  else None.

(** A [bcrypt.compare] that accepts nothing. *)
Definition compare_never (password : JS.value) (hash : string) : option bool := Some false.

End ServiceExamples.

Section LowerCaseFacts.
Import GatewayHealth.

Lemma lower_char_idempotent (c : ascii) : lower_char (lower_char c) = lower_char c.
Proof. destruct c as [[] [] [] [] [] [] [] []]; reflexivity. Qed.

Lemma toLowerCase_idempotent (str : string) :
  toLowerCase (toLowerCase str) = toLowerCase str.
Proof.
  induction str as [|c rest IH]; cbn; [reflexivity|].
  rewrite lower_char_idempotent, IH. reflexivity.
Qed.

End LowerCaseFacts.

Section ServiceWitnesses.
Import Examples RouteExamples MoreExamples ServiceExamples.

(** X15 at a [Bearer] header. *)
Lemma authenticate_second_word_witness :
  Auth.authenticateToken (fun t => if (t =? "abc.def.ghi")%string then Some 7%nat else None)
    "Invalid token" (Some "Bearer abc.def.ghi")
  = Auth.Next 7%nat
  /\ Auth.authenticateToken (fun t => if (t =? "abc.def.ghi")%string then Some 7%nat else None)
       "Invalid token" (Some "Bearer abc.def.ghi and more")
     = Auth.Next 7%nat.
Proof.
  refine (authenticate_second_word
            (fun t => if (t =? "abc.def.ghi")%string then Some 7%nat else None)
            "Invalid token" "Bearer" "abc.def.ghi" "and more" _ _ _).
  - vm_compute. intuition discriminate.
  - vm_compute. intuition discriminate.
  - discriminate.
Defined.

(** X16 at a header that is a bare token. *)
Lemma authenticate_needs_two_words_witness :
  Auth.authenticateToken (fun t => Some t) "Invalid token" (Some "abc.def.ghi")
  = Auth.Answered 401 "Access token required".
Proof.
  apply (authenticate_needs_two_words (fun t => Some t) "Invalid token" (Some "abc.def.ghi")).
  intros h Hh. inversion Hh; subst. vm_compute. intuition discriminate.
Defined.

(** X19 at a user who owns nothing yet. *)
Lemma added_top_is_recommended_witness :
  Monolith.outfits_generate some_base36 some_iso some_number
    (map MonolithWardrobe.core [denim_jacket; cotton_tshirt]) "user-9" warm_request
    (quarter_world unit) no_reads
  = (Ok (mkResponse 400
           (Monolith.ErrorBody "No clothing items found. Add some items first!")),
     no_reads)
  /\ exists item clothingItems' s1 outfit s2,
       MonolithWardrobe.add_item some_base36 some_iso some_slug
         [denim_jacket; cotton_tshirt] "user-9" new_top_request (quarter_world unit) no_reads
       = (Ok (mkResponse 201 (MonolithWardrobe.ItemAdded item), clothingItems'), s1)
       /\ Monolith.outfits_generate some_base36 some_iso some_number
            (map MonolithWardrobe.core clothingItems') "user-9" warm_request
            (quarter_world unit) s1
          = (Ok (mkResponse 200 (Monolith.OutfitBodyOk outfit)), s2)
       /\ Monolith.items outfit = [Some (MonolithWardrobe.core item)].
Proof.
  apply (added_top_is_recommended some_base36 some_iso some_number some_slug
           [denim_jacket; cotton_tshirt] "user-9" new_top_request warm_request
           (quarter_world unit) no_reads).
  - intros n. split; [discriminate | reflexivity].
  - reflexivity.
  - reflexivity.
  - reflexivity.
Defined.

(** X20 at the array the gateway starts with, whose ids are below 6. *)
Lemma register_keeps_users_apart_witness :
  exists r users' s',
    MonolithAuth.register GatewayHealth.toLowerCase "uuid-3" some_token some_iso
      initial_users new_user_request (Some some_hash) (quarter_world unit) no_reads
    = (Ok (r, users'), s')
    /\ users_apart GatewayHealth.toLowerCase (6 + 1) users'
    /\ ((status r = 201%nat
         /\ exists u m, users' = initial_users ++ [u]
                        /\ registered GatewayHealth.toLowerCase "uuid-3" new_user_request u
                        /\ MonolithAuth.id u = MonolithAuth.Finite (m + 1)
                        /\ MonolithAuth.Math_max (map MonolithAuth.id initial_users)
                           = MonolithAuth.Finite m)
        \/ (In (status r) [400; 409; 500]%nat /\ users' = initial_users)).
Proof.
  apply (register_keeps_users_apart GatewayHealth.toLowerCase some_token some_iso "uuid-3" 6
           initial_users new_user_request (Some some_hash) (quarter_world unit) no_reads).
  - exact toLowerCase_idempotent.
  - reflexivity.
  - unfold users_apart. split; [discriminate|]. split.
    + repeat constructor; eexists; (split; [reflexivity | lia]).
    + split; vm_compute; repeat constructor; simpl; intuition discriminate.
Defined.

(** X21 at a new user who then logs in with the address in capitals, after
    another user was appended. *)
Lemma register_then_login_witness :
  exists user token users' s',
    MonolithAuth.register GatewayHealth.toLowerCase "uuid-3" some_token some_iso
      initial_users new_user_request (Some some_hash) (quarter_world unit) no_reads
    = (Ok (mkResponse 201 (MonolithAuth.AuthOk user token), users'), s')
    /\ MonolithAuth.login GatewayHealth.toLowerCase some_token (users' ++ [anil])
         (MonolithAuth.mkLoginRequest (JS.Str "MIRA@VYOM.COM") (JS.Str "anything"))
         (later_world unit) no_reads
       = (Ok (mkResponse 200
                (MonolithAuth.AuthOk user
                   (some_token (payload_of_public user) (clock (later_world unit) 0)))),
          mkReads 0 1 0).
Proof.
  eexists _, _, _, _. split; [vm_compute; reflexivity|].
  refine (register_then_login GatewayHealth.toLowerCase some_token some_iso "uuid-3"
            initial_users new_user_request (Some some_hash) (quarter_world unit) no_reads
            _ _ _ _ [anil] "MIRA@VYOM.COM" "anything" (later_world unit) no_reads
            toLowerCase_idempotent _ _ _ _).
  - vm_compute. reflexivity.
  - vm_compute. reflexivity.
  - discriminate.
  - discriminate.
Defined.

(** X22 at one of the users the array starts with. *)
Lemma login_ignores_the_password_witness :
  (MonolithAuth.login GatewayHealth.toLowerCase some_token initial_users
     (MonolithAuth.mkLoginRequest (JS.Str "Admin@Vyom.com") (JS.Str "right"))
     (quarter_world unit) no_reads
   = MonolithAuth.login GatewayHealth.toLowerCase some_token initial_users
       (MonolithAuth.mkLoginRequest (JS.Str "Admin@Vyom.com") (JS.Str "wrong"))
       (quarter_world unit) no_reads
   /\ ((exists before u after,
          initial_users = before ++ u :: after
          /\ GatewayHealth.toLowerCase (MonolithAuth.email u)
             = GatewayHealth.toLowerCase "Admin@Vyom.com"
          /\ MonolithAuth.status u = "ACTIVE"
          /\ Forall (fun v => GatewayHealth.toLowerCase (MonolithAuth.email v)
                              <> GatewayHealth.toLowerCase "Admin@Vyom.com"
                              \/ MonolithAuth.status v <> "ACTIVE") before
          /\ MonolithAuth.login GatewayHealth.toLowerCase some_token initial_users
               (MonolithAuth.mkLoginRequest (JS.Str "Admin@Vyom.com") (JS.Str "right"))
               (quarter_world unit) no_reads
             = (Ok (mkResponse 200
                      (MonolithAuth.AuthOk (MonolithAuth.public u)
                         (some_token (payload_of_public (MonolithAuth.public u))
                            (clock (quarter_world unit) (n_clock no_reads))))),
                mkReads (n_random no_reads) (S (n_clock no_reads)) (n_axios no_reads)))
       \/ (Forall (fun v => GatewayHealth.toLowerCase (MonolithAuth.email v)
                            <> GatewayHealth.toLowerCase "Admin@Vyom.com"
                            \/ MonolithAuth.status v <> "ACTIVE") initial_users
           /\ MonolithAuth.login GatewayHealth.toLowerCase some_token initial_users
                (MonolithAuth.mkLoginRequest (JS.Str "Admin@Vyom.com") (JS.Str "right"))
                (quarter_world unit) no_reads
              = (Ok (mkResponse 401 (MonolithAuth.AuthError "Invalid email or password")),
                 no_reads))))
  /\ MonolithAuth.login GatewayHealth.toLowerCase some_token initial_users
       (MonolithAuth.mkLoginRequest (JS.Str "Admin@Vyom.com") (JS.Str "right"))
       (quarter_world unit) no_reads
     = (Ok (mkResponse 200
              (MonolithAuth.AuthOk (MonolithAuth.public admin)
                 (some_token (payload_of_public (MonolithAuth.public admin))
                    (clock (quarter_world unit) 0)))),
        mkReads 0 1 0).
Proof.
  split; [|reflexivity].
  apply (login_ignores_the_password GatewayHealth.toLowerCase some_token initial_users
           "Admin@Vyom.com" "right" "wrong" (quarter_world unit) no_reads); discriminate.
Defined.

(** X29 at two requests for one address, one of them in capitals. *)
Lemma overlapping_registers_share_an_address_witness :
  exists user1 token1 u1 s1 user2 token2 u2 s2,
    MonolithAuth.register_resume GatewayHealth.toLowerCase "uuid-3" some_token some_iso
      initial_users "Mira@Vyom.com" "Mira Rao" (Some some_hash) (quarter_world unit) no_reads
    = (Ok (mkResponse 201 (MonolithAuth.AuthOk user1 token1), initial_users ++ [u1]), s1)
    /\ MonolithAuth.register_resume GatewayHealth.toLowerCase "uuid-4" some_token some_iso
         (initial_users ++ [u1]) "MIRA@VYOM.COM" "Mira R." (Some some_hash)
         (quarter_world unit) s1
       = (Ok (mkResponse 201 (MonolithAuth.AuthOk user2 token2), initial_users ++ [u1; u2]),
          s2)
    /\ registered GatewayHealth.toLowerCase "uuid-3" new_user_request u1
    /\ registered GatewayHealth.toLowerCase "uuid-4" same_address_request u2
    /\ MonolithAuth.email u1 = MonolithAuth.email u2
    /\ ~ NoDup (map (fun u => GatewayHealth.toLowerCase (MonolithAuth.email u))
                    (initial_users ++ [u1; u2])).
Proof.
  apply (overlapping_registers_share_an_address GatewayHealth.toLowerCase some_token
           some_iso "uuid-3" "uuid-4" initial_users new_user_request same_address_request
           "Mira@Vyom.com" "Mira Rao" "MIRA@VYOM.COM" "Mira R." some_hash some_hash
           (quarter_world unit) no_reads); reflexivity.
Defined.

(** X25 at the administrator, who logs in with the password [any]. *)
Lemma auth_login_then_me_witness :
  AuthService.login one_token compare_never (Resolves [admin_row]) (JS.Str "any")
  = mkResponse 200 (AuthService.LoginOk "abc.def.ghi" (AuthService.view admin_row))
  /\ AuthService.me verify_one_token (Some "Bearer abc.def.ghi")
       (fun userId => if (userId =? 1)%Z then Resolves [AuthService.view admin_row]
                      else Resolves [])
     = mkResponse 200 (AuthService.MeOk (AuthService.view admin_row)).
Proof.
  split; [reflexivity|].
  refine (auth_login_then_me one_token verify_one_token compare_never
            (Resolves [admin_row]) (JS.Str "any") "abc.def.ghi"
            (AuthService.view admin_row)
            (fun userId => if (userId =? 1)%Z then Resolves [AuthService.view admin_row]
                           else Resolves [])
            [] _ _ _ _ _).
  - reflexivity.
  - reflexivity.
  - vm_compute. intuition discriminate.
  - discriminate.
  - reflexivity.
Defined.

End ServiceWitnesses.
